(** * Jules session monitor and smart poller: a shallow embedding

    The development follows the TypeScript sources:
    - [client.ts], [types.ts]: the remote session API and its data;
    - the monitor service (two variants: one built on [JulesClient], one
      built on the tool wrappers of [index_base_tool.ts] and on
      [OverseerAgent.checkOnJules]);
    - [smart-poller.ts]: the single-session polling loop;
    - [health.ts]: the health check.

    Asynchronous code is sequential here: every [await] is a step of a
    state-and-exception monad over a [World] that holds the database tables,
    the clock and the log of remote calls.  The remote service, database
    faults and the other collaborators are oracles collected in [Env].

    Conventions of the model:
    - a JavaScript string is a [string] of bytes (its UTF-8 encoding);
    - the Prisma schema is not part of the sources: the tables have the
      columns the code reads and writes, a column the code does not set on
      [create] is null, or the current instant for a creation date;
    - the string filter [contains] is substring containment, equality of
      strings is exact;
    - an exception is its message. *)

From Stdlib Require Import Ascii NArith.
From stdpp Require Import base option list strings gmap.

Set Warnings "-register-all".

(** ** JavaScript strings *)

Module JS.

(** [s.startsWith(t)] *)
Fixpoint startsWith (s t : string) : bool :=
  match t, s with
  | EmptyString, _ => true
  | String b t', String a s' => if Ascii.eqb a b then startsWith s' t' else false
  | String _ _, EmptyString => false
  end.

(** [s.includes(t)] *)
Fixpoint includes (s t : string) : bool :=
  startsWith s t ||
  match s with
  | EmptyString => false
  | String _ s' => includes s' t
  end.

(** [s.split(sep)] for a one-character separator; [cur] is the segment being
    read. *)
Fixpoint split_from (sep : ascii) (cur s : string) : list string :=
  match s with
  | EmptyString => [cur]
  | String c s' =>
      if Ascii.eqb c sep then cur :: split_from sep EmptyString s'
      else split_from sep (cur +:+ String c EmptyString) s'
  end.

Definition split (sep : ascii) (s : string) : list string :=
  split_from sep EmptyString s.

(** [arr.pop()]: the last element, [undefined] on an empty array. *)
Definition pop (arr : list string) : option string := last arr.

(** [c.toLowerCase()] on one ASCII letter; other bytes are kept. *)
Definition lower_char (c : ascii) : ascii :=
  let n := nat_of_ascii c in
  if (65 <=? n)%nat && (n <=? 90)%nat then ascii_of_nat (n + 32) else c.

Fixpoint toLowerCase (s : string) : string :=
  match s with
  | EmptyString => EmptyString
  | String c s' => String (lower_char c) (toLowerCase s')
  end.

(** [arr.join(sep)] *)
Fixpoint join (sep : string) (arr : list string) : string :=
  match arr with
  | [] => EmptyString
  | [x] => x
  | x :: rest => x +:+ sep +:+ join sep rest
  end.

(** Truthiness of a string: the empty string is falsy. *)
Definition truthy (s : string) : bool :=
  match s with EmptyString => false | _ => true end.

(** [a || b] on optional strings ([undefined] and the empty string are falsy). *)
Definition or_else (a : option string) (b : string) : string :=
  match a with
  | Some s => if truthy s then s else b
  | None => b
  end.

End JS.

(** ** JSON.stringify *)

Module JSON.

Inductive value :=
| Null
| Bool (b : bool)
| Num (digits : string)
| Str (s : string)
| Arr (items : list value)
| Obj (members : list (string * value)).

Definition dquote : ascii := "034"%char.
Definition backslash : ascii := "092"%char.

Definition hex_digit (n : nat) : ascii :=
  if (n <? 10)%nat then ascii_of_nat (48 + n) else ascii_of_nat (87 + n).

(** The escape of one character inside a JSON string literal. *)
Definition escape_char (c : ascii) : string :=
  let n := nat_of_ascii c in
  if Ascii.eqb c dquote then String backslash (String dquote EmptyString)
  else if Ascii.eqb c backslash then String backslash (String backslash EmptyString)
  else if (n =? 8)%nat then String backslash "b"
  else if (n =? 9)%nat then String backslash "t"
  else if (n =? 10)%nat then String backslash "n"
  else if (n =? 12)%nat then String backslash "f"
  else if (n =? 13)%nat then String backslash "r"
  else if (n <? 32)%nat then
    String backslash "u00" +:+
    String (hex_digit (n / 16)) (String (hex_digit (n mod 16)) EmptyString)
  else String c EmptyString.

Fixpoint escape (s : string) : string :=
  match s with
  | EmptyString => EmptyString
  | String c s' => escape_char c +:+ escape s'
  end.

Definition quote (s : string) : string :=
  String dquote (escape s +:+ String dquote EmptyString).

Fixpoint stringify (v : value) : string :=
  match v with
  | Null => "null"
  | Bool true => "true"
  | Bool false => "false"
  | Num d => d
  | Str s => quote s
  | Arr items => "[" +:+ JS.join "," (List.map stringify items) +:+ "]"
  | Obj members =>
      "{" +:+
      JS.join "," (List.map (fun kv => quote (fst kv) +:+ ":" +:+ stringify (snd kv)) members)
      +:+ "}"
  end.

(** A character that [stringify] copies unchanged into a string literal. *)
Definition plain_char (c : ascii) : bool :=
  negb (Ascii.eqb c dquote) && negb (Ascii.eqb c backslash)
  && negb (nat_of_ascii c <? 32)%nat.

Fixpoint plain (s : string) : bool :=
  match s with
  | EmptyString => true
  | String c s' => plain_char c && plain s'
  end.

(** Property lookup on an object. *)
Fixpoint get (k : string) (members : list (string * value)) : option value :=
  match members with
  | [] => None
  | (k', v) :: rest => if String.eqb k k' then Some v else get k rest
  end.

End JSON.

(** ** Remote data ([types.ts]) *)

Inductive SessionState :=
| STATE_UNSPECIFIED
| QUEUED
| PLANNING
| AWAITING_PLAN_APPROVAL
| AWAITING_USER_FEEDBACK
| IN_PROGRESS
| PAUSED
| FAILED
| COMPLETED.

(** The string value of each member of the enum. *)
Definition SessionState_value (s : SessionState) : string :=
  match s with
  | STATE_UNSPECIFIED => "STATE_UNSPECIFIED"
  | QUEUED => "QUEUED"
  | PLANNING => "PLANNING"
  | AWAITING_PLAN_APPROVAL => "AWAITING_PLAN_APPROVAL"
  | AWAITING_USER_FEEDBACK => "AWAITING_USER_FEEDBACK"
  | IN_PROGRESS => "IN_PROGRESS"
  | PAUSED => "PAUSED"
  | FAILED => "FAILED"
  | COMPLETED => "COMPLETED"
  end.

#[global] Instance SessionState_eq_dec : EqDecision SessionState.
Proof. solve_decision. Defined.

(** [Activity]: the fields the monitor and the poller read, and the remaining
    members of the payload ([artifacts], [planGenerated], ...) as JSON. *)
Record Activity := {
  act_name : string;
  act_id : string;
  act_originator : string;
  act_description : string;
  act_createTime : string;
  act_agentMessaged : option string;   (* agentMessaged?.agentMessage *)
  act_other : list (string * JSON.value);
}.

Record Session := {
  s_name : string;
  s_id : string;
  s_prompt : string;
  s_title : option string;
  s_state : SessionState;
  s_createTime : string;
  s_updateTime : string;
}.

Record ListSessionsResponse := { sessions : option (list Session) }.
Record ListActivitiesResponse := { activities : option (list Activity) }.

(** The activity as JSON, the way [JSON.stringify] sees the object. *)
Definition Activity_json (a : Activity) : JSON.value :=
  JSON.Obj
    ([("name", JSON.Str (act_name a));
      ("id", JSON.Str (act_id a));
      ("originator", JSON.Str (act_originator a));
      ("description", JSON.Str (act_description a));
      ("createTime", JSON.Str (act_createTime a))]
     ++ match act_agentMessaged a with
        | Some m => [("agentMessaged", JSON.Obj [("agentMessage", JSON.Str m)])]
        | None => []
        end
     ++ act_other a).

(** ** Database records (the Prisma models the monitor uses) *)

(** A [Date]: [new Date(iso)] or an instant of the clock ([new Date()]). *)
Inductive Date :=
| DateOf (iso : string)
| DateAt (ms : N).

(** A row of [JulesSession] without its primary key, and the record the
    client hands out. *)
Record JulesSessionColumns := {
  js_title : option string;
  js_status : string;
  js_origin : string;
  js_originalPrompt : string;
  js_sourceName : option string;
  js_enhancedContext : option string;
  js_createdAt : Date;
  js_updatedAt : Date;
  js_completedAt : option Date;
}.

Record JulesSession := {
  js_id : string;
  js_columns :> JulesSessionColumns;
}.

(** The [metadata] column holds the text [JSON.stringify] produced; the model
    keeps the value that was serialised, [metadata_text] is the column. *)
Record ActivityLog := {
  al_sessionId : option string;
  al_agent : string;
  al_action : string;
  al_result : string;
  al_success : bool;
  al_timestamp : Date;
  al_metadata : option JSON.value;
}.

Definition metadata_text (r : ActivityLog) : option string :=
  JSON.stringify <$> al_metadata r.

Record JulesInteraction := {
  ji_sessionId : string;
  ji_type : string;
  ji_julesMessage : option string;
  ji_agentResponse : option string;
  ji_isSuccess : bool;
  ji_errorMessage : option string;
  ji_timestamp : Date;
}.

Module ORIGIN.
Definition INTERNAL : string := "INTERNAL".
Definition EXTERNAL : string := "EXTERNAL".
End ORIGIN.

Module INTERACTION_TYPE.
Definition STATUS_CHECK : string := "STATUS_CHECK".
Definition AUTO_APPROVAL : string := "AUTO_APPROVAL".
Definition INTERVENTION_NEEDED : string := "INTERVENTION_NEEDED".
Definition AGENT_REPLY : string := "AGENT_REPLY".
Definition RETROFIT : string := "RETROFIT".
Definition ERROR : string := "ERROR".
End INTERACTION_TYPE.

Record EnhancedContext := {
  bindings : list string;
  techStack : list string;
  constraints : list string;
  documentation : list string;
}.

(** ** The world and the collaborators *)

(** A call to the remote service or to another collaborator, as issued. *)
Inductive Call :=
| CallListSessions (pageSize : option nat)
| CallGetSession (sessionId : string)
| CallListActivities (sessionId : string) (pageSize : option nat)
| CallSendMessage (sessionId message : string)
| CallApprovePlan (sessionId : string)
| CallOverseer (question : string)
| CallCloudflareDocs (query : string).

Inductive CallKind :=
| KListSessions | KGetSession | KListActivities | KSendMessage | KApprovePlan
| KOverseer | KCloudflareDocs.

#[global] Instance CallKind_eq_dec : EqDecision CallKind.
Proof. solve_decision. Defined.

Definition kind_of (c : Call) : CallKind :=
  match c with
  | CallListSessions _ => KListSessions
  | CallGetSession _ => KGetSession
  | CallListActivities _ _ => KListActivities
  | CallSendMessage _ _ => KSendMessage
  | CallApprovePlan _ => KApprovePlan
  | CallOverseer _ => KOverseer
  | CallCloudflareDocs _ => KCloudflareDocs
  end.

Record World := {
  julesSession : gmap string JulesSessionColumns;   (* by primary key [id] *)
  activityLog : list ActivityLog;            (* in insertion order *)
  julesInteraction : list JulesInteraction;  (* in insertion order *)
  KV : gmap string Date;                    (* a Date stands for its ISO string *)
  calls : list Call;                         (* calls issued so far, oldest first *)
  storageOps : nat;                          (* D1 and KV operations issued so far *)
  now : N;                                   (* Date.now(), in ms *)
}.

Definition emptyWorld : World :=
  {| julesSession := ∅; activityLog := []; julesInteraction := [];
     KV := ∅; calls := []; storageOps := 0; now := 0%N |}.

Definition set_julesSession (m : gmap string JulesSessionColumns) (w : World) : World :=
  {| julesSession := m; activityLog := activityLog w;
     julesInteraction := julesInteraction w; KV := KV w; calls := calls w;
     storageOps := storageOps w; now := now w |}.

Definition set_activityLog (l : list ActivityLog) (w : World) : World :=
  {| julesSession := julesSession w; activityLog := l;
     julesInteraction := julesInteraction w; KV := KV w; calls := calls w;
     storageOps := storageOps w; now := now w |}.

Definition set_julesInteraction (l : list JulesInteraction) (w : World) : World :=
  {| julesSession := julesSession w; activityLog := activityLog w;
     julesInteraction := l; KV := KV w; calls := calls w;
     storageOps := storageOps w; now := now w |}.

Definition set_KV (m : gmap string Date) (w : World) : World :=
  {| julesSession := julesSession w; activityLog := activityLog w;
     julesInteraction := julesInteraction w; KV := m; calls := calls w;
     storageOps := storageOps w; now := now w |}.

Definition set_calls (l : list Call) (w : World) : World :=
  {| julesSession := julesSession w; activityLog := activityLog w;
     julesInteraction := julesInteraction w; KV := KV w; calls := l;
     storageOps := storageOps w; now := now w |}.

Definition set_storageOps (n : nat) (w : World) : World :=
  {| julesSession := julesSession w; activityLog := activityLog w;
     julesInteraction := julesInteraction w; KV := KV w; calls := calls w;
     storageOps := n; now := now w |}.

Definition set_now (t : N) (w : World) : World :=
  {| julesSession := julesSession w; activityLog := activityLog w;
     julesInteraction := julesInteraction w; KV := KV w; calls := calls w;
     storageOps := storageOps w; now := t |}.

(** How many calls of kind [k] were issued. *)
Definition issued (k : CallKind) (w : World) : nat :=
  length (filter (λ c, kind_of c = k) (calls w)).

Inductive Result (A : Type) :=
| Ok (a : A)
| Throw (message : string).
Arguments Ok {A} a.
Arguments Throw {A} message.

(** The Overseer durable object's HTTP answer: [response.ok] and the parsed body
    ([result.result], [result.response]); [response.json()] may reject. *)
Record OverseerBody := { ob_result : option string; ob_response : option string }.
Record OverseerResponse := { or_ok : bool; or_json : Result OverseerBody }.

(** One hit of the documentation search ([searchResults[0]?.content]). *)
Record DocHit := { content : option string }.

(** The collaborators.  A remote answer depends on how many calls of the same
    kind came before and on the arguments; [latency n] is the time the [n]-th
    call overall takes; [storage_fails n] tells whether the [n]-th storage
    operation rejects. *)
Record Env := {
  listSessions_answer : nat → option nat → Result ListSessionsResponse;
  getSession_answer : nat → string → Result Session;
  listActivities_answer : nat → string → option nat → Result ListActivitiesResponse;
  sendMessage_answer : nat → string → string → Result ();
  approvePlan_answer : nat → string → Result ();
  overseer_answer : nat → string → EnhancedContext → Result OverseerResponse;
  cloudflareDocs_answer : nat → string → Result (list DocHit);
  latency : nat → N;
  storage_fails : nat → bool;
  JULES_API_KEY_bound : bool;        (* env.JULES_API_KEY is configured *)
  KV_bound : bool;                   (* env.KV is configured *)
  OVERSEER_AGENT_bound : bool;       (* env.OVERSEER_AGENT is configured *)
  JSON_parse_context : string → Result EnhancedContext;
}.

(** ** The monad of asynchronous code *)

Definition M (A : Type) : Type := World → Result A * World.

Definition ret {A} (a : A) : M A := λ w, (Ok a, w).

Definition bind {A B} (m : M A) (f : A → M B) : M B :=
  λ w, match m w with
       | (Ok a, w') => f a w'
       | (Throw e, w') => (Throw e, w')
       end.

Definition throw {A} (e : string) : M A := λ w, (Throw e, w).

(** [try { body } catch (e) { handler e }] *)
Definition try_catch {A} (body : M A) (handler : string → M A) : M A :=
  λ w, match body w with
       | (Ok a, w') => (Ok a, w')
       | (Throw e, w') => handler e w'
       end.

Declare Scope M_scope.
Delimit Scope M_scope with M.
Notation "x <- m ;; k" := (bind m (λ x, k))
  (at level 100, m at next level, right associativity) : M_scope.
Notation "m ;; k" := (bind m (λ _, k))
  (at level 100, right associativity) : M_scope.
Local Open Scope M_scope.

(** The outcome of [m] as a value: what a [try] block hands to the code after
    it. *)
Definition attempt {A} (m : M A) : M (Result A) :=
  λ w, (Ok (m w).1, (m w).2).

(** [for (const x of l) { body x }] *)
Fixpoint for_of {A} (l : list A) (body : A → M ()) : M () :=
  match l with
  | [] => ret ()
  | x :: rest => body x ;; for_of rest body
  end.

Section Primitives.
Context (env : Env).

(** A call to a collaborator: logged, timed, answered by the oracle. *)
Definition call {A} (c : Call) (answer : nat → Result A) : M A :=
  λ w, (answer (issued (kind_of c) w),
        set_now (now w + latency env (length (calls w)))%N
          (set_calls (calls w ++ [c]) w)).

(** A storage operation: it rejects when the oracle says so, and otherwise
    runs [op] on the tables. *)
Definition storage {A} (op : World → Result A * World) : M A :=
  λ w, if storage_fails env (storageOps w)
       then (Throw "storage operation failed", set_storageOps (S (storageOps w)) w)
       else op (set_storageOps (S (storageOps w)) w).

Definition Date_now : M N := λ w, (Ok (now w), w).

(** [new Date()] *)
Definition new_Date : M Date := λ w, (Ok (DateAt (now w)), w).

(** [await new Promise(r => setTimeout(r, ms))] *)
Definition sleep (ms : N) : M () :=
  λ w, (Ok (), set_now (now w + ms)%N w).

End Primitives.

(** ** [client.ts]: the remote session API

    [request] (URL, headers, status handling) is the oracle's business: a
    non-ok answer is a [Throw] with the error message. *)

Module JulesClient.
Section JulesClient.
Context (env : Env).

Definition listSessions (pageSize : option nat) : M ListSessionsResponse :=
  call env (CallListSessions pageSize) (λ k, listSessions_answer env k pageSize).

Definition getSession (sessionId : string) : M Session :=
  call env (CallGetSession sessionId) (λ k, getSession_answer env k sessionId).

Definition sendMessage (sessionId message : string) : M () :=
  call env (CallSendMessage sessionId message)
       (λ k, sendMessage_answer env k sessionId message).

Definition approvePlan (sessionId : string) : M () :=
  call env (CallApprovePlan sessionId) (λ k, approvePlan_answer env k sessionId).

Definition listActivities (sessionId : string) (pageSize : option nat)
  : M ListActivitiesResponse :=
  call env (CallListActivities sessionId pageSize)
       (λ k, listActivities_answer env k sessionId pageSize).

End JulesClient.
End JulesClient.

(** ** [index_base_tool.ts]: the tool wrappers *)

Module Tools.
Section Tools.
Context (env : Env).

(** [getClient]: throws without an API key. *)
Definition getClient : M () :=
  if JULES_API_KEY_bound env then ret () else throw "JULES_API_KEY is missing".

(** [JulesListSessionsTool.execute(args)] passes [args] on. *)
Definition JulesListSessionsTool_execute (pageSize : option nat)
  : M ListSessionsResponse :=
  getClient ;; JulesClient.listSessions env pageSize.

(** [JulesGetActivityTool.execute(args)] reads [args.sessionId] only: a
    [pageSize] among the arguments is dropped. *)
Definition JulesGetActivityTool_execute (sessionId : string)
  : M ListActivitiesResponse :=
  getClient ;; JulesClient.listActivities env sessionId None.

Definition JulesSendMessageTool_execute (sessionId prompt : string) : M () :=
  getClient ;; JulesClient.sendMessage env sessionId prompt.

(** [CloudflareDocsTool.execute({ query })]: the tool is a collaborator. *)
Definition CloudflareDocsTool_execute (query : string) : M (list DocHit) :=
  call env (CallCloudflareDocs query) (λ k, cloudflareDocs_answer env k query).

End Tools.
End Tools.

(** ** The Prisma client

    Each operation is one storage operation.  [julesSession.id] is the primary
    key ([findUnique] by [id]): [create] rejects a second record with the same
    id, [update] rejects when there is no record.  An [undefined] field of an
    update is left as it is. *)

Module prisma.
Section prisma.
Context (env : Env).

Definition julesSession_findUnique (id : string) : M (option JulesSession) :=
  storage env (λ w, (Ok (Build_JulesSession id <$> julesSession w !! id), w)).

Definition julesSession_create (data : JulesSession) : M () :=
  storage env (λ w,
    match julesSession w !! js_id data with
    | Some _ => (Throw "Unique constraint failed on the fields: (id)", w)
    | None =>
        (Ok (), set_julesSession (<[js_id data := js_columns data]> (julesSession w)) w)
    end).

Definition julesSession_rows (w : World) : list JulesSession :=
  (λ kv, Build_JulesSession kv.1 kv.2) <$> map_to_list (julesSession w).

Definition julesSession_findMany (where_ : JulesSession → bool)
  : M (list JulesSession) :=
  storage env (λ w, (Ok (List.filter where_ (julesSession_rows w)), w)).

Definition julesSession_update (id : string) (status : option string)
    (completedAt : option Date) : M () :=
  storage env (λ w,
    match julesSession w !! id with
    | None => (Throw "Record to update not found", w)
    | Some r =>
        let r' := {| js_title := js_title r;
                     js_status := default (js_status r) status;
                     js_origin := js_origin r;
                     js_originalPrompt := js_originalPrompt r;
                     js_sourceName := js_sourceName r;
                     js_enhancedContext := js_enhancedContext r;
                     js_createdAt := js_createdAt r;
                     js_updatedAt := js_updatedAt r;
                     js_completedAt := completedAt |} in
        (Ok (), set_julesSession (<[id := r']> (julesSession w)) w)
    end).

Definition activityLog_findFirst (where_ : ActivityLog → bool)
  : M (option ActivityLog) :=
  storage env (λ w, (Ok (head (List.filter where_ (activityLog w))), w)).

Definition activityLog_create (data : ActivityLog) : M () :=
  storage env (λ w, (Ok (), set_activityLog (activityLog w ++ [data]) w)).

(** [findFirst] with [orderBy: { timestamp: 'desc' }]: the latest match. *)
Definition julesInteraction_findFirst_latest (where_ : JulesInteraction → bool)
  : M (option JulesInteraction) :=
  storage env (λ w, (Ok (last (List.filter where_ (julesInteraction w))), w)).

Definition julesInteraction_create (data : JulesInteraction) : M () :=
  storage env (λ w, (Ok (), set_julesInteraction (julesInteraction w ++ [data]) w)).

(** [env.KV.put(key, value)] *)
Definition KV_put (key : string) (value : Date) : M () :=
  storage env (λ w, (Ok (), set_KV (<[key := value]> (KV w)) w)).

End prisma.
End prisma.

(** ** The monitor service

    Both variants of [jules-monitor.ts] share [syncExternalSessions],
    [runActiveSessionSync] and [syncActivitiesForSession] up to the way they
    reach the remote service, which is a parameter here. *)

Module MonitorCore.
Section MonitorCore.
Context (env : Env).
Context (fetchSessions : M ListSessionsResponse).
Context (fetchState : string → M (option SessionState)).
Context (fetchActivities : string → M ListActivitiesResponse).

(** The body of the discovery loop; [true] when [syncedCount++] is reached.
    The columns the source does not give take their defaults: [createdAt] is
    the current instant, the others are null. *)
Definition adopt (extSession : Session) : M bool :=
  existing <- prisma.julesSession_findUnique env (s_id extSession) ;;
  match existing with
  | Some _ => ret false
  | None =>
      createdAt <- new_Date ;;
      prisma.julesSession_create env
        {| js_id := s_id extSession;
           js_columns :=
             {| js_title := s_title extSession;
                js_status := SessionState_value (s_state extSession);
                js_origin := ORIGIN.EXTERNAL;
                js_originalPrompt := "External Session";
                js_sourceName := None;
                js_enhancedContext := None;
                js_createdAt := createdAt;
                js_updatedAt := DateOf (s_updateTime extSession);
                js_completedAt := None |} |} ;;
      ret true
  end.

(** The loop inside the [try]: an exception ends the loop and leaves
    [syncedCount] as it was. *)
Fixpoint adopt_all (externalSessions : list Session) (syncedCount : nat) : M nat :=
  match externalSessions with
  | [] => ret syncedCount
  | extSession :: rest =>
      r <- attempt (adopt extSession) ;;
      match r with
      | Ok adopted => adopt_all rest (if adopted then S syncedCount else syncedCount)
      | Throw _ => ret syncedCount
      end
  end.

Definition syncExternalSessions : M nat :=
  r <- attempt fetchSessions ;;
  match r with
  | Ok response => adopt_all (default [] (sessions response)) 0
  | Throw _ => ret 0
  end.

(** [act.name.split('/').pop()]; [split] never returns an empty array. *)
Definition remoteIdOf (name : string) : string :=
  default EmptyString (JS.pop (JS.split "/" name)).

Definition mirror_metadata (remoteId : string) (act : Activity) : JSON.value :=
  JSON.Obj [("remote_id", JSON.Str remoteId);
            ("full_resource", JSON.Str (act_name act));
            ("type", JSON.Str "JULES_SYNC");
            ("original_act", Activity_json act)].

(** [where: { sessionId, metadata: { contains: remoteId } }] *)
Definition mirrored (sessionId remoteId : string) (r : ActivityLog) : bool :=
  bool_decide (al_sessionId r = Some sessionId) &&
  match metadata_text r with
  | Some text => JS.includes text remoteId
  | None => false
  end.

Definition mirror (sessionId : string) (act : Activity) : M () :=
  let remoteId := remoteIdOf (act_name act) in
  exists_ <- prisma.activityLog_findFirst env (mirrored sessionId remoteId) ;;
  match exists_ with
  | Some _ => ret ()
  | None =>
      prisma.activityLog_create env
        {| al_sessionId := Some sessionId;
           al_agent := "Jules";
           al_action := "REMOTE_UPDATE";
           al_result := act_description act;
           al_success := true;
           al_timestamp := DateOf (act_createTime act);
           al_metadata := Some (mirror_metadata remoteId act) |}
  end.

Definition syncActivitiesForSession (sessionId : string) : M () :=
  try_catch
    (response <- fetchActivities sessionId ;;
     for_of (default [] (activities response)) (mirror sessionId))
    (λ _, ret ()).

Definition isClosed (state : option SessionState) : bool :=
  match state with
  | Some COMPLETED | Some FAILED => true
  | _ => false
  end.

(** The body of the active-session loop, with its [try]/[catch]. *)
Definition syncSession (dbSession : JulesSession) : M () :=
  try_catch
    (state <- fetchState (js_id dbSession) ;;
     (if bool_decide (SessionState_value <$> state = Some (js_status dbSession))
      then ret ()
      else
        completedAt <- (if isClosed state
                        then (d <- new_Date ;; ret (Some d))
                        else ret None) ;;
        prisma.julesSession_update env (js_id dbSession)
          (SessionState_value <$> state) completedAt) ;;
     syncActivitiesForSession (js_id dbSession))
    (λ _, ret ()).

(** [status: { notIn: ['COMPLETED', 'FAILED'] }] *)
Definition isActive (r : JulesSession) : bool :=
  negb (String.eqb (js_status r) "COMPLETED" || String.eqb (js_status r) "FAILED").

Definition runActiveSessionSync : M () :=
  activeSessions <- prisma.julesSession_findMany env isActive ;;
  if (length activeSessions =? 0)%nat then ret ()
  else
    for_of activeSessions syncSession ;;
    if KV_bound env
    then (d <- new_Date ;; prisma.KV_put env "DASHBOARD_LAST_SYNC" d)
    else ret ().

Definition logInteraction (sessionId type : string)
    (julesMessage agentResponse : option string) (isSuccess : bool)
    (errorMessage : option string) : M () :=
  timestamp <- new_Date ;;
  prisma.julesInteraction_create env
    {| ji_sessionId := sessionId; ji_type := type;
       ji_julesMessage := julesMessage; ji_agentResponse := agentResponse;
       ji_isSuccess := isSuccess; ji_errorMessage := errorMessage;
       ji_timestamp := timestamp |}.

End MonitorCore.
End MonitorCore.

Record RunResult := { synced : nat; checked : nat; interventions : nat }.

(** ** The monitor built on [JulesClient] *)

Module ClientMonitor.
Section ClientMonitor.
Context (env : Env).

Definition fetchSessions : M ListSessionsResponse :=
  JulesClient.listSessions env (Some 20).

(** [(await this.julesClient.getSession(id)).state] *)
Definition fetchState (sessionId : string) : M (option SessionState) :=
  remoteSession <- JulesClient.getSession env sessionId ;;
  ret (Some (s_state remoteSession)).

Definition fetchActivities (sessionId : string) : M ListActivitiesResponse :=
  JulesClient.listActivities env sessionId (Some 10).

Definition syncExternalSessions : M nat :=
  MonitorCore.syncExternalSessions env fetchSessions.

Definition syncActivitiesForSession (sessionId : string) : M () :=
  MonitorCore.syncActivitiesForSession env fetchActivities sessionId.

Definition runActiveSessionSync : M () :=
  MonitorCore.runActiveSessionSync env fetchState fetchActivities.

Definition logInteraction := MonitorCore.logInteraction env.

Definition run : M RunResult :=
  synced <- syncExternalSessions ;;
  runActiveSessionSync ;;
  ret {| synced := synced; checked := 0; interventions := 0 |}.

Definition handlePlanApproval (dbSession : JulesSession) : M () :=
  try_catch
    (JulesClient.approvePlan env (js_id dbSession) ;;
     logInteraction (js_id dbSession) INTERACTION_TYPE.AUTO_APPROVAL None
       (Some "Plan automatically approved by JulesMonitorService") true None)
    (λ error,
     logInteraction (js_id dbSession) INTERACTION_TYPE.ERROR None None false
       (Some ("Plan approval failed: Error: " +:+ error))).

Definition newline : string := String "010"%char EmptyString.

Definition generateFallbackResponse (question : string) (context : EnhancedContext)
  : string :=
  let q := JS.toLowerCase question in
  JS.join newline
    (["Based on your question, here's what I recommend:"; EmptyString]
     ++ (if (0 <? length (bindings context))%nat
         then ["Note: This project uses: " +:+ JS.join ", " (bindings context)]
         else [])
     ++ (if JS.includes q "error" || JS.includes q "failed"
         then ["1. Check the error message for specific details";
               "2. Verify all required environment variables are set";
               "3. Ensure wrangler.toml has correct bindings configured"]
         else if JS.includes q "how" || JS.includes q "should"
         then ["Please proceed with your best judgment based on the requirements.";
               "I trust your implementation approach."]
         else ["Please continue with your current approach."])).

Definition generateIntervention (question : string) (context : EnhancedContext)
  : M string :=
  answered <-
    (if OVERSEER_AGENT_bound env
     then
       try_catch
         (response <- call env (CallOverseer question)
                        (λ k, overseer_answer env k question context) ;;
          if or_ok response
          then match or_json response with
               | Ok result =>
                   ret (Some (JS.or_else (ob_result result)
                                (JS.or_else (ob_response result)
                                   "I'll help with that.")))
               | Throw e => throw e
               end
          else ret None)
         (λ _, ret None)
     else ret None) ;;
  match answered with
  | Some text => ret text
  | None => ret (generateFallbackResponse question context)
  end.

(** [where: { sessionId, type: AGENT_REPLY, julesMessage: julesQuestion }] *)
Definition isReplyTo (sessionId julesQuestion : string) (r : JulesInteraction) : bool :=
  String.eqb (ji_sessionId r) sessionId
  && String.eqb (ji_type r) INTERACTION_TYPE.AGENT_REPLY
  && bool_decide (ji_julesMessage r = Some julesQuestion).

Definition emptyContext : EnhancedContext :=
  {| bindings := []; techStack := []; constraints := []; documentation := [] |}.

Definition handleUserFeedback (dbSession : JulesSession) : M bool :=
  activities_ <- JulesClient.listActivities env (js_id dbSession) (Some 5) ;;
  let lastAgentMessage :=
    activities activities_ ≫= List.find (λ a, bool_decide (is_Some (act_agentMessaged a))) in
  match lastAgentMessage ≫= act_agentMessaged with
  | None => ret false
  | Some julesQuestion =>
      if negb (JS.truthy julesQuestion) then ret false
      else
        existingReply <- prisma.julesInteraction_findFirst_latest env
                           (isReplyTo (js_id dbSession) julesQuestion) ;;
        match existingReply with
        | Some _ => ret false
        | None =>
            context <-
              match js_enhancedContext dbSession with
              | Some text =>
                  if JS.truthy text
                  then (λ w, (JSON_parse_context env text, w))
                  else ret emptyContext
              | None => ret emptyContext
              end ;;
            agentResponse <- generateIntervention julesQuestion context ;;
            try_catch
              (JulesClient.sendMessage env (js_id dbSession) agentResponse ;;
               logInteraction (js_id dbSession) INTERACTION_TYPE.AGENT_REPLY
                 (Some julesQuestion) (Some agentResponse) true None ;;
               ret true)
              (λ error,
               logInteraction (js_id dbSession) INTERACTION_TYPE.ERROR
                 (Some julesQuestion) None false
                 (Some ("Failed to send intervention: Error: " +:+ error)) ;;
               ret false)
        end
  end.

End ClientMonitor.
End ClientMonitor.

(** ** [OverseerAgent.checkOnJules] *)

Module OverseerAgent.
Section OverseerAgent.
Context (env : Env).

(** The three bytes that stand on both sides of the alternation in the
    pattern of the source (U+FFFD in UTF-8). *)
Definition replacement_character : string :=
  String "239"%char (String "191"%char (String "189"%char EmptyString)).

(** The pattern's [test], case-insensitive. *)
Definition stuck_pattern_test (message : string) : bool :=
  let m := JS.toLowerCase message in
  JS.includes m (replacement_character +:+ "error" +:+ replacement_character)
  || JS.includes m (replacement_character +:+ "stuck" +:+ replacement_character).

Definition checkOnJules (sessionId : string) : M (option string) :=
  activity <- Tools.JulesGetActivityTool_execute env sessionId ;;
  match activities activity with
  | None => throw "TypeError: Cannot read properties of undefined (reading 'length')"
  | Some acts =>
      match last acts ≫= act_agentMessaged with
      | Some message =>
          if JS.truthy message && stuck_pattern_test message
          then
            searchResults <- Tools.CloudflareDocsTool_execute env
                               ("How to fix error in Jules session: " +:+ message) ;;
            match head searchResults ≫= content with
            | Some solution =>
                if JS.truthy solution
                then Tools.JulesSendMessageTool_execute env sessionId solution ;;
                     ret (Some solution)
                else ret None
            | None => ret None
            end
          else ret None
      | None => ret None
      end
  end.

End OverseerAgent.
End OverseerAgent.

(** ** The monitor built on the tool wrappers *)

Module ToolMonitor.
Section ToolMonitor.
Context (env : Env).

Definition fetchSessions : M ListSessionsResponse :=
  Tools.JulesListSessionsTool_execute env (Some 20).

(** [(await this.julesGetActivityTool.execute({ sessionId })).state]: the tool
    answers with the activity list, which has no [state]. *)
Definition fetchState (sessionId : string) : M (option SessionState) :=
  Tools.JulesGetActivityTool_execute env sessionId ;;
  ret None.

Definition fetchActivities (sessionId : string) : M ListActivitiesResponse :=
  Tools.JulesGetActivityTool_execute env sessionId.

Definition syncExternalSessions : M nat :=
  MonitorCore.syncExternalSessions env fetchSessions.

Definition syncActivitiesForSession (sessionId : string) : M () :=
  MonitorCore.syncActivitiesForSession env fetchActivities sessionId.

Definition runActiveSessionSync : M () :=
  MonitorCore.runActiveSessionSync env fetchState fetchActivities.

(** [where: { status: "WAITING_FOR_USER_FEEDBACK" }] *)
Definition isStuck (r : JulesSession) : bool :=
  String.eqb (js_status r) "WAITING_FOR_USER_FEEDBACK".

Fixpoint intervene (stuckSessions : list JulesSession) (interventions : nat) : M nat :=
  match stuckSessions with
  | [] => ret interventions
  | session :: rest =>
      OverseerAgent.checkOnJules env (js_id session) ;;
      intervene rest (S interventions)
  end.

Definition checkForStuckSessions : M nat :=
  stuckSessions <- prisma.julesSession_findMany env isStuck ;;
  intervene stuckSessions 0.

Definition run : M RunResult :=
  synced <- syncExternalSessions ;;
  runActiveSessionSync ;;
  interventions <- checkForStuckSessions ;;
  ret {| synced := synced; checked := 0; interventions := interventions |}.

End ToolMonitor.
End ToolMonitor.

(** ** [smart-poller.ts]

    The logger is left out: it only receives text. *)

Module SmartPoller.

(** The options as the caller gives them. A duration that is given is a
    whole number of milliseconds, zero or more; the other values of a
    JavaScript [number] (negative, fractional, [NaN], [Infinity]) are
    outside this type, and so is what the constructor and the loop do with
    them. *)
Record SmartPollerOptions := {
  opt_intervalMs : option N;
  opt_timeoutMs : option N;
  opt_autoApprove : option bool;
}.

(** [Required<SmartPollerOptions>], without the logger. *)
Record Options := {
  intervalMs : N;
  timeoutMs : N;
  autoApprove : bool;
}.

(** [n || d] on a whole number of milliseconds or [undefined]: zero and
    [undefined] are falsy, every other whole number is kept. *)
Definition number_or (n : option N) (d : N) : N :=
  match n with
  | Some 0%N | None => d
  | Some v => v
  end.

(** The constructor's defaults. *)
Definition constructor (options : SmartPollerOptions) : Options :=
  {| intervalMs := number_or (opt_intervalMs options) 5000;
     timeoutMs := number_or (opt_timeoutMs options) (60 * 60 * 1000);
     autoApprove := default true (opt_autoApprove options) |}.

Inductive PollStatus := POLL_COMPLETED | POLL_FAILED | NEEDS_INPUT | TIMEOUT.

Record PollResult := {
  status : PollStatus;
  session : Session;
  lastMessage : option string;
}.

Section SmartPoller.
Context (env : Env).
Context (options : Options).

(** The [while] loop of [monitor] and the code after it.  [fuel] bounds the
    number of iterations; [None] means the bound was reached. *)
Fixpoint monitor_loop (fuel : nat) (sessionId : string) (startTime : N)
  : M (option PollResult) :=
  match fuel with
  | O => ret None
  | S fuel' =>
      t <- Date_now ;;
      if (t - startTime <? timeoutMs options)%N
      then
        session <- JulesClient.getSession env sessionId ;;
        match s_state session with
        | COMPLETED =>
            ret (Some {| status := POLL_COMPLETED; session := session;
                         lastMessage := None |})
        | FAILED =>
            ret (Some {| status := POLL_FAILED; session := session;
                         lastMessage := None |})
        | AWAITING_PLAN_APPROVAL =>
            if autoApprove options
            then
              JulesClient.approvePlan env sessionId ;;
              sleep 1000 ;;
              monitor_loop fuel' sessionId startTime
            else
              ret (Some {| status := NEEDS_INPUT; session := session;
                           lastMessage := None |})
        | AWAITING_USER_FEEDBACK =>
            activities_ <- JulesClient.listActivities env sessionId (Some 1) ;;
            let lastMsg :=
              JS.or_else ((activities activities_ ≫= head) ≫= act_agentMessaged)
                "Agent is requesting feedback." in
            ret (Some {| status := NEEDS_INPUT; session := session;
                         lastMessage := Some lastMsg |})
        | PAUSED =>
            ret (Some {| status := NEEDS_INPUT; session := session;
                         lastMessage := None |})
        | QUEUED | PLANNING | IN_PROGRESS | STATE_UNSPECIFIED =>
            sleep (intervalMs options) ;;
            monitor_loop fuel' sessionId startTime
        end
      else
        finalSession <- JulesClient.getSession env sessionId ;;
        ret (Some {| status := TIMEOUT; session := finalSession;
                     lastMessage := None |})
  end.

Definition monitor (fuel : nat) (sessionId : string) : M (option PollResult) :=
  startTime <- Date_now ;;
  monitor_loop fuel sessionId startTime.

End SmartPoller.
End SmartPoller.


(** ** [createTrackedSession] (the monitor built on [JulesClient])

    [julesClient.createSession] is a parameter: the remote service answers
    with the session it has created.  [updatedAt], which the source leaves to
    the schema, is the instant of the write, like [createdAt]. *)

Record CreateSessionRequest := {
  csr_prompt : string;
  csr_title : option string;
  csr_source : string;                 (* sourceContext.source *)
}.

(** The argument of [createTrackedSession]; [enhancedContext] is the object as
    [JSON.stringify] sees it. *)
Record TrackedSessionParams := {
  p_prompt : string;
  p_title : option string;
  p_sourceName : option string;
  p_enhancedContext : option JSON.value;
}.

Module Tracking.
Section Tracking.
Context (env : Env).
Context (createSession : CreateSessionRequest → M Session).

Definition request_of (params : TrackedSessionParams) : CreateSessionRequest :=
  {| csr_prompt := p_prompt params;
     csr_title := p_title params;
     csr_source := JS.or_else (p_sourceName params) "sources/default" |}.

(** [session.title || params.title] *)
Definition title_of (session : Session) (params : TrackedSessionParams) : option string :=
  match s_title session with
  | Some title => if JS.truthy title then Some title else p_title params
  | None => p_title params
  end.

Definition createTrackedSession (params : TrackedSessionParams) : M Session :=
  session <- createSession (request_of params) ;;
  timestamp <- new_Date ;;
  prisma.julesSession_create env
    {| js_id := s_id session;
       js_columns :=
         {| js_title := title_of session params;
            js_status := SessionState_value (s_state session);
            js_origin := ORIGIN.INTERNAL;
            js_originalPrompt := p_prompt params;
            js_sourceName := p_sourceName params;
            js_enhancedContext := JSON.stringify <$> p_enhancedContext params;
            js_createdAt := timestamp;
            js_updatedAt := timestamp;
            js_completedAt := None |} |} ;;
  ret session.

End Tracking.
End Tracking.

(** ** [client.ts]: the path of [getSource]

    [request] is a parameter: it receives the endpoint. *)

Module Sources.

(** [s] without its first [n] characters. *)
Fixpoint skip (n : nat) (s : string) : string :=
  match n, s with
  | S n', String _ s' => skip n' s'
  | _, _ => s
  end.

(** [s.replace(pattern, '')] for a string pattern: the first occurrence of
    [pattern] is removed. *)
Fixpoint remove_first (s pattern : string) : string :=
  if JS.startsWith s pattern then skip (String.length pattern) s
  else match s with
       | EmptyString => EmptyString
       | String c s' => String c (remove_first s' pattern)
       end.

Section Sources.
Context {Source : Type} (request : string → M Source).

Definition getSource (sourceNameOrId : string) : M Source :=
  let name := if JS.startsWith sourceNameOrId "sources/"
              then sourceNameOrId
              else "sources/" +:+ sourceNameOrId in
  let id := remove_first name "sources/" in
  request ("/sources/" +:+ id).

End Sources.
End Sources.

(** ** [health.ts]

    The bindings [DB] and [JULES_MCP_VECTORIZE] are arguments; the API key is
    the one of the environment. *)

Module Health.

Inductive Status := OK | FAILURE | DEGRADED.

(** The [meta] member of the result. *)
Inductive Meta :=
| NoMeta
| Healthy (sessionsFound : nat)     (* julesApi: { reachable: true, sessionsFound } *)
| RawError (rawError : string).

Record HealthResult := {
  status : Status;
  message : string;
  latencyMs : N;
  meta : Meta;
}.

Section Health.
Context (env : Env).

Definition missing (DB JULES_MCP_VECTORIZE : bool) : list string :=
  (if JULES_API_KEY_bound env then [] else ["JULES_API_KEY"])
  ++ (if DB then [] else ["DB (D1)"])
  ++ (if JULES_MCP_VECTORIZE then [] else ["JULES_MCP_VECTORIZE"]).

(** The classification of an error message in the [catch] block. *)
Definition classify (errorMessage : string) : Status * string :=
  if JS.includes errorMessage "401" || JS.includes errorMessage "403"
  then (FAILURE,
        "Authentication Failed: JULES_API_KEY is invalid, revoked, or lacks permissions.")
  else if JS.includes errorMessage "429"
  then (DEGRADED, "Rate Limited: Jules API quota exceeded or rate limit hit.")
  else if JS.includes errorMessage "500" || JS.includes errorMessage "502"
          || JS.includes errorMessage "503"
  then (DEGRADED, "Upstream Error: Google Jules API is experiencing internal issues.")
  else (FAILURE, "Jules API check failed: " +:+ errorMessage).

Definition checkHealth (DB JULES_MCP_VECTORIZE : bool) : M HealthResult :=
  start <- Date_now ;;
  if (0 <? length (missing DB JULES_MCP_VECTORIZE))%nat
  then
    finish <- Date_now ;;
    ret {| status := FAILURE;
           message := "Configuration Error: Missing required bindings: "
                      +:+ JS.join ", " (missing DB JULES_MCP_VECTORIZE) +:+ ".";
           latencyMs := finish - start;
           meta := NoMeta |}
  else
    try_catch
      (response <- JulesClient.listSessions env (Some 1) ;;
       finish <- Date_now ;;
       ret {| status := OK;
              message := "Jules API and Knowledge services are healthy.";
              latencyMs := finish - start;
              meta := Healthy (length (default [] (sessions response))) |})
      (λ errorMessage,
       finish <- Date_now ;;
       ret {| status := (classify errorMessage).1;
              message := (classify errorMessage).2;
              latencyMs := finish - start;
              meta := RawError errorMessage |}).

End Health.
End Health.
(** * Vocabulary of the properties *)

(** [m] leaves the component [f] of the world alone. *)
Definition keeps {X A} (f : World → X) (m : M A) : Prop :=
  ∀ w, f (m w).2 = f w.

(** The world once the call [c] has been issued and answered. *)
Definition after_call (env : Env) (c : Call) (w : World) : World :=
  set_now (now w + latency env (length (calls w)))%N (set_calls (calls w ++ [c]) w).

(** The world once a timer of [ms] milliseconds has fired. *)
Definition after_sleep (ms : N) (w : World) : World :=
  set_now (now w + ms)%N w.

(** The world once a storage operation has been issued. *)
Definition after_storage (w : World) : World :=
  set_storageOps (S (storageOps w)) w.

(** The remote identifier a record carries: the [remote_id] member of its
    metadata. *)
Definition remote_id (r : ActivityLog) : option string :=
  match al_metadata r with
  | Some (JSON.Obj members) =>
      match JSON.get "remote_id" members with
      | Some (JSON.Str id) => Some id
      | _ => None
      end
  | _ => None
  end.

(** [r] is a record of session [sessionId] that carries [remoteId]. *)
Definition carries (sessionId remoteId : string) (r : ActivityLog) : bool :=
  bool_decide (al_sessionId r = Some sessionId)
  && bool_decide (remote_id r = Some remoteId).

(** The number of activity records of [sessionId] that carry [remoteId]. *)
Definition mirrored_count (sessionId remoteId : string) (log : list ActivityLog) : nat :=
  length (List.filter (carries sessionId remoteId) log).

(** The record [mirror] creates for an activity. *)
Definition mirror_record (sessionId : string) (act : Activity) : ActivityLog :=
  {| al_sessionId := Some sessionId;
     al_agent := "Jules";
     al_action := "REMOTE_UPDATE";
     al_result := act_description act;
     al_success := true;
     al_timestamp := DateOf (act_createTime act);
     al_metadata :=
       Some (MonitorCore.mirror_metadata (MonitorCore.remoteIdOf (act_name act)) act) |}.

(** The remote identifier of the activity has no character that
    [JSON.stringify] escapes. *)
Definition plain_id (act : Activity) : Prop :=
  JSON.plain (MonitorCore.remoteIdOf (act_name act)) = true.

(** At most one record of [sessionId] carries [remoteId], and the duplicate
    check finds the records that carry it. *)
Definition mirrored_once (sessionId remoteId : string) (log : list ActivityLog) : Prop :=
  mirrored_count sessionId remoteId log ≤ 1
  ∧ ∀ r, r ∈ log → carries sessionId remoteId r = true →
         MonitorCore.mirrored sessionId remoteId r = true.

(** [m] maintains the property [P] of the activity log. *)
Definition maintains {A} (P : list ActivityLog → Prop) (m : M A) : Prop :=
  ∀ w, P (activityLog w) → P (activityLog (m w).2).

(** Worlds reached from [w] by mirror passes, of either variant of the
    monitor, over any sessions. *)
Inductive mirror_passes (env : Env) (w : World) : World → Prop :=
| passes_none : mirror_passes env w w
| passes_client w' sessionId :
    mirror_passes env w w' →
    mirror_passes env w (ClientMonitor.syncActivitiesForSession env sessionId w').2
| passes_tool w' sessionId :
    mirror_passes env w w' →
    mirror_passes env w (ToolMonitor.syncActivitiesForSession env sessionId w').2.

(** The question [handleUserFeedback] extracts from the activities: the
    message of the first activity that has an agent message, when it is not
    empty. *)
Definition extracted_question (response : ListActivitiesResponse) : option string :=
  match (activities response
           ≫= List.find (λ a, bool_decide (is_Some (act_agentMessaged a))))
        ≫= act_agentMessaged with
  | Some question => if JS.truthy question then Some question else None
  | None => None
  end.

(** The number of AGENT_REPLY interactions of [sessionId] whose [julesMessage]
    is [question]. *)
Definition replies (sessionId question : string) (log : list JulesInteraction) : nat :=
  length (List.filter (ClientMonitor.isReplyTo sessionId question) log).

(** A record that may join the log [log] without answering a question twice:
    it is no AGENT_REPLY, or no reply to its question for its session is in
    the log. *)
Definition fresh_reply (log : list JulesInteraction) (r : JulesInteraction) : Prop :=
  ji_type r ≠ INTERACTION_TYPE.AGENT_REPLY
  ∨ ∀ question,
      ji_julesMessage r = Some question →
      Forall (λ x, ClientMonitor.isReplyTo (ji_sessionId r) question x = false) log.

(** Worlds reached from [w] by reconciliation passes of either monitor and by
    the dispatchers ([handleUserFeedback], [handlePlanApproval],
    [checkOnJules]) on any sessions. *)
Inductive reconciliation (env : Env) (w : World) : World → Prop :=
| reconciliation_none : reconciliation env w w
| reconciliation_feedback w' dbSession :
    reconciliation env w w' →
    reconciliation env w (ClientMonitor.handleUserFeedback env dbSession w').2
| reconciliation_approval w' dbSession :
    reconciliation env w w' →
    reconciliation env w (ClientMonitor.handlePlanApproval env dbSession w').2
| reconciliation_overseer w' sessionId :
    reconciliation env w w' →
    reconciliation env w (OverseerAgent.checkOnJules env sessionId w').2
| reconciliation_client_run w' :
    reconciliation env w w' →
    reconciliation env w (ClientMonitor.run env w').2
| reconciliation_tool_run w' :
    reconciliation env w w' →
    reconciliation env w (ToolMonitor.run env w').2.

(** The row of session [id] is closed: COMPLETED, with a completion date. *)
Definition closed (id : string) (w : World) : Prop :=
  ∃ r, julesSession w !! id = Some r
       ∧ js_status r = "COMPLETED" ∧ is_Some (js_completedAt r).

(** What a mirror pass needs from the way it fetches the activities: the
    fetch leaves the log alone and lists activities that are [good]. *)
Definition fetches (good : Activity → Prop)
    (fetchActivities : string → M ListActivitiesResponse) : Prop :=
  ∀ sessionId w,
    activityLog (fetchActivities sessionId w).2 = activityLog w
    ∧ ∀ response acts,
        (fetchActivities sessionId w).1 = Ok response →
        activities response = Some acts → Forall good acts.

(** [log'] is [log], or [log] and one more record, a fresh one. *)
Definition extends_fresh (log log' : list JulesInteraction) : Prop :=
  log' = log ∨ ∃ r, log' = log ++ [r] ∧ fresh_reply log r.

(** [m] appends at most one record to the interactions, a fresh one. *)
Definition appends_fresh {A} (m : M A) : Prop :=
  ∀ w, extends_fresh (julesInteraction w) (julesInteraction (m w).2).

(** ** Concrete collaborators and stores for the scenarios *)

Module Scenario.

Definition remoteSession (id : string) (state : SessionState) : Session :=
  {| s_name := "sessions/" +:+ id; s_id := id; s_prompt := "Fix the build";
     s_title := Some "Build fix"; s_state := state;
     s_createTime := "2025-01-01T00:00:00Z";
     s_updateTime := "2025-01-02T00:00:00Z" |}.

Definition remoteActivity (name : string) (agentMessage : option string) : Activity :=
  {| act_name := name; act_id := MonitorCore.remoteIdOf name;
     act_originator := "agent"; act_description := "Progress update";
     act_createTime := "2025-01-02T00:00:00Z";
     act_agentMessaged := agentMessage; act_other := [] |}.

(** An environment given by its remote answers and its storage faults; every
    binding is configured, sending and approving succeed, calls take no time. *)
Definition environment
    (listSessions_ : nat → Result ListSessionsResponse)
    (getSession_ : nat → string → Result Session)
    (listActivities_ : nat → string → Result ListActivitiesResponse)
    (storage_fails_ : nat → bool) : Env :=
  {| listSessions_answer := λ k _, listSessions_ k;
     getSession_answer := getSession_;
     listActivities_answer := λ k id _, listActivities_ k id;
     sendMessage_answer := λ _ _ _, Ok ();
     approvePlan_answer := λ _ _, Ok ();
     overseer_answer := λ _ _ _, Throw "Overseer unavailable";
     cloudflareDocs_answer := λ _ _, Ok [];
     latency := λ _, 0%N;
     storage_fails := storage_fails_;
     JULES_API_KEY_bound := true;
     KV_bound := true;
     OVERSEER_AGENT_bound := false;
     JSON_parse_context := λ _, Throw "SyntaxError: Unexpected token" |}.

Definition noSessions : nat → Result ListSessionsResponse :=
  λ _, Ok {| sessions := Some [] |}.
Definition noActivities : nat → string → Result ListActivitiesResponse :=
  λ _ _, Ok {| activities := Some [] |}.
Definition unavailable {A} : nat → string → Result A :=
  λ _ _, Throw "Jules API Error: 503 Service Unavailable".
Definition reliable : nat → bool := λ _, false.

(** A stored session with the given status. *)
Definition row (status : string) : JulesSessionColumns :=
  {| js_title := Some "Build fix"; js_status := status;
     js_origin := ORIGIN.EXTERNAL; js_originalPrompt := "External Session";
     js_sourceName := None; js_enhancedContext := None;
     js_createdAt := DateAt 0; js_updatedAt := DateOf "2025-01-02T00:00:00Z";
     js_completedAt := None |}.

Definition storeWith (id status : string) : World :=
  set_julesSession {[ id := row status ]} emptyWorld.

(** The remote lists one session that is already closed. *)
Definition closedRemote : Env :=
  environment (λ _, Ok {| sessions := Some [remoteSession "s1" COMPLETED] |})
    (λ _ id, Ok (remoteSession id COMPLETED)) noActivities reliable.

(** Nothing remote, a reliable store. *)
Definition quiet : Env := environment noSessions unavailable noActivities reliable.

(** The activity list cannot be fetched. *)
Definition activitiesDown : Env :=
  environment noSessions unavailable unavailable reliable.

(** The first storage operation rejects. *)
Definition storeDown : Env :=
  environment noSessions unavailable noActivities (λ n, (n =? 0)%nat).

(** [getSession] walks through a list of states, then stays COMPLETED. *)
Definition stateSequence (states : list SessionState) : Env :=
  environment noSessions (λ k id, Ok (remoteSession id (nth k states COMPLETED)))
    (λ _ _, Ok {| activities :=
                    Some [remoteActivity "sessions/s1/activities/a1"
                            (Some "Which database?")] |})
    reliable.

Definition defaults : SmartPoller.Options :=
  SmartPoller.constructor
    {| SmartPoller.opt_intervalMs := None; SmartPoller.opt_timeoutMs := None;
       SmartPoller.opt_autoApprove := Some true |}.

(** The remote lists two sessions. *)
Definition twoSessions : Env :=
  environment
    (λ _, Ok {| sessions := Some [remoteSession "s1" IN_PROGRESS;
                                  remoteSession "s2" QUEUED] |})
    unavailable noActivities reliable.

(** The remote lists the given activities for every session. *)
Definition listing (acts : list Activity) : Env :=
  environment noSessions unavailable (λ _ _, Ok {| activities := Some acts |}) reliable.

Definition a1 : Activity := remoteActivity "sessions/s1/activities/a1" None.
Definition a : Activity := remoteActivity "sessions/s1/activities/a" None.

(** An activity whose identifier has a double quote in it. *)
Definition quoted : Activity :=
  remoteActivity ("sessions/s1/activities/a" +:+ String JSON.dquote "1") None.

(** Scenario D: s3 awaits feedback, its latest agent message asks which
    database to use. *)
Definition asking : Env :=
  environment noSessions unavailable
    (λ _ _, Ok {| activities :=
                    Some [remoteActivity "sessions/s3/activities/q1"
                            (Some "Which database?")] |})
    reliable.

Definition s3 : JulesSession :=
  {| js_id := "s3"; js_columns := row "AWAITING_USER_FEEDBACK" |}.

End Scenario.


(** ** Further vocabulary: the poller, the call log *)


(** What the outcome of a poll says about the session it carries. *)
Definition faithful (options : SmartPoller.Options) (r : SmartPoller.PollResult) : Prop :=
  match SmartPoller.status r with
  | SmartPoller.POLL_COMPLETED =>
      s_state (SmartPoller.session r) = COMPLETED ∧ SmartPoller.lastMessage r = None
  | SmartPoller.POLL_FAILED =>
      s_state (SmartPoller.session r) = FAILED ∧ SmartPoller.lastMessage r = None
  | SmartPoller.NEEDS_INPUT =>
      (s_state (SmartPoller.session r) = AWAITING_PLAN_APPROVAL
       ∧ SmartPoller.autoApprove options = false ∧ SmartPoller.lastMessage r = None)
      ∨ (s_state (SmartPoller.session r) = AWAITING_USER_FEEDBACK
         ∧ ∃ text, SmartPoller.lastMessage r = Some text ∧ JS.truthy text = true)
      ∨ (s_state (SmartPoller.session r) = PAUSED ∧ SmartPoller.lastMessage r = None)
  | SmartPoller.TIMEOUT => SmartPoller.lastMessage r = None
  end.

Module Polling.

(** The session never leaves IN_PROGRESS; every call takes 2 ms. *)
Definition busy : Env :=
  {| listSessions_answer := λ _ _, Ok {| sessions := Some [] |};
     getSession_answer := λ _ id, Ok (Scenario.remoteSession id IN_PROGRESS);
     listActivities_answer := λ _ _ _, Ok {| activities := Some [] |};
     sendMessage_answer := λ _ _ _, Ok ();
     approvePlan_answer := λ _ _, Ok ();
     overseer_answer := λ _ _ _, Throw "Overseer unavailable";
     cloudflareDocs_answer := λ _ _, Ok [];
     latency := λ _, 2%N;
     storage_fails := λ _, false;
     JULES_API_KEY_bound := true;
     KV_bound := true;
     OVERSEER_AGENT_bound := false;
     JSON_parse_context := λ _, Throw "SyntaxError: Unexpected token" |}.

(** A poller of 10 ms interval and 25 ms deadline, as the constructor
    builds it. *)
Definition brief : SmartPoller.SmartPollerOptions :=
  {| SmartPoller.opt_intervalMs := Some 10%N; SmartPoller.opt_timeoutMs := Some 25%N;
     SmartPoller.opt_autoApprove := None |}.

End Polling.

(** ** Further vocabulary: discovery *)

(** The row [columns] is what discovery stores for the remote session
    [extSession]. *)
Definition adopted_from (extSession : Session) (columns : JulesSessionColumns) : Prop :=
  js_origin columns = ORIGIN.EXTERNAL
  ∧ js_originalPrompt columns = "External Session"
  ∧ js_status columns = SessionState_value (s_state extSession)
  ∧ js_title columns = s_title extSession
  ∧ js_updatedAt columns = DateOf (s_updateTime extSession)
  ∧ js_completedAt columns = None.

Module Discovering.

(** The remote lists two sessions; the first storage operation rejects, the
    later ones succeed. *)
Definition firstWriteFails : Env :=
  Scenario.environment
    (λ _, Ok {| sessions := Some [Scenario.remoteSession "s1" IN_PROGRESS;
                                  Scenario.remoteSession "s2" QUEUED] |})
    Scenario.unavailable Scenario.noActivities (λ n, (n =? 0)%nat).

End Discovering.

(** ** Further vocabulary: the active-session sync *)

(** [m] only appends to the list [f] of the world, and what it appends
    satisfies [P]. *)
Definition grows {X A} (f : World → list X) (P : X → Prop) (m : M A) : Prop :=
  ∀ w, ∃ l, f (m w).2 = f w ++ l ∧ Forall P l.

(** [m] adds to the call log only calls that satisfy [P]. *)
Definition issues {A} (P : Call → Prop) (m : M A) : Prop := grows calls P m.

(** The calls the active sync of the [JulesClient] variant makes for a
    session. *)
Definition polls (id : string) (c : Call) : Prop :=
  c = CallGetSession id ∨ c = CallListActivities id (Some 10).

(** The row [columns] once the active sync has recorded the state [state]
    with the completion date [completedAt]. *)
Definition with_status (state : SessionState) (completedAt : option Date)
    (columns : JulesSessionColumns) : JulesSessionColumns :=
  {| js_title := js_title columns;
     js_status := SessionState_value state;
     js_origin := js_origin columns;
     js_originalPrompt := js_originalPrompt columns;
     js_sourceName := js_sourceName columns;
     js_enhancedContext := js_enhancedContext columns;
     js_createdAt := js_createdAt columns;
     js_updatedAt := js_updatedAt columns;
     js_completedAt := completedAt |}.

(** The row [r] records the remote state [state] of a session whose row was
    [columns]: the status is the state, the completion date is set exactly for
    a closed state, and what describes the session is as before. *)
Definition follows (state : SessionState) (columns r : JulesSessionColumns) : Prop :=
  js_status r = SessionState_value state
  ∧ (if MonitorCore.isClosed (Some state)
     then is_Some (js_completedAt r)
     else js_completedAt r = None)
  ∧ js_title r = js_title columns
  ∧ js_origin r = js_origin columns
  ∧ js_originalPrompt r = js_originalPrompt columns
  ∧ js_sourceName r = js_sourceName columns
  ∧ js_enhancedContext r = js_enhancedContext columns.

Module Syncing.

(** Every session is PAUSED remotely. *)
Definition paused : Env :=
  Scenario.environment Scenario.noSessions
    (λ _ id, Ok (Scenario.remoteSession id PAUSED)) Scenario.noActivities
    Scenario.reliable.

(** A store with a closed session and an active one. *)
Definition twoRows : World :=
  set_julesSession
    (<["s1" := Scenario.row "COMPLETED"]> {[ "s2" := Scenario.row "IN_PROGRESS" ]})
    emptyWorld.

(** The remote lists s1, in progress at the first listing and completed
    afterwards; every [getSession] for it answers COMPLETED. *)
Definition finishing : Env :=
  Scenario.environment
    (λ k, Ok {| sessions :=
                  Some [Scenario.remoteSession "s1"
                          (if k is 0 then IN_PROGRESS else COMPLETED)] |})
    (λ _ id, Ok (Scenario.remoteSession id COMPLETED)) Scenario.noActivities
    Scenario.reliable.

End Syncing.

(** ** Further vocabulary: the activity mirror *)

(** [r] is the record the mirror creates for some activity of [sessionId]. *)
Definition mirror_of (sessionId : string) (r : ActivityLog) : Prop :=
  ∃ act, r = mirror_record sessionId act.

Module Mirroring.

(** The log once activity a1 of session s1 has been mirrored. *)
Definition seen : World :=
  set_activityLog [mirror_record "s1" Scenario.a1] emptyWorld.

(** An activity whose resource name ends in a slash. *)
Definition nameless : Activity :=
  Scenario.remoteActivity "sessions/s1/activities/" None.

End Mirroring.

(** ** Further vocabulary: the interventions *)

(** What the Overseer's answer is worth as a reply: its [result], else its
    [response], else a stock phrase, when the call succeeded with an ok status
    and a body that parses. *)
Definition overseer_reply (answer : Result OverseerResponse) : option string :=
  match answer with
  | Ok response =>
      if or_ok response
      then match or_json response with
           | Ok body =>
               Some (JS.or_else (ob_result body)
                       (JS.or_else (ob_response body) "I'll help with that."))
           | Throw _ => None
           end
      else None
  | Throw _ => None
  end.

(** The reply the Overseer gives to [question] in the world [w], if the
    binding is there. *)
Definition overseer_says (env : Env) (question : string) (context : EnhancedContext)
    (w : World) : option string :=
  if OVERSEER_AGENT_bound env
  then overseer_reply (overseer_answer env (issued KOverseer w) question context)
  else None.

(** The ERROR interaction [handleUserFeedback] writes when the reply to
    [question] could not be delivered or recorded. *)
Definition send_failure (sessionId question error : string) (timestamp : Date)
  : JulesInteraction :=
  {| ji_sessionId := sessionId; ji_type := INTERACTION_TYPE.ERROR;
     ji_julesMessage := Some question; ji_agentResponse := None;
     ji_isSuccess := false;
     ji_errorMessage := Some ("Failed to send intervention: Error: " +:+ error);
     ji_timestamp := timestamp |}.

(** The AGENT_REPLY interaction [handleUserFeedback] writes once the reply
    [text] to [question] has been delivered. *)
Definition reply_record (sessionId question text : string) (timestamp : Date)
  : JulesInteraction :=
  {| ji_sessionId := sessionId; ji_type := INTERACTION_TYPE.AGENT_REPLY;
     ji_julesMessage := Some question; ji_agentResponse := Some text;
     ji_isSuccess := true; ji_errorMessage := None; ji_timestamp := timestamp |}.

(** The interaction [handlePlanApproval] writes for the outcome of
    [approvePlan]. *)
Definition approval_record (sessionId : string) (outcome : Result ())
    (timestamp : Date) : JulesInteraction :=
  match outcome with
  | Ok _ =>
      {| ji_sessionId := sessionId; ji_type := INTERACTION_TYPE.AUTO_APPROVAL;
         ji_julesMessage := None;
         ji_agentResponse := Some "Plan automatically approved by JulesMonitorService";
         ji_isSuccess := true; ji_errorMessage := None; ji_timestamp := timestamp |}
  | Throw error =>
      {| ji_sessionId := sessionId; ji_type := INTERACTION_TYPE.ERROR;
         ji_julesMessage := None; ji_agentResponse := None; ji_isSuccess := false;
         ji_errorMessage := Some ("Plan approval failed: Error: " +:+ error);
         ji_timestamp := timestamp |}
  end.

Module Intervening.

(** Scenario D with a remote service that rejects every message. *)
Definition sendDown : Env :=
  {| listSessions_answer := λ _ _, Ok {| sessions := Some [] |};
     getSession_answer := λ _ _, Throw "Jules API Error: 503 Service Unavailable";
     listActivities_answer := λ _ _ _,
       Ok {| activities :=
               Some [Scenario.remoteActivity "sessions/s3/activities/q1"
                       (Some "Which database?")] |};
     sendMessage_answer := λ _ _ _, Throw "Jules API Error: 503 Service Unavailable";
     approvePlan_answer := λ _ _, Throw "Jules API Error: 409 Conflict";
     overseer_answer := λ _ _ _, Throw "Overseer unavailable";
     cloudflareDocs_answer := λ _ _, Ok [];
     latency := λ _, 0%N;
     storage_fails := λ _, false;
     JULES_API_KEY_bound := true;
     KV_bound := true;
     OVERSEER_AGENT_bound := true;
     JSON_parse_context := λ _, Throw "SyntaxError: Unexpected token" |}.

(** Scenario D with a store that rejects its second operation only. *)
Definition secondWriteFails : Env :=
  Scenario.environment Scenario.noSessions Scenario.unavailable
    (λ _ _, Ok {| activities :=
                    Some [Scenario.remoteActivity "sessions/s3/activities/q1"
                            (Some "Which database?")] |})
    (λ n, (n =? 1)%nat).

(** Session s3 with a stored context that is no JSON. *)
Definition garbled : JulesSession :=
  {| js_id := "s3";
     js_columns :=
       {| js_title := Some "Build fix"; js_status := "AWAITING_USER_FEEDBACK";
          js_origin := ORIGIN.INTERNAL; js_originalPrompt := "Fix the build";
          js_sourceName := None; js_enhancedContext := Some "{bindings:";
          js_createdAt := DateAt 0; js_updatedAt := DateAt 0;
          js_completedAt := None |} |}.

End Intervening.

(** ** Further vocabulary: the Overseer and the tools *)

Module Overseeing.

(** Nothing is configured: the API key is missing. *)
Definition keyless : Env :=
  {| listSessions_answer := λ _ _, Ok {| sessions := Some [Scenario.remoteSession "s1" QUEUED] |};
     getSession_answer := λ _ id, Ok (Scenario.remoteSession id COMPLETED);
     listActivities_answer := λ _ _ _, Ok {| activities := Some [] |};
     sendMessage_answer := λ _ _ _, Ok ();
     approvePlan_answer := λ _ _, Ok ();
     overseer_answer := λ _ _ _, Throw "Overseer unavailable";
     cloudflareDocs_answer := λ _ _, Ok [];
     latency := λ _, 0%N;
     storage_fails := λ _, false;
     JULES_API_KEY_bound := false;
     KV_bound := true;
     OVERSEER_AGENT_bound := false;
     JSON_parse_context := λ _, Throw "SyntaxError: Unexpected token" |}.

(** The last activity of every session reports an error in plain words, and
    the documentation search has an answer for everything. *)
Definition complaining : Env :=
  {| listSessions_answer := λ _ _, Ok {| sessions := Some [] |};
     getSession_answer := λ _ id, Ok (Scenario.remoteSession id IN_PROGRESS);
     listActivities_answer := λ _ _ _,
       Ok {| activities :=
               Some [Scenario.remoteActivity "sessions/s3/activities/e1"
                       (Some "Error: I am stuck")] |};
     sendMessage_answer := λ _ _ _, Ok ();
     approvePlan_answer := λ _ _, Ok ();
     overseer_answer := λ _ _ _, Throw "Overseer unavailable";
     cloudflareDocs_answer := λ _ _, Ok [{| content := Some "Restart the worker." |}];
     latency := λ _, 0%N;
     storage_fails := λ _, false;
     JULES_API_KEY_bound := true;
     KV_bound := true;
     OVERSEER_AGENT_bound := false;
     JSON_parse_context := λ _, Throw "SyntaxError: Unexpected token" |}.

(** The last activity of every session reports an error in the form the
    pattern of [checkOnJules] accepts. *)
Definition marked : Env :=
  {| listSessions_answer := λ _ _, Ok {| sessions := Some [] |};
     getSession_answer := λ _ id, Ok (Scenario.remoteSession id IN_PROGRESS);
     listActivities_answer := λ _ _ _,
       Ok {| activities :=
               Some [Scenario.remoteActivity "sessions/s3/activities/e1"
                       (Some (OverseerAgent.replacement_character +:+ "ERROR"
                              +:+ OverseerAgent.replacement_character))] |};
     sendMessage_answer := λ _ _ _, Ok ();
     approvePlan_answer := λ _ _, Ok ();
     overseer_answer := λ _ _ _, Throw "Overseer unavailable";
     cloudflareDocs_answer := λ _ _, Ok [{| content := Some "Restart the worker." |}];
     latency := λ _, 0%N;
     storage_fails := λ _, false;
     JULES_API_KEY_bound := true;
     KV_bound := true;
     OVERSEER_AGENT_bound := false;
     JSON_parse_context := λ _, Throw "SyntaxError: Unexpected token" |}.

End Overseeing.

(** ** Further vocabulary: tracked sessions, sources, health *)

Module Creating.

(** The remote service creates session s9, in the state QUEUED. *)
Definition createSession (request : CreateSessionRequest) : M Session :=
  ret {| s_name := "sessions/s9"; s_id := "s9"; s_prompt := csr_prompt request;
         s_title := csr_title request; s_state := QUEUED;
         s_createTime := "2025-01-03T00:00:00Z";
         s_updateTime := "2025-01-03T00:00:00Z" |}.

Definition params : TrackedSessionParams :=
  {| p_prompt := "Add a health endpoint"; p_title := Some "Health endpoint";
     p_sourceName := None; p_enhancedContext := None |}.

(** The remote service lists s9 from then on. *)
Definition listed : Env :=
  Scenario.environment
    (λ _, Ok {| sessions := Some [Scenario.remoteSession "s9" IN_PROGRESS] |})
    Scenario.unavailable Scenario.noActivities Scenario.reliable.

End Creating.
(** * Properties *)

(** ** Strings and JSON *)

Lemma startsWith_app (t b : string) : JS.startsWith (t +:+ b) t = true.
Proof.
  induction t as [|c t IH]; simpl.
  - by destruct b.
  - by rewrite Ascii.eqb_refl.
Qed.

Lemma includes_unfold (s t : string) :
  JS.includes s t =
  JS.startsWith s t || match s with EmptyString => false | String _ s' => JS.includes s' t end.
Proof. by destruct s. Qed.

Lemma includes_empty (s : string) : JS.includes s EmptyString = true.
Proof. rewrite includes_unfold. by destruct s. Qed.

Lemma escape_char_plain (c : ascii) :
  JSON.plain_char c = true → JSON.escape_char c = String c EmptyString.
Proof.
  unfold JSON.plain_char, JSON.escape_char. intros H.
  apply andb_prop in H as [H Hlow]. apply andb_prop in H as [Hq Hb].
  apply negb_true_iff in Hq, Hb, Hlow. rewrite Hq, Hb.
  apply Nat.ltb_ge in Hlow. rewrite (proj2 (Nat.ltb_ge _ _) Hlow).
  repeat match goal with
         | |- context [Nat.eqb ?a ?b] => destruct (Nat.eqb_spec a b); [lia|]
         end.
  done.
Qed.

Lemma escape_plain (s : string) : JSON.plain s = true → JSON.escape s = s.
Proof.
  induction s as [|c s IH]; simpl; [done|]. intros H.
  apply andb_prop in H as [Hc Hs]. by rewrite escape_char_plain, IH.
Qed.

Lemma split_from_last (sep : ascii) (s cur : string) :
  is_Some (last (JS.split_from sep cur s)).
Proof.
  revert cur. induction s as [|c s IH]; intros cur; simpl; [by eexists|].
  destruct (Ascii.eqb c sep); [|apply IH].
  rewrite last_cons. destruct (IH EmptyString) as [x ->]. by eexists.
Qed.

(** [split] gives at least one segment, so [pop] is never [undefined]. *)
Lemma pop_split (name : string) :
  JS.pop (JS.split "/" name) = Some (MonitorCore.remoteIdOf name).
Proof.
  unfold MonitorCore.remoteIdOf, JS.pop, JS.split.
  by destruct (split_from_last "/" name EmptyString) as [x ->].
Qed.

(** ** The monad *)

Lemma bind_Ok {A B} (m : M A) (f : A → M B) w a w' :
  m w = (Ok a, w') → bind m f w = f a w'.
Proof. unfold bind. by intros ->. Qed.

Lemma bind_Throw {A B} (m : M A) (f : A → M B) w e w' :
  m w = (Throw e, w') → bind m f w = (Throw e, w').
Proof. unfold bind. by intros ->. Qed.

Lemma keeps_ret {X A} (f : World → X) (a : A) : keeps f (ret a).
Proof. done. Qed.

Lemma keeps_throw {X A} (f : World → X) e : keeps f (@throw A e).
Proof. done. Qed.

Lemma keeps_bind {X A B} (f : World → X) (m : M A) (k : A → M B) :
  keeps f m → (∀ a, keeps f (k a)) → keeps f (bind m k).
Proof.
  intros Hm Hk w. unfold bind. specialize (Hm w).
  destruct (m w) as [[a|e] w1]; simpl in *; [|done].
  by rewrite Hk.
Qed.

Lemma keeps_try_catch {X A} (f : World → X) (m : M A) (h : string → M A) :
  keeps f m → (∀ e, keeps f (h e)) → keeps f (try_catch m h).
Proof.
  intros Hm Hh w. unfold try_catch. specialize (Hm w).
  destruct (m w) as [[a|e] w1]; simpl in *; [done|].
  by rewrite Hh.
Qed.

Lemma keeps_attempt {X A} (f : World → X) (m : M A) :
  keeps f m → keeps f (attempt m).
Proof. intros Hm w. apply Hm. Qed.

Lemma keeps_for_of {X A} (f : World → X) (l : list A) (body : A → M ()) :
  (∀ x, keeps f (body x)) → keeps f (for_of l body).
Proof.
  intros Hb. induction l as [|x l IH]; simpl.
  - apply keeps_ret.
  - apply keeps_bind; [apply Hb|by intros _].
Qed.

Lemma keeps_if {X A} (f : World → X) (b : bool) (m1 m2 : M A) :
  keeps f m1 → keeps f m2 → keeps f (if b then m1 else m2).
Proof. by destruct b. Qed.

(** ** Discovery and the completion date *)

(** C4 (does not hold on the code): [completedAt] is non-null iff the status is
    COMPLETED or FAILED.  Discovery stores the remote state of a session as it
    finds it and never sets [completedAt]: a session that is already COMPLETED
    when it is adopted is stored with status COMPLETED and a null
    [completedAt], and the active sync, which skips closed sessions, leaves it
    so. *)
Theorem adopted_closed_session_has_no_completedAt :
  let adopted := (ClientMonitor.syncExternalSessions Scenario.closedRemote emptyWorld).2 in
  let passed := (ClientMonitor.run Scenario.closedRemote emptyWorld).2 in
  (js_status <$> julesSession adopted !! "s1" = Some "COMPLETED"
   ∧ js_completedAt <$> julesSession adopted !! "s1" = Some None)
  ∧ (js_status <$> julesSession passed !! "s1" = Some "COMPLETED"
     ∧ js_completedAt <$> julesSession passed !! "s1" = Some None).
Proof. vm_compute. done. Qed.

(** ** The stuck-session query *)

(** C7 (does not hold on the code): the detector selects the sessions whose
    status is AWAITING_USER_FEEDBACK.  The query compares the status with the
    text WAITING_FOR_USER_FEEDBACK, which is the value of no member of
    [SessionState]: no session whose status is a state of the enum is selected,
    with a session awaiting user feedback in the store the detector returns 0
    without a single remote call, and the one status it does select is that
    other text. *)
Theorem stuck_query_skips_awaiting_user_feedback :
  (∀ id state title origin prompt source context created updated completed,
     ToolMonitor.isStuck
       {| js_id := id;
          js_columns :=
            {| js_title := title; js_status := SessionState_value state;
               js_origin := origin; js_originalPrompt := prompt;
               js_sourceName := source; js_enhancedContext := context;
               js_createdAt := created; js_updatedAt := updated;
               js_completedAt := completed |} |} = false)
  ∧ (let r := ToolMonitor.checkForStuckSessions Scenario.quiet
                (Scenario.storeWith "s3" (SessionState_value AWAITING_USER_FEEDBACK)) in
     r.1 = Ok 0 ∧ calls r.2 = [])
  ∧ (let r := ToolMonitor.checkForStuckSessions Scenario.quiet
                (Scenario.storeWith "s3" "WAITING_FOR_USER_FEEDBACK") in
     r.1 = Ok 1 ∧ calls r.2 = [CallListActivities "s3" None]).
Proof.
  split; [|split].
  - intros id state. by destruct state.
  - vm_compute. done.
  - vm_compute. done.
Qed.

(** ** The scheduler *)

(** C6 (does not hold on the code): [run] never throws.  Nothing traps an
    exception of the intervention phase, nor one of the session query that
    opens the active sync: a remote failure while a stuck session is handled
    makes [run] reject, and so does a storage failure on the active-session
    query, after which the intervention phase does not run (the only call
    issued is the discovery's). *)
Theorem run_rejects_when_a_phase_fails :
  (ToolMonitor.run Scenario.activitiesDown
     (Scenario.storeWith "s3" "WAITING_FOR_USER_FEEDBACK")).1
  = Throw "Jules API Error: 503 Service Unavailable"
  ∧ (let r := ToolMonitor.run Scenario.storeDown emptyWorld in
     r.1 = Throw "storage operation failed"
     ∧ calls r.2 = [CallListSessions (Some 20)]
     ∧ storageOps r.2 = 1).
Proof. vm_compute. done. Qed.

(** ** The poller on concrete state sequences *)

(** C8, as stated, fails: on the sequence AWAITING_PLAN_APPROVAL,
    AWAITING_PLAN_APPROVAL, IN_PROGRESS, COMPLETED with auto-approval the
    poller returns COMPLETED, and it has called [approvePlan] twice. *)
Lemma poller_approves_twice :
  let r := SmartPoller.monitor
             (Scenario.stateSequence
                [AWAITING_PLAN_APPROVAL; AWAITING_PLAN_APPROVAL; IN_PROGRESS; COMPLETED])
             Scenario.defaults 10 "s1" emptyWorld in
  r.1 = Ok (Some {| SmartPoller.status := SmartPoller.POLL_COMPLETED;
                    SmartPoller.session := Scenario.remoteSession "s1" COMPLETED;
                    SmartPoller.lastMessage := None |})
  ∧ issued KApprovePlan r.2 = 2
  ∧ issued KApprovePlan r.2 ≠ 1.
Proof. vm_compute. done. Qed.

(** C9, as stated, fails for PAUSED: the poller returns NEEDS_INPUT without a
    message and without fetching an activity, although the latest activity of
    the session carries an agent message. *)
Lemma poller_paused_has_no_message :
  let r := SmartPoller.monitor (Scenario.stateSequence [PAUSED])
             Scenario.defaults 10 "s1" emptyWorld in
  r.1 = Ok (Some {| SmartPoller.status := SmartPoller.NEEDS_INPUT;
                    SmartPoller.session := Scenario.remoteSession "s1" PAUSED;
                    SmartPoller.lastMessage := None |})
  ∧ calls r.2 = [CallGetSession "s1"]
  ∧ issued KListActivities r.2 = 0.
Proof. vm_compute. done. Qed.

(** ** Calls, timers and the call log *)

Lemma call_eq {A} env (c : Call) (answer : nat → Result A) w :
  call env c answer w = (answer (issued (kind_of c) w), after_call env c w).
Proof. done. Qed.

Lemma sleep_eq ms w : sleep ms w = (Ok (), after_sleep ms w).
Proof. done. Qed.

Lemma calls_after_call env c w : calls (after_call env c w) = calls w ++ [c].
Proof. done. Qed.

Lemma issued_after_call env k c w :
  issued k (after_call env c w) =
  issued k w + (if decide (kind_of c = k) then 1 else 0).
Proof.
  unfold issued. rewrite calls_after_call, filter_app, length_app.
  rewrite filter_cons, filter_nil. by case_decide.
Qed.

Lemma issued_after_sleep k ms w : issued k (after_sleep ms w) = issued k w.
Proof. done. Qed.

Lemma now_after_call env c w :
  now (after_call env c w) = (now w + latency env (length (calls w)))%N.
Proof. done. Qed.

Lemma now_after_sleep ms w : now (after_sleep ms w) = (now w + ms)%N.
Proof. done. Qed.

(** ** The transitions of the poller *)

Section PollerTransitions.
Context (env : Env) (options : SmartPoller.Options).
Context (sessionId : string) (startTime : N).

Abbreviation loop := (SmartPoller.monitor_loop env options).
Abbreviation timeout := (SmartPoller.timeoutMs options).
Abbreviation observed w := (after_call env (CallGetSession sessionId) w).

Lemma poll_timeout fuel w :
  (timeout ≤ now w - startTime)%N →
  loop (S fuel) sessionId startTime w =
  match getSession_answer env (issued KGetSession w) sessionId with
  | Ok finalSession =>
      (Ok (Some {| SmartPoller.status := SmartPoller.TIMEOUT;
                   SmartPoller.session := finalSession;
                   SmartPoller.lastMessage := None |}), observed w)
  | Throw e => (Throw e, observed w)
  end.
Proof.
  intros Hlate. simpl. unfold bind at 1. simpl.
  rewrite (proj2 (N.ltb_ge _ _) Hlate).
  unfold bind, JulesClient.getSession. rewrite call_eq. simpl.
  by destruct (getSession_answer env _ _).
Qed.

Lemma poll_observe fuel w session :
  (now w - startTime < timeout)%N →
  getSession_answer env (issued KGetSession w) sessionId = Ok session →
  loop (S fuel) sessionId startTime w =
  match s_state session with
  | COMPLETED =>
      (Ok (Some {| SmartPoller.status := SmartPoller.POLL_COMPLETED;
                   SmartPoller.session := session;
                   SmartPoller.lastMessage := None |}), observed w)
  | FAILED =>
      (Ok (Some {| SmartPoller.status := SmartPoller.POLL_FAILED;
                   SmartPoller.session := session;
                   SmartPoller.lastMessage := None |}), observed w)
  | AWAITING_PLAN_APPROVAL =>
      if SmartPoller.autoApprove options
      then
        match approvePlan_answer env (issued KApprovePlan w) sessionId with
        | Ok _ =>
            loop fuel sessionId startTime
              (after_sleep 1000
                 (after_call env (CallApprovePlan sessionId) (observed w)))
        | Throw e =>
            (Throw e, after_call env (CallApprovePlan sessionId) (observed w))
        end
      else
        (Ok (Some {| SmartPoller.status := SmartPoller.NEEDS_INPUT;
                     SmartPoller.session := session;
                     SmartPoller.lastMessage := None |}), observed w)
  | AWAITING_USER_FEEDBACK =>
      match listActivities_answer env (issued KListActivities w) sessionId (Some 1) with
      | Ok response =>
          (Ok (Some {| SmartPoller.status := SmartPoller.NEEDS_INPUT;
                       SmartPoller.session := session;
                       SmartPoller.lastMessage :=
                         Some (JS.or_else
                                 ((activities response ≫= head) ≫= act_agentMessaged)
                                 "Agent is requesting feedback.") |}),
           after_call env (CallListActivities sessionId (Some 1)) (observed w))
      | Throw e =>
          (Throw e, after_call env (CallListActivities sessionId (Some 1)) (observed w))
      end
  | PAUSED =>
      (Ok (Some {| SmartPoller.status := SmartPoller.NEEDS_INPUT;
                   SmartPoller.session := session;
                   SmartPoller.lastMessage := None |}), observed w)
  | QUEUED | PLANNING | IN_PROGRESS | STATE_UNSPECIFIED =>
      loop fuel sessionId startTime
        (after_sleep (SmartPoller.intervalMs options) (observed w))
  end.
Proof.
  intros Hearly Hanswer. simpl. unfold bind at 1. simpl.
  rewrite (proj2 (N.ltb_lt _ _) Hearly).
  rewrite (bind_Ok _ _ _ session (observed w))
    by (unfold JulesClient.getSession; rewrite call_eq; cbn [kind_of]; by rewrite Hanswer).
  destruct (s_state session); try done;
    try (by rewrite (bind_Ok _ _ _ () _ (sleep_eq _ _))).
  - destruct (SmartPoller.autoApprove options); [|done].
    destruct (approvePlan_answer env _ _) as [[]|e] eqn:Happrove.
    + rewrite (bind_Ok _ _ _ () (after_call env (CallApprovePlan sessionId) (observed w))).
      * by rewrite (bind_Ok _ _ _ () _ (sleep_eq _ _)).
      * unfold JulesClient.approvePlan. rewrite call_eq, issued_after_call.
        cbn [kind_of]. rewrite decide_False by done.
        by rewrite Nat.add_0_r, Happrove.
    + apply bind_Throw.
      unfold JulesClient.approvePlan. rewrite call_eq, issued_after_call.
      cbn [kind_of]. rewrite decide_False by done.
      by rewrite Nat.add_0_r, Happrove.
  - destruct (listActivities_answer env _ _ _) as [response|e] eqn:Hlist.
    + rewrite (bind_Ok _ _ _ response
                 (after_call env (CallListActivities sessionId (Some 1)) (observed w)));
        [done|].
      unfold JulesClient.listActivities. rewrite call_eq, issued_after_call.
      cbn [kind_of]. rewrite decide_False by done.
      by rewrite Nat.add_0_r, Hlist.
    + apply bind_Throw.
      unfold JulesClient.listActivities. rewrite call_eq, issued_after_call.
      cbn [kind_of]. rewrite decide_False by done.
      by rewrite Nat.add_0_r, Hlist.
Qed.

End PollerTransitions.

Lemma calls_after_sleep ms w : calls (after_sleep ms w) = calls w.
Proof. done. Qed.

Lemma issued_other env k c w :
  kind_of c ≠ k → issued k (after_call env c w) = issued k w.
Proof. intros H. rewrite issued_after_call, decide_False by done. lia. Qed.

Lemma calls_length_after_call env c w :
  length (calls (after_call env c w)) = S (length (calls w)).
Proof. rewrite calls_after_call, length_app. simpl. lia. Qed.

Create Rewrite HintDb world.
#[local] Hint Rewrite issued_after_sleep issued_after_call calls_after_sleep
  now_after_sleep now_after_call calls_length_after_call : world.

(** Counting the calls of a kind in a world built by calls and timers. *)
Ltac count_calls :=
  autorewrite with world; cbn [kind_of];
  repeat first [rewrite decide_True by done | rewrite decide_False by done].

(** C9, amended: on AWAITING_USER_FEEDBACK the poller fetches the single most
    recent activity (page size 1) and, when the fetch succeeds, returns
    NEEDS_INPUT with the agent message of that activity, or with the default
    text when there is none (or an empty one); when the fetch fails the poller
    rejects.  On PAUSED it returns NEEDS_INPUT at once, with no message and
    without fetching an activity. *)
Theorem poller_needs_input env options sessionId startTime fuel w session :
  (now w - startTime < SmartPoller.timeoutMs options)%N →
  getSession_answer env (issued KGetSession w) sessionId = Ok session →
  s_state session = AWAITING_USER_FEEDBACK ∨ s_state session = PAUSED →
  SmartPoller.monitor_loop env options (S fuel) sessionId startTime w =
  if decide (s_state session = PAUSED)
  then
    (Ok (Some {| SmartPoller.status := SmartPoller.NEEDS_INPUT;
                 SmartPoller.session := session;
                 SmartPoller.lastMessage := None |}),
     after_call env (CallGetSession sessionId) w)
  else
    match listActivities_answer env (issued KListActivities w) sessionId (Some 1) with
    | Ok response =>
        (Ok (Some {| SmartPoller.status := SmartPoller.NEEDS_INPUT;
                     SmartPoller.session := session;
                     SmartPoller.lastMessage :=
                       Some (JS.or_else
                               ((activities response ≫= head) ≫= act_agentMessaged)
                               "Agent is requesting feedback.") |}),
         after_call env (CallListActivities sessionId (Some 1))
           (after_call env (CallGetSession sessionId) w))
    | Throw e =>
        (Throw e,
         after_call env (CallListActivities sessionId (Some 1))
           (after_call env (CallGetSession sessionId) w))
    end.
Proof.
  intros Hearly Hanswer Hstate.
  rewrite (poll_observe _ _ _ _ _ _ _ Hearly Hanswer).
  by destruct Hstate as [-> | ->].
Qed.

(** The poller of scenario [stateSequence [AWAITING_USER_FEEDBACK]] returns the
    question of the latest activity. *)
Lemma poller_needs_input_witness :
  SmartPoller.monitor_loop (Scenario.stateSequence [AWAITING_USER_FEEDBACK])
    Scenario.defaults 1 "s1" 0 emptyWorld =
  (Ok (Some {| SmartPoller.status := SmartPoller.NEEDS_INPUT;
               SmartPoller.session := Scenario.remoteSession "s1" AWAITING_USER_FEEDBACK;
               SmartPoller.lastMessage := Some "Which database?" |}),
   after_call (Scenario.stateSequence [AWAITING_USER_FEEDBACK])
     (CallListActivities "s1" (Some 1))
     (after_call (Scenario.stateSequence [AWAITING_USER_FEEDBACK])
        (CallGetSession "s1") emptyWorld)).
Proof.
  apply (poller_needs_input (Scenario.stateSequence [AWAITING_USER_FEEDBACK])
           Scenario.defaults "s1" 0 0 emptyWorld
           (Scenario.remoteSession "s1" AWAITING_USER_FEEDBACK)).
  - reflexivity.
  - reflexivity.
  - left. reflexivity.
Defined.

(** C8, amended: with auto-approval, on the [getSession] sequence
    AWAITING_PLAN_APPROVAL, AWAITING_PLAN_APPROVAL, IN_PROGRESS, COMPLETED the
    poller calls [approvePlan] once for each observation of
    AWAITING_PLAN_APPROVAL, twice in all, and returns COMPLETED, provided both
    approvals succeed and the deadline is not reached meanwhile. *)
Theorem poller_approves_each_observation env options sessionId w s0 s1 s2 s3 fuel :
  let g := issued KGetSession w in
  let a := issued KApprovePlan w in
  let n := length (calls w) in
  SmartPoller.autoApprove options = true →
  getSession_answer env g sessionId = Ok s0 → s_state s0 = AWAITING_PLAN_APPROVAL →
  getSession_answer env (S g) sessionId = Ok s1 → s_state s1 = AWAITING_PLAN_APPROVAL →
  getSession_answer env (S (S g)) sessionId = Ok s2 → s_state s2 = IN_PROGRESS →
  getSession_answer env (S (S (S g))) sessionId = Ok s3 → s_state s3 = COMPLETED →
  approvePlan_answer env a sessionId = Ok () →
  approvePlan_answer env (S a) sessionId = Ok () →
  (latency env n + latency env (S n) + 1000
   + latency env (S (S n)) + latency env (S (S (S n))) + 1000
   + latency env (S (S (S (S n)))) + SmartPoller.intervalMs options
   < SmartPoller.timeoutMs options)%N →
  ∃ w',
    SmartPoller.monitor env options (4 + fuel) sessionId w =
    (Ok (Some {| SmartPoller.status := SmartPoller.POLL_COMPLETED;
                 SmartPoller.session := s3;
                 SmartPoller.lastMessage := None |}), w')
    ∧ issued KApprovePlan w' = a + 2
    ∧ issued KGetSession w' = g + 4.
Proof.
  intros g a n. subst g a n.
  intros Hauto H0 E0 H1 E1 H2 E2 H3 E3 Ha0 Ha1 Htime.
  eexists. split.
  - unfold SmartPoller.monitor, bind at 1, Date_now.
    change (4 + fuel) with (S (S (S (S fuel)))).
    (* first observation: awaiting plan approval *)
    rewrite (poll_observe _ _ _ _ _ _ s0) by (done || lia).
    rewrite E0, Hauto, Ha0.
    (* second observation: still awaiting plan approval *)
    rewrite (poll_observe _ _ _ _ _ _ s1);
      [ | count_calls; lia
        | count_calls; rewrite <- H1; f_equal; rewrite ?Nat.add_0_r, ?Nat.add_1_r; done ].
    rewrite E1, Hauto.
    replace (approvePlan_answer env _ sessionId) with (Ok (A:=()) ());
      [ | rewrite <- Ha1; f_equal; count_calls; rewrite ?Nat.add_0_r, ?Nat.add_1_r; done ].
    (* third observation: in progress *)
    rewrite (poll_observe _ _ _ _ _ _ s2);
      [ | count_calls; lia
        | count_calls; rewrite <- H2; f_equal; rewrite ?Nat.add_0_r, ?Nat.add_1_r; done ].
    rewrite E2.
    (* fourth observation: completed *)
    rewrite (poll_observe _ _ _ _ _ _ s3);
      [ | count_calls; lia
        | count_calls; rewrite <- H3; f_equal; rewrite ?Nat.add_0_r, ?Nat.add_1_r; done ].
    rewrite E3. reflexivity.
  - clear. split; count_calls; lia.
Qed.

(** Scenario E on the default options: two approvals, then COMPLETED. *)
Lemma poller_approves_each_observation_witness :
  ∃ w',
    SmartPoller.monitor
      (Scenario.stateSequence
         [AWAITING_PLAN_APPROVAL; AWAITING_PLAN_APPROVAL; IN_PROGRESS; COMPLETED])
      Scenario.defaults (4 + 6) "s1" emptyWorld =
    (Ok (Some {| SmartPoller.status := SmartPoller.POLL_COMPLETED;
                 SmartPoller.session := Scenario.remoteSession "s1" COMPLETED;
                 SmartPoller.lastMessage := None |}), w')
    ∧ issued KApprovePlan w' = issued KApprovePlan emptyWorld + 2
    ∧ issued KGetSession w' = issued KGetSession emptyWorld + 4.
Proof.
  apply (poller_approves_each_observation
           (Scenario.stateSequence
              [AWAITING_PLAN_APPROVAL; AWAITING_PLAN_APPROVAL; IN_PROGRESS; COMPLETED])
           Scenario.defaults "s1" emptyWorld
           (Scenario.remoteSession "s1" AWAITING_PLAN_APPROVAL)
           (Scenario.remoteSession "s1" AWAITING_PLAN_APPROVAL)
           (Scenario.remoteSession "s1" IN_PROGRESS)
           (Scenario.remoteSession "s1" COMPLETED) 6); reflexivity.
Defined.

(** Projections of a world built by the setters. *)
Ltac world_simpl :=
  cbn [julesSession activityLog julesInteraction KV calls storageOps now
       set_julesSession set_activityLog set_julesInteraction set_KV set_calls
       set_storageOps set_now after_call after_sleep after_storage fst snd
       js_id js_columns].

(** ** Discovery *)

Section Discovery.
Context (env : Env).
Context (fetchSessions : M ListSessionsResponse).
Hypothesis reliable : ∀ n, storage_fails env n = false.

Abbreviation adopt := (MonitorCore.adopt env).
Abbreviation adopt_all := (MonitorCore.adopt_all env).

Lemma adopt_known extSession w :
  is_Some (julesSession w !! s_id extSession) →
  adopt extSession w = (Ok false, after_storage w).
Proof.
  intros [r Hr]. unfold MonitorCore.adopt, bind, prisma.julesSession_findUnique, storage.
  rewrite reliable. world_simpl. by rewrite Hr.
Qed.

Lemma adopt_new extSession w :
  julesSession w !! s_id extSession = None →
  ∃ columns w',
    adopt extSession w = (Ok true, w')
    ∧ julesSession w' = <[s_id extSession := columns]> (julesSession w)
    ∧ js_origin columns = ORIGIN.EXTERNAL
    ∧ js_status columns = SessionState_value (s_state extSession)
    ∧ calls w' = calls w.
Proof.
  intros Hnew. eexists _, _.
  unfold MonitorCore.adopt, bind, prisma.julesSession_findUnique,
    prisma.julesSession_create, storage, new_Date.
  rewrite reliable. world_simpl. rewrite Hnew. cbn [fmap option_fmap option_map].
  rewrite reliable. world_simpl. rewrite Hnew.
  repeat split; reflexivity.
Qed.

(** Sessions that are all tracked already: nothing is created, the counter
    does not move. *)
Lemma adopt_all_known externalSessions syncedCount w :
  (∀ e, e ∈ externalSessions → is_Some (julesSession w !! s_id e)) →
  ∃ w', adopt_all externalSessions syncedCount w = (Ok syncedCount, w')
        ∧ julesSession w' = julesSession w.
Proof.
  revert w. induction externalSessions as [|e rest IH]; intros w Hknown; simpl.
  - by eexists.
  - unfold bind at 1, attempt. rewrite adopt_known by (apply Hknown; left). simpl.
    destruct (IH (after_storage w)) as (w' & -> & Hstore).
    { intros e' He'. apply Hknown. by right. }
    by eexists.
Qed.

(** After the loop every listed session is tracked, and tracked sessions stay
    tracked. *)
Lemma adopt_all_tracks externalSessions syncedCount w :
  ∃ count w',
    adopt_all externalSessions syncedCount w = (Ok count, w')
    ∧ (∀ e, e ∈ externalSessions → is_Some (julesSession w' !! s_id e))
    ∧ (∀ id, is_Some (julesSession w !! id) → is_Some (julesSession w' !! id)).
Proof.
  revert syncedCount w.
  induction externalSessions as [|e rest IH]; intros syncedCount w; simpl.
  - eexists _, _. split; [done|]. split; [|done]. intros e He. by apply elem_of_nil in He.
  - unfold bind at 1, attempt.
    destruct (julesSession w !! s_id e) as [r|] eqn:Hr.
    + rewrite adopt_known by (by rewrite Hr). simpl.
      destruct (IH syncedCount (after_storage w)) as (c & w' & -> & Hall & Hmono).
      eexists _, _. split; [done|]. split; [|done].
      intros e' [->|He']%elem_of_cons; [|by apply Hall].
      apply Hmono. simpl. by rewrite Hr.
    + destruct (adopt_new e w Hr) as (columns & w1 & -> & Hstore & _). simpl.
      destruct (IH (S syncedCount) w1) as (c & w' & -> & Hall & Hmono).
      eexists _, _. split; [done|]. split.
      * intros e' [->|He']%elem_of_cons; [|by apply Hall].
        apply Hmono. rewrite Hstore. by rewrite lookup_insert_eq.
      * intros id Hid. apply Hmono. rewrite Hstore.
        destruct (decide (s_id e = id)) as [->|Hne].
        -- by rewrite lookup_insert_eq.
        -- by rewrite lookup_insert_ne.
Qed.

Lemma syncExternalSessions_fetched response w w1 :
  fetchSessions w = (Ok response, w1) →
  MonitorCore.syncExternalSessions env fetchSessions w =
  adopt_all (default [] (sessions response)) 0 w1.
Proof.
  intros Hfetch. unfold MonitorCore.syncExternalSessions, bind, attempt.
  by rewrite Hfetch.
Qed.

End Discovery.

(** C3: with an empty store and a remote that lists two sessions, discovery
    creates a record for each with origin EXTERNAL and returns 2; run again at
    once against the same remote list it returns 0 and leaves the two records
    as they are. *)
Theorem discovery_is_idempotent env w e1 e2 :
  julesSession w = ∅ →
  s_id e1 ≠ s_id e2 →
  (∀ n, storage_fails env n = false) →
  listSessions_answer env (issued KListSessions w) (Some 20)
  = Ok {| sessions := Some [e1; e2] |} →
  listSessions_answer env (S (issued KListSessions w)) (Some 20)
  = Ok {| sessions := Some [e1; e2] |} →
  let first := ClientMonitor.syncExternalSessions env w in
  let second := ClientMonitor.syncExternalSessions env first.2 in
  first.1 = Ok 2
  ∧ js_origin <$> julesSession first.2 !! s_id e1 = Some ORIGIN.EXTERNAL
  ∧ js_origin <$> julesSession first.2 !! s_id e2 = Some ORIGIN.EXTERNAL
  ∧ size (julesSession first.2) = 2
  ∧ second.1 = Ok 0
  ∧ julesSession second.2 = julesSession first.2
  ∧ size (julesSession second.2) = 2.
Proof.
  intros Hempty Hne Hreliable Hfirst Hsecond.
  set (w0 := after_call env (CallListSessions (Some 20)) w).
  destruct (adopt_new env Hreliable e1 w0) as (c1 & w1 & Hadopt1 & Hstore1 & Horigin1 & _ & Hcalls1).
  { subst w0. world_simpl. by rewrite Hempty. }
  destruct (adopt_new env Hreliable e2 w1) as (c2 & w2 & Hadopt2 & Hstore2 & Horigin2 & _ & Hcalls2).
  { rewrite Hstore1. subst w0. world_simpl. by rewrite lookup_insert_ne, Hempty. }
  assert (ClientMonitor.syncExternalSessions env w = (Ok 2, w2)) as Hpass1.
  { unfold ClientMonitor.syncExternalSessions.
    rewrite (syncExternalSessions_fetched env _ {| sessions := Some [e1; e2] |} w w0)
      by (unfold ClientMonitor.fetchSessions, JulesClient.listSessions;
          by rewrite call_eq, <- Hfirst).
    simpl. unfold bind at 1, attempt. rewrite Hadopt1. simpl.
    unfold bind at 1, attempt. by rewrite Hadopt2. }
  assert (size (julesSession w2) = 2) as Hsize.
  { rewrite Hstore2, Hstore1. subst w0. world_simpl. rewrite Hempty.
    rewrite !map_size_insert_None, map_size_empty; [done|done|].
    by rewrite lookup_insert_ne. }
  assert (∃ w3, ClientMonitor.syncExternalSessions env w2 = (Ok 0, w3)
                ∧ julesSession w3 = julesSession w2) as (w3 & Hpass2 & Hstore3).
  { destruct (adopt_all_known env Hreliable [e1; e2] 0
                (after_call env (CallListSessions (Some 20)) w2))
      as (w3 & Hloop & Hstore3).
    { intros e He. world_simpl. rewrite Hstore2, Hstore1.
      apply elem_of_cons in He as [->|He].
      + by rewrite lookup_insert_ne, lookup_insert_eq.
      + apply list_elem_of_singleton in He as ->. by rewrite lookup_insert_eq. }
    exists w3. split; [|done].
    unfold ClientMonitor.syncExternalSessions.
    rewrite (syncExternalSessions_fetched env _ {| sessions := Some [e1; e2] |} w2
               (after_call env (CallListSessions (Some 20)) w2)); [done|].
    unfold ClientMonitor.fetchSessions, JulesClient.listSessions.
    rewrite call_eq, <- Hsecond. do 2 f_equal. unfold issued.
    rewrite Hcalls2, Hcalls1. subst w0. world_simpl.
    rewrite filter_app, length_app. simpl. lia. }
  cbv zeta. rewrite Hpass1. cbn [fst snd]. rewrite Hpass2. cbn [fst snd].
  rewrite Hstore3, Hsize, Hstore2, Hstore1.
  rewrite lookup_insert_eq, lookup_insert_ne, lookup_insert_eq by done.
  simpl. by rewrite Horigin1, Horigin2.
Qed.

(** Scenario A: the remote lists s1 and s2, the store is empty. *)
Lemma discovery_is_idempotent_witness :
  let first := ClientMonitor.syncExternalSessions Scenario.twoSessions emptyWorld in
  let second := ClientMonitor.syncExternalSessions Scenario.twoSessions first.2 in
  first.1 = Ok 2
  ∧ js_origin <$> julesSession first.2 !! "s1" = Some ORIGIN.EXTERNAL
  ∧ js_origin <$> julesSession first.2 !! "s2" = Some ORIGIN.EXTERNAL
  ∧ size (julesSession first.2) = 2
  ∧ second.1 = Ok 0
  ∧ julesSession second.2 = julesSession first.2
  ∧ size (julesSession second.2) = 2.
Proof.
  apply (discovery_is_idempotent Scenario.twoSessions emptyWorld
           (Scenario.remoteSession "s1" IN_PROGRESS)
           (Scenario.remoteSession "s2" QUEUED)).
  - reflexivity.
  - simpl. discriminate.
  - intros n. reflexivity.
  - reflexivity.
  - reflexivity.
Defined.

(** ** What each operation leaves alone *)

Lemma keeps_call {X A} (f : World → X) env c (answer : nat → Result A) :
  (∀ w, f (after_call env c w) = f w) → keeps f (call env c answer).
Proof. intros H w. apply H. Qed.

Lemma keeps_storage {X A} (f : World → X) env (op : World → Result A * World) :
  (∀ w, f (after_storage w) = f w) → (∀ w, f (op w).2 = f w) →
  keeps f (storage env op).
Proof.
  intros Htick Hop w. unfold storage.
  destruct (storage_fails env (storageOps w)); [apply Htick|].
  rewrite Hop. apply Htick.
Qed.

Lemma keeps_new_Date {X} (f : World → X) : keeps f new_Date.
Proof. done. Qed.

(** Structural steps of a [keeps] proof; primitives are closed by computing
    the projection on the world they return. *)
Ltac keeps_step :=
  lazymatch goal with
  | |- keeps _ (ret _) => apply keeps_ret
  | |- keeps _ (throw _) => apply keeps_throw
  | |- keeps _ new_Date => apply keeps_new_Date
  | |- keeps _ (bind _ _) => apply keeps_bind; [|intros ?]
  | |- keeps _ (try_catch _ _) => apply keeps_try_catch; [|intros ?]
  | |- keeps _ (attempt _) => apply keeps_attempt
  | |- keeps _ (for_of _ _) => apply keeps_for_of; intros ?
  | |- keeps _ (match ?o with _ => _ end) => destruct o
  | |- keeps _ (call _ _ _) => apply keeps_call; intros ?; reflexivity
  | |- keeps _ (storage _ _) =>
      apply keeps_storage; intros ?; world_simpl; repeat case_match; world_simpl;
      try reflexivity
  end.

Ltac keeps_auto := repeat keeps_step.

Create HintDb monitor discriminated.
#[local] Hint Unfold
  ClientMonitor.syncActivitiesForSession ClientMonitor.fetchActivities
  ClientMonitor.fetchState ClientMonitor.fetchSessions
  ClientMonitor.syncExternalSessions ClientMonitor.runActiveSessionSync
  ClientMonitor.logInteraction ClientMonitor.run
  ToolMonitor.syncActivitiesForSession ToolMonitor.fetchActivities
  ToolMonitor.fetchState ToolMonitor.fetchSessions
  ToolMonitor.syncExternalSessions ToolMonitor.runActiveSessionSync
  ToolMonitor.checkForStuckSessions ToolMonitor.run
  MonitorCore.syncActivitiesForSession MonitorCore.mirror MonitorCore.adopt
  MonitorCore.syncExternalSessions MonitorCore.syncSession
  MonitorCore.runActiveSessionSync MonitorCore.logInteraction
  Tools.JulesGetActivityTool_execute Tools.JulesListSessionsTool_execute
  Tools.JulesSendMessageTool_execute Tools.CloudflareDocsTool_execute
  Tools.getClient
  JulesClient.listActivities JulesClient.listSessions JulesClient.getSession
  JulesClient.sendMessage JulesClient.approvePlan
  prisma.activityLog_findFirst prisma.activityLog_create
  prisma.julesSession_findUnique prisma.julesSession_create
  prisma.julesSession_findMany prisma.julesSession_update
  prisma.julesInteraction_findFirst_latest prisma.julesInteraction_create
  prisma.KV_put : monitor.

Ltac keeps_monitor := autounfold with monitor; cbv zeta; keeps_auto.

(** ** The active-session sync *)

Lemma filter_sublist {A} (p : A → bool) (l : list A) : List.filter p l `sublist_of` l.
Proof.
  induction l as [|x l IH]; simpl; [done|].
  destruct (p x); by constructor.
Qed.

Lemma for_of_total {A} (body : A → M ()) (l : list A) w :
  (∀ x w, (body x w).1 = Ok ()) →
  for_of l body w = (Ok (), foldl (λ w x, (body x w).2) w l).
Proof.
  intros Hok. revert w. induction l as [|x l IH]; intros w; simpl; [done|].
  unfold bind. specialize (Hok x w).
  destruct (body x w) as [[[]|e] w1]; simpl in *; [apply IH|done].
Qed.

Section ActiveSync.
Context (env : Env).
Context (fetchState : string → M (option SessionState)).
Context (fetchActivities : string → M ListActivitiesResponse).
Hypothesis fetchState_keeps : ∀ id, keeps julesSession (fetchState id).
Hypothesis fetchActivities_keeps : ∀ id, keeps julesSession (fetchActivities id).

Abbreviation syncSession := (MonitorCore.syncSession env fetchState fetchActivities).
Abbreviation mirrorAll := (MonitorCore.syncActivitiesForSession env fetchActivities).

Lemma mirrorAll_keeps_sessions sessionId : keeps julesSession (mirrorAll sessionId).
Proof. keeps_monitor. apply fetchActivities_keeps. Qed.

(** The body of the loop traps every exception. *)
Lemma syncSession_Ok dbSession w : (syncSession dbSession w).1 = Ok ().
Proof.
  unfold MonitorCore.syncSession, try_catch.
  by destruct (bind _ _ w) as [[[]|e] w'].
Qed.

(** It touches no row but the one of its session. *)
Lemma syncSession_other dbSession id :
  js_id dbSession ≠ id →
  keeps (λ w, julesSession w !! id) (syncSession dbSession).
Proof.
  intros Hne. unfold MonitorCore.syncSession.
  apply keeps_try_catch; [|by intros].
  apply keeps_bind.
  { intros w. by rewrite fetchState_keeps. }
  intros state. apply keeps_bind.
  - apply keeps_if; [apply keeps_ret|].
    apply keeps_bind; [keeps_auto|intros completedAt].
    unfold prisma.julesSession_update. apply keeps_storage; [done|].
    intros w. destruct (julesSession w !! js_id dbSession); [|done].
    world_simpl. by rewrite lookup_insert_ne.
  - intros _ w. by rewrite mirrorAll_keeps_sessions.
Qed.

End ActiveSync.

Section Completion.
Context (env : Env) (id : string) (columns : JulesSessionColumns).
Hypothesis reliable : ∀ n, storage_fails env n = false.
Hypothesis in_progress : js_status columns = "IN_PROGRESS".
Hypothesis completed_remotely :
  ∀ k, ∃ remote, getSession_answer env k id = Ok remote ∧ s_state remote = COMPLETED.

Abbreviation sync :=
  (MonitorCore.syncSession env (ClientMonitor.fetchState env)
     (ClientMonitor.fetchActivities env)).
Abbreviation target := {| js_id := id; js_columns := columns |}.

Lemma fetchState_keeps_sessions sessionId :
  keeps julesSession (ClientMonitor.fetchState env sessionId).
Proof. keeps_monitor. Qed.

Lemma fetchActivities_keeps_sessions sessionId :
  keeps julesSession (ClientMonitor.fetchActivities env sessionId).
Proof. keeps_monitor. Qed.

Lemma sync_target w :
  is_Some (julesSession w !! id) → closed id (sync target w).2.
Proof.
  intros [r Hr]. destruct (completed_remotely (issued KGetSession w)) as (remote & Hanswer & Hstate).
  set (w1 := after_call env (CallGetSession id) w).
  set (r' := {| js_title := js_title r; js_status := "COMPLETED";
                js_origin := js_origin r; js_originalPrompt := js_originalPrompt r;
                js_sourceName := js_sourceName r;
                js_enhancedContext := js_enhancedContext r;
                js_createdAt := js_createdAt r; js_updatedAt := js_updatedAt r;
                js_completedAt := Some (DateAt (now w1)) |}).
  set (w2 := set_julesSession (<[id := r']> (julesSession w1)) (after_storage w1)).
  assert (julesSession (sync target w).2 = julesSession w2) as Hfinal.
  { unfold MonitorCore.syncSession, try_catch. cbn [js_id js_columns].
    rewrite (bind_Ok _ _ w (Some COMPLETED) w1).
    2:{ unfold ClientMonitor.fetchState, JulesClient.getSession.
        rewrite (bind_Ok _ _ w remote w1) by (by rewrite call_eq, <- Hanswer).
        unfold ret. by rewrite Hstate. }
    rewrite in_progress. cbn [fmap option_fmap option_map SessionState_value].
    rewrite bool_decide_eq_false_2 by done.
    rewrite (bind_Ok _ _ w1 () w2).
    2:{ cbn [MonitorCore.isClosed]. unfold bind, new_Date, ret.
        unfold prisma.julesSession_update, storage. rewrite reliable.
        world_simpl. subst w1. world_simpl. by rewrite Hr. }
    pose proof (mirrorAll_keeps_sessions env _ (fetchActivities_keeps_sessions) id w2)
      as Hkeep.
    destruct (MonitorCore.syncActivitiesForSession _ _ _ w2) as [[[]|e] w3]; exact Hkeep. }
  exists r'. rewrite Hfinal. subst w2. world_simpl.
  rewrite lookup_insert_eq. by repeat split.
Qed.

Lemma sync_all_other l w :
  id ∉ js_id <$> l →
  julesSession (foldl (λ w x, (sync x w).2) w l) !! id = julesSession w !! id.
Proof.
  revert w. induction l as [|db l IH]; intros w Hnotin; simpl; [done|].
  apply not_elem_of_cons in Hnotin as [Hne Hnotin].
  rewrite IH by done.
  apply (syncSession_other env _ _ fetchState_keeps_sessions
           fetchActivities_keeps_sessions db id); congruence.
Qed.

Lemma sync_all_target l w :
  NoDup (js_id <$> l) → target ∈ l → is_Some (julesSession w !! id) →
  closed id (foldl (λ w x, (sync x w).2) w l).
Proof.
  revert w. induction l as [|db l IH]; intros w Hnodup Hin Hrow; simpl.
  { by apply elem_of_nil in Hin. }
  apply NoDup_cons in Hnodup as [Hfresh Hnodup].
  apply elem_of_cons in Hin as [<-|Hin].
  - destruct (sync_target w Hrow) as (r & Hr & Hclosed).
    exists r. by rewrite sync_all_other.
  - apply IH; [done|done|].
    assert (js_id db ≠ id) as Hne.
    { intros Heq. apply Hfresh. rewrite Heq.
      by apply (list_elem_of_fmap_2 js_id l target). }
    pose proof (syncSession_other env _ _ fetchState_keeps_sessions
                  fetchActivities_keeps_sessions db id Hne w) as Hkeep.
    simpl in Hkeep. by rewrite Hkeep.
Qed.

End Completion.

Lemma rows_NoDup w : NoDup (js_id <$> prisma.julesSession_rows w).
Proof.
  unfold prisma.julesSession_rows. rewrite <- list_fmap_compose.
  apply (NoDup_fst_map_to_list (julesSession w)).
Qed.

Lemma rows_elem w id columns :
  julesSession w !! id = Some columns →
  {| js_id := id; js_columns := columns |} ∈ prisma.julesSession_rows w.
Proof.
  intros Hrow. unfold prisma.julesSession_rows. apply list_elem_of_fmap.
  exists (id, columns). split; [done|]. by apply elem_of_map_to_list.
Qed.

(** Scenario B on the monitor built on [JulesClient], for any store: when
    the store holds a session with status IN_PROGRESS and the single-session
    fetch of the remote answers COMPLETED for it, then after the active sync
    the stored status is COMPLETED and [completedAt] is set (the store being
    reliable). *)
Lemma active_sync_records_completion env w id columns :
  (∀ n, storage_fails env n = false) →
  julesSession w !! id = Some columns →
  js_status columns = "IN_PROGRESS" →
  (∀ k, ∃ remote,
      getSession_answer env k id = Ok remote ∧ s_state remote = COMPLETED) →
  ∃ r, julesSession (ClientMonitor.runActiveSessionSync env w).2 !! id = Some r
       ∧ js_status r = "COMPLETED"
       ∧ is_Some (js_completedAt r).
Proof.
  intros Hreliable Hrow Hstatus Hremote.
  set (target := {| js_id := id; js_columns := columns |}).
  set (active := List.filter MonitorCore.isActive (prisma.julesSession_rows w)).
  assert (target ∈ active) as Hin.
  { apply list_elem_of_In, filter_In. split.
    - by apply list_elem_of_In, rows_elem.
    - unfold MonitorCore.isActive. cbn [js_columns target]. by rewrite Hstatus. }
  assert (NoDup (js_id <$> active)) as Hnodup.
  { apply (sublist_NoDup _ (js_id <$> prisma.julesSession_rows w)); [apply rows_NoDup|].
    apply fmap_sublist, filter_sublist. }
  unfold ClientMonitor.runActiveSessionSync, MonitorCore.runActiveSessionSync.
  rewrite (bind_Ok _ _ w active (after_storage w))
    by (unfold prisma.julesSession_findMany, storage; by rewrite Hreliable).
  destruct active as [|first rest] eqn:Hactive; [by apply elem_of_nil in Hin|].
  cbn [length Nat.eqb]. rewrite <- Hactive in *.
  unfold bind at 1.
  rewrite for_of_total by (intros; apply syncSession_Ok).
  destruct (sync_all_target env id columns Hreliable Hstatus Hremote active
              (after_storage w) Hnodup Hin) as (r & Hr & Hclosed).
  { world_simpl. by rewrite Hrow. }
  exists r. split; [|done]. rewrite <- Hr.
  assert (keeps julesSession
            (if KV_bound env
             then (d <- new_Date ;; prisma.KV_put env "DASHBOARD_LAST_SYNC" d)
             else ret ())) as Hkeep by keeps_monitor.
  by rewrite Hkeep.
Qed.

(** Scenario B: s1 is IN_PROGRESS in the store and COMPLETED remotely. *)
Lemma active_sync_records_completion_witness :
  ∃ r, julesSession
         (ClientMonitor.runActiveSessionSync (Scenario.stateSequence [])
            (Scenario.storeWith "s1" "IN_PROGRESS")).2 !! "s1" = Some r
       ∧ js_status r = "COMPLETED"
       ∧ is_Some (js_completedAt r).
Proof.
  apply (active_sync_records_completion (Scenario.stateSequence [])
           (Scenario.storeWith "s1" "IN_PROGRESS") "s1" (Scenario.row "IN_PROGRESS")).
  - intros n. reflexivity.
  - vm_compute. reflexivity.
  - reflexivity.
  - intros k. exists (Scenario.remoteSession "s1" COMPLETED).
    split; [|reflexivity]. simpl. by destruct k.
Defined.

(** C5: Scenario B fails on the monitor built on the tool wrappers
    (services/jules-monitor.ts).  The store holds s1 with status IN_PROGRESS
    and the remote service answers COMPLETED to every [getSession] for s1;
    the active sync of that variant never calls [getSession]: it reads [state]
    off the activity list that [JulesGetActivityTool] answers, finds none, and
    leaves the row at IN_PROGRESS with no [completedAt], also over a whole
    [run].  The monitor built on [JulesClient] records the completion on the
    same input.  The row is one that discovery writes: two whole runs of the
    tool variant from the empty store, against a remote that lists s1 as
    IN_PROGRESS and then completes it, adopt the row and leave it at
    IN_PROGRESS. *)
Theorem tool_sync_misses_the_completion :
  let env := Scenario.stateSequence [] in
  let store := Scenario.storeWith "s1" "IN_PROGRESS" in
  let tool := ToolMonitor.runActiveSessionSync env store in
  let whole := ToolMonitor.run env store in
  let client := ClientMonitor.runActiveSessionSync env store in
  (∀ k, getSession_answer env k "s1" = Ok (Scenario.remoteSession "s1" COMPLETED))
  ∧ (tool.1 = Ok ()
     ∧ julesSession tool.2 !! "s1" = Some (Scenario.row "IN_PROGRESS")
     ∧ js_completedAt <$> julesSession tool.2 !! "s1" = Some None
     ∧ calls tool.2 = [CallListActivities "s1" None; CallListActivities "s1" None])
  ∧ (whole.1 = Ok {| synced := 0; checked := 0; interventions := 0 |}
     ∧ julesSession whole.2 !! "s1" = Some (Scenario.row "IN_PROGRESS")
     ∧ issued KGetSession whole.2 = 0)
  ∧ (client.1 = Ok ()
     ∧ js_status <$> julesSession client.2 !! "s1" = Some "COMPLETED"
     ∧ js_completedAt <$> julesSession client.2 !! "s1" = Some (Some (DateAt 0))
     ∧ calls client.2 = [CallGetSession "s1"; CallListActivities "s1" (Some 10)])
  ∧ (let first := ToolMonitor.run Syncing.finishing emptyWorld in
     let second := ToolMonitor.run Syncing.finishing first.2 in
     first.1 = Ok {| synced := 1; checked := 0; interventions := 0 |}
     ∧ julesSession first.2 !! "s1" = Some (Scenario.row "IN_PROGRESS")
     ∧ second.1 = Ok {| synced := 0; checked := 0; interventions := 0 |}
     ∧ julesSession second.2 !! "s1" = Some (Scenario.row "IN_PROGRESS")
     ∧ issued KGetSession second.2 = 0).
Proof.
  cbv zeta. split; [intros k; simpl; by destruct k|].
  vm_compute. done.
Qed.

(** ** The activity mirror *)

Lemma includes_cons c s t : JS.includes s t = true → JS.includes (String c s) t = true.
Proof. intros H. rewrite includes_unfold, H. apply orb_true_r. Qed.

Lemma includes_append_l a s t :
  JS.includes s t = true → JS.includes (a +:+ s) t = true.
Proof. intros H. induction a as [|c a IH]; [done|]. by apply includes_cons. Qed.

Lemma startsWith_append s t b :
  JS.startsWith s t = true → JS.startsWith (s +:+ b) t = true.
Proof.
  revert s. induction t as [|c t IH]; intros s H; [destruct s, b; reflexivity|].
  destruct s as [|d s]; [done|]. simpl in *.
  destruct (Ascii.eqb d c); [by apply IH|done].
Qed.

Lemma includes_append_r s b t :
  JS.includes s t = true → JS.includes (s +:+ b) t = true.
Proof.
  induction s as [|c s IH]; intros H.
  - rewrite includes_unfold in H. rewrite orb_false_r in H.
    destruct t; [apply includes_empty|done].
  - rewrite includes_unfold in H. apply orb_prop in H as [Hhere|Hlater].
    + rewrite includes_unfold, (startsWith_append _ _ b Hhere). done.
    + apply (includes_cons c). by apply IH.
Qed.

(** The text of the metadata has the remote identifier in it, as long as
    [JSON.stringify] does not escape it. *)
Lemma metadata_includes_id remoteId act :
  JSON.plain remoteId = true →
  JS.includes (JSON.stringify (MonitorCore.mirror_metadata remoteId act)) remoteId = true.
Proof.
  intros Hplain. unfold MonitorCore.mirror_metadata.
  cbn [JSON.stringify List.map JS.join fst snd].
  apply includes_append_l, includes_append_r, includes_append_r.
  apply includes_append_l, includes_append_l.
  unfold JSON.quote. apply includes_cons. rewrite escape_plain by done.
  rewrite includes_unfold. by rewrite startsWith_app.
Qed.

Lemma remote_id_mirror_record sessionId act :
  remote_id (mirror_record sessionId act)
  = Some (MonitorCore.remoteIdOf (act_name act)).
Proof. done. Qed.

Lemma carries_mirror_record sessionId act s r :
  carries s r (mirror_record sessionId act) = true ↔
  s = sessionId ∧ r = MonitorCore.remoteIdOf (act_name act).
Proof.
  unfold carries. rewrite remote_id_mirror_record. cbn [al_sessionId mirror_record].
  rewrite andb_true_iff, !bool_decide_eq_true.
  split; [intros [[= ->] [= ->]]|intros [-> ->]]; done.
Qed.

Lemma mirrored_mirror_record sessionId act :
  plain_id act →
  MonitorCore.mirrored sessionId (MonitorCore.remoteIdOf (act_name act))
    (mirror_record sessionId act) = true.
Proof.
  intros Hplain. unfold MonitorCore.mirrored, metadata_text.
  cbn [al_sessionId al_metadata mirror_record fmap option_fmap option_map].
  rewrite bool_decide_eq_true_2 by done. by apply metadata_includes_id.
Qed.

Lemma filter_nil_Forall {A} (p : A → bool) (l : list A) :
  List.filter p l = [] → Forall (λ x, p x = false) l.
Proof.
  induction l as [|x l IH]; simpl; [by constructor|].
  destruct (p x) eqn:Hx; [done|]. intros H. constructor; auto.
Qed.

Lemma mirrored_count_app s r log1 log2 :
  mirrored_count s r (log1 ++ log2) = mirrored_count s r log1 + mirrored_count s r log2.
Proof. unfold mirrored_count. by rewrite List.filter_app, length_app. Qed.

Lemma mirrored_count_absent s r log :
  Forall (λ x, carries s r x = false) log → mirrored_count s r log = 0.
Proof.
  unfold mirrored_count. induction 1 as [|x l Hx _ IH]; simpl; [done|]. by rewrite Hx.
Qed.

Section Mirror.
Context (env : Env).

Abbreviation mirror := (MonitorCore.mirror env).

(** One [mirror] step: the log is as it was, or it has one more record, the
    one of the activity, and the duplicate check had found nothing. *)
Lemma mirror_cases sessionId act w :
  activityLog (mirror sessionId act w).2 = activityLog w
  ∨ (activityLog (mirror sessionId act w).2 = activityLog w ++ [mirror_record sessionId act]
     ∧ Forall (λ x, MonitorCore.mirrored sessionId
                      (MonitorCore.remoteIdOf (act_name act)) x = false)
              (activityLog w)).
Proof.
  unfold MonitorCore.mirror, bind, prisma.activityLog_findFirst,
    prisma.activityLog_create, storage. cbv zeta.
  destruct (storage_fails env (storageOps w)); [by left|]. world_simpl.
  destruct (List.filter _ (activityLog w)) as [|x l] eqn:Hfilter; [|by left].
  cbn [head]. world_simpl.
  destruct (storage_fails env (S (storageOps w))); [by left|]. world_simpl.
  right. split; [done|]. by apply filter_nil_Forall.
Qed.

(** A found activity is skipped. *)
Lemma mirror_found sessionId act w x :
  x ∈ activityLog w →
  MonitorCore.mirrored sessionId (MonitorCore.remoteIdOf (act_name act)) x = true →
  activityLog (mirror sessionId act w).2 = activityLog w.
Proof.
  intros Hin Hfound. destruct (mirror_cases sessionId act w) as [H|[_ Hnone]]; [done|].
  rewrite Forall_forall in Hnone. specialize (Hnone x Hin). congruence.
Qed.

End Mirror.

Section MirrorPass.
Context (env : Env).
Context (P : list ActivityLog → Prop) (good : Activity → Prop).
Hypothesis mirror_maintains :
  ∀ sessionId act, good act → maintains P (MonitorCore.mirror env sessionId act).

Lemma for_of_mirror_maintains sessionId acts :
  Forall good acts → maintains P (for_of acts (MonitorCore.mirror env sessionId)).
Proof.
  induction 1 as [|act acts Hgood _ IH]; intros w HP; simpl; [done|].
  unfold bind. pose proof (mirror_maintains sessionId act Hgood w HP) as Hstep.
  destruct (MonitorCore.mirror env sessionId act w) as [[[]|e] w1]; simpl in *; [|done].
  by apply IH.
Qed.

Lemma syncActivitiesForSession_maintains fetchActivities sessionId :
  fetches good fetchActivities →
  maintains P (MonitorCore.syncActivitiesForSession env fetchActivities sessionId).
Proof.
  intros Hfetch w HP. unfold MonitorCore.syncActivitiesForSession, try_catch, bind.
  destruct (Hfetch sessionId w) as [Hlog Hgood].
  destruct (fetchActivities sessionId w) as [[response|e] w1]; simpl in *;
    [|by rewrite Hlog].
  assert (Forall good (default [] (activities response))) as Hacts.
  { destruct (activities response) as [acts|] eqn:Hsome; [by eapply Hgood|constructor]. }
  pose proof (for_of_mirror_maintains sessionId _ Hacts w1) as Hloop.
  rewrite Hlog in Hloop. specialize (Hloop HP).
  by destruct (for_of _ _ w1) as [[[]|e] w2].
Qed.

End MirrorPass.

Lemma client_fetches env good :
  (∀ k sessionId pageSize response acts,
      listActivities_answer env k sessionId pageSize = Ok response →
      activities response = Some acts → Forall good acts) →
  fetches good (ClientMonitor.fetchActivities env).
Proof.
  intros Hgood sessionId w. split; [done|].
  unfold ClientMonitor.fetchActivities, JulesClient.listActivities. rewrite call_eq.
  intros response acts. apply Hgood.
Qed.

Lemma tool_fetches env good :
  (∀ k sessionId pageSize response acts,
      listActivities_answer env k sessionId pageSize = Ok response →
      activities response = Some acts → Forall good acts) →
  fetches good (ToolMonitor.fetchActivities env).
Proof.
  intros Hgood sessionId w.
  unfold ToolMonitor.fetchActivities, Tools.JulesGetActivityTool_execute,
    Tools.getClient, JulesClient.listActivities, bind.
  destruct (JULES_API_KEY_bound env); [|done]. unfold ret. rewrite call_eq.
  split; [done|]. intros response acts. apply Hgood.
Qed.

(** A property of the log that every [mirror] step of a good activity
    maintains holds after any number of mirror passes. *)
Lemma mirror_passes_maintain env (P : list ActivityLog → Prop) good w w' :
  (∀ sessionId act, good act → maintains P (MonitorCore.mirror env sessionId act)) →
  (∀ k sessionId pageSize response acts,
      listActivities_answer env k sessionId pageSize = Ok response →
      activities response = Some acts → Forall good acts) →
  mirror_passes env w w' → P (activityLog w) → P (activityLog w').
Proof.
  intros Hmirror Hgood Hpasses HP.
  induction Hpasses as [|w' sessionId _ IH|w' sessionId _ IH]; [done| |].
  - apply (syncActivitiesForSession_maintains env P good Hmirror); [|done].
    by apply client_fetches.
  - apply (syncActivitiesForSession_maintains env P good Hmirror); [|done].
    by apply tool_fetches.
Qed.

Section ReliableMirror.
Context (env : Env).
Hypothesis reliable : ∀ n, storage_fails env n = false.

(** With a reliable store a [mirror] step returns, having found a record or
    appended the one of the activity. *)
Lemma mirror_reliable sessionId act w :
  ∃ w', MonitorCore.mirror env sessionId act w = (Ok (), w')
        ∧ calls w' = calls w
        ∧ ((activityLog w' = activityLog w
            ∧ ∃ x, x ∈ activityLog w
                   ∧ MonitorCore.mirrored sessionId
                       (MonitorCore.remoteIdOf (act_name act)) x = true)
           ∨ activityLog w' = activityLog w ++ [mirror_record sessionId act]).
Proof.
  unfold MonitorCore.mirror, bind, prisma.activityLog_findFirst,
    prisma.activityLog_create, storage. cbv zeta.
  rewrite reliable. world_simpl.
  destruct (List.filter _ (activityLog w)) as [|x l] eqn:Hfilter; cbn [head].
  - rewrite reliable. world_simpl. eexists. split; [done|]. split; [done|]. by right.
  - eexists. split; [done|]. split; [done|]. left. split; [done|]. exists x.
    assert (In x (List.filter (MonitorCore.mirrored sessionId
                                 (MonitorCore.remoteIdOf (act_name act)))
                    (activityLog w))) as Hx by (rewrite Hfilter; by left).
    apply filter_In in Hx as [Hx Hfound]. by rewrite list_elem_of_In.
Qed.

(** After the loop every listed activity is found by the duplicate check. *)
Lemma for_of_mirror_covers sessionId acts w :
  Forall plain_id acts →
  ∃ w', for_of acts (MonitorCore.mirror env sessionId) w = (Ok (), w')
        ∧ calls w' = calls w
        ∧ (∀ x, x ∈ activityLog w → x ∈ activityLog w')
        ∧ Forall (λ act, ∃ x, x ∈ activityLog w'
                             ∧ MonitorCore.mirrored sessionId
                                 (MonitorCore.remoteIdOf (act_name act)) x = true) acts.
Proof.
  intros Hplain. revert w.
  induction Hplain as [|act acts Hact _ IH]; intros w; simpl.
  { eexists. repeat split; [done|constructor]. }
  destruct (mirror_reliable sessionId act w) as (w1 & Hstep & Hcalls1 & Hlog1).
  destruct (IH w1) as (w' & Hloop & Hcalls & Hmono & Hall).
  exists w'. unfold bind. rewrite Hstep, Hloop.
  split; [done|]. split; [congruence|].
  assert (∀ x, x ∈ activityLog w → x ∈ activityLog w1) as Hmono1.
  { intros x Hx. destruct Hlog1 as [[-> _]| ->]; [done|]. apply elem_of_app. by left. }
  split; [by auto|]. constructor; [|done].
  destruct Hlog1 as [[_ (x & Hx & Hfound)]|Hnew].
  - exists x. auto.
  - exists (mirror_record sessionId act). split.
    + apply Hmono. rewrite Hnew. apply elem_of_app. right. by apply list_elem_of_singleton.
    + by apply mirrored_mirror_record.
Qed.

(** Activities that are all found already: the loop creates nothing. *)
Lemma for_of_mirror_found sessionId acts w :
  Forall (λ act, ∃ x, x ∈ activityLog w
                      ∧ MonitorCore.mirrored sessionId
                          (MonitorCore.remoteIdOf (act_name act)) x = true) acts →
  ∃ w', for_of acts (MonitorCore.mirror env sessionId) w = (Ok (), w')
        ∧ activityLog w' = activityLog w.
Proof.
  revert w. induction acts as [|act acts IH]; intros w Hall; simpl; [by eexists|].
  apply Forall_cons in Hall as [(x & Hx & Hfound) Hall].
  destruct (mirror_reliable sessionId act w) as (w1 & Hstep & _ & _).
  pose proof (mirror_found env sessionId act w x Hx Hfound) as Hsame.
  rewrite Hstep in Hsame. simpl in Hsame.
  destruct (IH w1) as (w' & Hloop & Hlog); [by rewrite Hsame|].
  exists w'. unfold bind. rewrite Hstep, Hloop. split; [done|]. congruence.
Qed.

(** Two passes of the client's mirror over the same list: the second one
    creates nothing. *)
Lemma second_pass_creates_nothing w sessionId acts :
  Forall plain_id acts →
  listActivities_answer env (issued KListActivities w) sessionId (Some 10)
  = Ok {| activities := Some acts |} →
  listActivities_answer env (S (issued KListActivities w)) sessionId (Some 10)
  = Ok {| activities := Some acts |} →
  activityLog (ClientMonitor.syncActivitiesForSession env sessionId
                 (ClientMonitor.syncActivitiesForSession env sessionId w).2).2
  = activityLog (ClientMonitor.syncActivitiesForSession env sessionId w).2.
Proof.
  intros Hplain Hfirst Hsecond.
  destruct (for_of_mirror_covers sessionId acts
              (after_call env (CallListActivities sessionId (Some 10)) w) Hplain)
    as (w1 & Hloop1 & Hcalls1 & _ & Hall).
  assert (ClientMonitor.syncActivitiesForSession env sessionId w = (Ok (), w1)) as Hpass1.
  { unfold ClientMonitor.syncActivitiesForSession, MonitorCore.syncActivitiesForSession,
      try_catch.
    rewrite (bind_Ok _ _ w {| activities := Some acts |}
               (after_call env (CallListActivities sessionId (Some 10)) w))
      by (unfold ClientMonitor.fetchActivities, JulesClient.listActivities;
          by rewrite call_eq, <- Hfirst).
    cbn [default from_option activities id]. by rewrite Hloop1. }
  destruct (for_of_mirror_found sessionId acts
              (after_call env (CallListActivities sessionId (Some 10)) w1))
    as (w2 & Hloop2 & Hlog2).
  { eapply Forall_impl; [exact Hall|]. by intros act (x & Hx & Hfound); exists x. }
  assert (ClientMonitor.syncActivitiesForSession env sessionId w1 = (Ok (), w2)) as Hpass2.
  { unfold ClientMonitor.syncActivitiesForSession, MonitorCore.syncActivitiesForSession,
      try_catch.
    rewrite (bind_Ok _ _ w1 {| activities := Some acts |}
               (after_call env (CallListActivities sessionId (Some 10)) w1)).
    - cbn [default from_option activities id]. by rewrite Hloop2.
    - unfold ClientMonitor.fetchActivities, JulesClient.listActivities.
      rewrite call_eq, <- Hsecond. do 2 f_equal. unfold issued.
      rewrite Hcalls1. world_simpl. rewrite filter_app, length_app. simpl. lia. }
  rewrite Hpass1. cbn [snd]. rewrite Hpass2. cbn [snd]. by rewrite Hlog2.
Qed.

End ReliableMirror.

(** A mirror step keeps a plain identifier mirrored at most once, whatever
    activity it mirrors and for whatever session. *)
Lemma mirror_maintains_once env s r sessionId act :
  JSON.plain r = true →
  maintains (mirrored_once s r) (MonitorCore.mirror env sessionId act).
Proof.
  intros Hplain w [Hcount Hfind].
  destruct (mirror_cases env sessionId act w) as [->|[-> Hnone]]; [done|].
  destruct (carries s r (mirror_record sessionId act)) eqn:Hnew.
  - pose proof Hnew as Hthis. apply carries_mirror_record in Hthis as [-> ->].
    split.
    + rewrite mirrored_count_app, mirrored_count_absent.
      { unfold mirrored_count. simpl. rewrite Hnew. simpl. lia. }
      rewrite Forall_forall in Hnone. apply Forall_forall. intros x Hx.
      destruct (carries sessionId _ x) eqn:Hcarries; [|done].
      specialize (Hnone x Hx). by rewrite (Hfind _ Hx Hcarries) in Hnone.
    + intros x [Hx|Hx]%elem_of_app Hcarries; [by apply Hfind|].
      apply list_elem_of_singleton in Hx as ->. by apply mirrored_mirror_record.
  - split.
    + rewrite mirrored_count_app. unfold mirrored_count at 2. simpl.
      rewrite Hnew. simpl. lia.
    + intros x [Hx|Hx]%elem_of_app Hcarries; [by apply Hfind|].
      apply list_elem_of_singleton in Hx as ->. congruence.
Qed.

(** From an empty store, no number of mirror passes of either variant leaves
    two records of a session that carry the same plain identifier, whatever
    else the remote service lists. *)
Lemma plain_identifier_is_mirrored_once env sessionId remoteId w :
  JSON.plain remoteId = true →
  mirror_passes env emptyWorld w →
  mirrored_count sessionId remoteId (activityLog w) ≤ 1.
Proof.
  intros Hplain Hpasses.
  assert (mirrored_once sessionId remoteId (activityLog w)) as [Hcount _]; [|done].
  apply (mirror_passes_maintain env (mirrored_once sessionId remoteId) (λ _, True)
           emptyWorld w); [| |done|].
  - intros s act _. by apply mirror_maintains_once.
  - intros k s pageSize response acts _ _. by apply Forall_forall.
  - split; [unfold mirrored_count; simpl; lia|].
    intros r Hr. by apply elem_of_nil in Hr.
Qed.

(** C2: the mirror is not idempotent for an identifier that [JSON.stringify]
    escapes.  The remote identifier of the activity [Scenario.quoted] has a
    double quote in it, which the stored metadata holds with a backslash
    before it, so the text does not contain the identifier and the check of
    the second pass finds nothing: two passes of either variant over the same
    one-activity list leave two records that carry the identifier.  On
    Scenario C (identifier a1) the second pass adds nothing, and for every
    identifier without an escaped character no number of passes leaves more
    than one record of a session that carries it. *)
Theorem mirror_duplicates_an_escaped_identifier :
  (let env := Scenario.listing [Scenario.quoted] in
   let once := (ClientMonitor.syncActivitiesForSession env "s1" emptyWorld).2 in
   let twice := (ClientMonitor.syncActivitiesForSession env "s1" once).2 in
   length (activityLog once) = 1
   ∧ length (activityLog twice) = 2
   ∧ mirrored_count "s1" (MonitorCore.remoteIdOf (act_name Scenario.quoted))
       (activityLog twice) = 2)
  ∧ (let env := Scenario.listing [Scenario.quoted] in
     let once := (ToolMonitor.syncActivitiesForSession env "s1" emptyWorld).2 in
     let twice := (ToolMonitor.syncActivitiesForSession env "s1" once).2 in
     length (activityLog once) = 1
     ∧ length (activityLog twice) = 2
     ∧ mirrored_count "s1" (MonitorCore.remoteIdOf (act_name Scenario.quoted))
         (activityLog twice) = 2)
  ∧ (let env := Scenario.listing [Scenario.a1] in
     let once := (ClientMonitor.syncActivitiesForSession env "s1" emptyWorld).2 in
     let twice := (ClientMonitor.syncActivitiesForSession env "s1" once).2 in
     activityLog once = [mirror_record "s1" Scenario.a1]
     ∧ activityLog twice = activityLog once)
  ∧ (∀ env sessionId remoteId w,
       JSON.plain remoteId = true →
       mirror_passes env emptyWorld w →
       mirrored_count sessionId remoteId (activityLog w) ≤ 1).
Proof.
  split; [vm_compute; done|]. split; [vm_compute; done|]. split; [vm_compute; done|].
  intros env sessionId remoteId w. apply plain_identifier_is_mirrored_once.
Qed.

(** C10: the duplicate check of the mirror is substring containment over the
    text of the metadata.  An activity is skipped (the log stays as it is) as
    soon as its remote identifier occurs anywhere in the metadata text of a
    record of the session; and the activities [a1] and [a] of the scenario
    have distinct identifiers, yet once the record of [a1] is in the log no
    mirror pass ever creates a record that carries the identifier of [a]. *)
Theorem mirror_check_is_containment :
  (∀ env sessionId act w r text,
      r ∈ activityLog w →
      al_sessionId r = Some sessionId →
      metadata_text r = Some text →
      JS.includes text (MonitorCore.remoteIdOf (act_name act)) = true →
      activityLog (MonitorCore.mirror env sessionId act w).2 = activityLog w)
  ∧ (MonitorCore.remoteIdOf (act_name Scenario.a1) = "a1"
     ∧ MonitorCore.remoteIdOf (act_name Scenario.a) = "a"
     ∧ ∀ env w w',
         mirror_record "s1" Scenario.a1 ∈ activityLog w →
         mirrored_count "s1" "a" (activityLog w) = 0 →
         mirror_passes env w w' →
         mirrored_count "s1" "a" (activityLog w') = 0).
Proof.
  split; [|split; [done|split; [done|]]].
  - intros env sessionId act w r text Hr Hsession Htext Hincludes.
    apply (mirror_found env sessionId act w r Hr).
    unfold MonitorCore.mirrored. rewrite Hsession, Htext, Hincludes.
    by rewrite bool_decide_eq_true_2.
  - intros env w w' Hrecord Hcount Hpasses.
    apply (mirror_passes_maintain env
             (λ log, mirror_record "s1" Scenario.a1 ∈ log
                     ∧ mirrored_count "s1" "a" log = 0)
             (λ _, True) w w'); [| |done|done].
    + intros sessionId act _ w0 [Hin Hzero].
      destruct (mirror_cases env sessionId act w0) as [->|[-> Hnone]]; [done|].
      split; [apply elem_of_app; by left|].
      rewrite mirrored_count_app, Hzero. unfold mirrored_count. simpl.
      destruct (carries "s1" "a" (mirror_record sessionId act)) eqn:Hnew; [|done].
      apply carries_mirror_record in Hnew as [<- Hid].
      rewrite Forall_forall in Hnone. specialize (Hnone _ Hin).
      rewrite <- Hid in Hnone. by vm_compute in Hnone.
    + intros. by apply Forall_true.
Qed.

(** The pair of the scenario, mirrored in the order [a1], [a], three times. *)
Lemma mirror_check_is_containment_witness :
  let env := Scenario.listing [Scenario.a1; Scenario.a] in
  let pass w := (ClientMonitor.syncActivitiesForSession env "s1" w).2 in
  activityLog (pass emptyWorld) = [mirror_record "s1" Scenario.a1]
  ∧ mirrored_count "s1" "a" (activityLog (pass (pass (pass emptyWorld)))) = 0.
Proof.
  split; [reflexivity|].
  apply (proj2 (proj2 (proj2 mirror_check_is_containment))
           (Scenario.listing [Scenario.a1; Scenario.a])
           (ClientMonitor.syncActivitiesForSession
              (Scenario.listing [Scenario.a1; Scenario.a]) "s1" emptyWorld).2).
  - left.
  - reflexivity.
  - apply passes_client, passes_client, passes_none.
Defined.

(** ** Interventions and the loop prevention *)

Lemma replies_app s q log1 log2 :
  replies s q (log1 ++ log2) = replies s q log1 + replies s q log2.
Proof. unfold replies. by rewrite List.filter_app, length_app. Qed.

Lemma replies_absent s q log :
  Forall (λ x, ClientMonitor.isReplyTo s q x = false) log → replies s q log = 0.
Proof.
  unfold replies. induction 1 as [|x l Hx _ IH]; simpl; [done|]. by rewrite Hx.
Qed.

Lemma isReplyTo_true s q r :
  ClientMonitor.isReplyTo s q r = true →
  ji_sessionId r = s ∧ ji_type r = INTERACTION_TYPE.AGENT_REPLY
  ∧ ji_julesMessage r = Some q.
Proof.
  unfold ClientMonitor.isReplyTo. rewrite !andb_true_iff, bool_decide_eq_true.
  by intros [[->%String.eqb_eq ->%String.eqb_eq] ->].
Qed.

(** Appending a fresh record keeps every question answered at most once. *)
Lemma fresh_reply_once log r :
  (∀ s q, replies s q log ≤ 1) → fresh_reply log r →
  ∀ s q, replies s q (log ++ [r]) ≤ 1.
Proof.
  intros Honce Hfresh s q. rewrite replies_app.
  unfold replies at 2. simpl.
  destruct (ClientMonitor.isReplyTo s q r) eqn:Hreply; simpl.
  - apply isReplyTo_true in Hreply as (<- & Htype & Hmessage).
    destruct Hfresh as [Hother|Hnone]; [done|].
    rewrite (replies_absent _ _ _ (Hnone q Hmessage)). lia.
  - specialize (Honce s q). lia.
Qed.

Lemma keeps_appends_fresh {A} (m : M A) : keeps julesInteraction m → appends_fresh m.
Proof. intros H w. left. apply H. Qed.

Section Interventions.
Context (env : Env).

(** [logInteraction] appends the record it is given, or nothing when the
    store rejects. *)
Lemma logInteraction_cases sessionId type julesMessage agentResponse isSuccess
    errorMessage w :
  (∃ e w', ClientMonitor.logInteraction env sessionId type julesMessage agentResponse
             isSuccess errorMessage w = (Throw e, w')
           ∧ julesInteraction w' = julesInteraction w)
  ∨ (∃ r w', ClientMonitor.logInteraction env sessionId type julesMessage agentResponse
               isSuccess errorMessage w = (Ok (), w')
             ∧ julesInteraction w' = julesInteraction w ++ [r]
             ∧ ji_sessionId r = sessionId ∧ ji_type r = type
             ∧ ji_julesMessage r = julesMessage).
Proof.
  unfold ClientMonitor.logInteraction, MonitorCore.logInteraction, bind, new_Date,
    prisma.julesInteraction_create, storage.
  destruct (storage_fails env (storageOps w)).
  - left. by eexists _, _.
  - right. by eexists _, _.
Qed.

Lemma generateIntervention_keeps question context :
  keeps julesInteraction (ClientMonitor.generateIntervention env question context).
Proof. unfold ClientMonitor.generateIntervention. keeps_monitor. Qed.

(** The handler that logs an ERROR interaction appends a fresh record. *)
Lemma log_error_extends sessionId julesMessage errorMessage log w :
  julesInteraction w = log →
  extends_fresh log
    (julesInteraction
       (ClientMonitor.logInteraction env sessionId INTERACTION_TYPE.ERROR
          julesMessage None false errorMessage w).2).
Proof.
  intros Hsame.
  destruct (logInteraction_cases sessionId INTERACTION_TYPE.ERROR julesMessage None
              false errorMessage w)
    as [(e' & w' & -> & Hlog)|(r & w' & -> & Hlog & _ & Htype & _)]; simpl.
  - left. congruence.
  - right. exists r. split; [congruence|]. left. by rewrite Htype.
Qed.

Lemma handlePlanApproval_appends dbSession :
  appends_fresh (ClientMonitor.handlePlanApproval env dbSession).
Proof.
  intros w. unfold ClientMonitor.handlePlanApproval, try_catch.
  unfold bind at 1. unfold JulesClient.approvePlan. rewrite call_eq.
  set (w1 := after_call env (CallApprovePlan (js_id dbSession)) w).
  destruct (approvePlan_answer env _ _) as [[]|e]; [|by apply log_error_extends].
  destruct (logInteraction_cases (js_id dbSession) INTERACTION_TYPE.AUTO_APPROVAL None
              (Some "Plan automatically approved by JulesMonitorService") true None w1)
    as [(e' & w' & -> & Hlog)|(r & w' & -> & Hlog & _ & Htype & _)].
  - by apply log_error_extends.
  - simpl. right. exists r. split; [done|]. left. by rewrite Htype.
Qed.

Lemma bind_ret_world {A B} (m : M A) (b : B) w :
  (bind m (λ _, ret b) w).2 = (m w).2.
Proof. unfold bind. by destruct (m w) as [[a|e] w']. Qed.

(** [handleUserFeedback] appends at most one record: an ERROR, or the
    AGENT_REPLY to a question that no AGENT_REPLY of the session answers yet. *)
Lemma handleUserFeedback_appends dbSession :
  appends_fresh (ClientMonitor.handleUserFeedback env dbSession).
Proof.
  intros w. unfold ClientMonitor.handleUserFeedback.
  unfold bind at 1. unfold JulesClient.listActivities. rewrite call_eq.
  destruct (listActivities_answer env _ _ _) as [response|e]; [|by left].
  destruct (_ ≫= act_agentMessaged) as [question|]; [|by left].
  destruct (negb (JS.truthy question)); [by left|].
  unfold bind at 1. unfold prisma.julesInteraction_findFirst_latest, storage.
  destruct (storage_fails env _); [by left|].
  destruct (last (List.filter _ _)) eqn:Hlast; [by left|].
  apply last_None, filter_nil_Forall in Hlast.
  match goal with
  | |- extends_fresh _ (julesInteraction (bind _ ?k ?w2).2) =>
      assert (∀ context, extends_fresh (julesInteraction w)
                           (julesInteraction (k context w2).2)) as Hrest;
      [|unfold bind at 1;
        destruct (js_enhancedContext dbSession) as [text|];
        [destruct (JS.truthy text);
         [destruct (JSON_parse_context env text); [apply Hrest|by left]|apply Hrest]
        |apply Hrest]]
  end.
  intros context. unfold bind at 1.
  match goal with
  | |- context [ClientMonitor.generateIntervention env question context ?w2] =>
      pose proof (generateIntervention_keeps question context w2) as Hkeep;
      destruct (ClientMonitor.generateIntervention env question context w2)
        as [[agentResponse|e] w3]
  end; change (julesInteraction w3 = julesInteraction w) in Hkeep; cbn [fst snd];
    [|by left].
  unfold try_catch. unfold bind at 1. unfold JulesClient.sendMessage. rewrite call_eq.
  destruct (sendMessage_answer env _ _ _) as [[]|e].
  - unfold bind at 1.
    destruct (logInteraction_cases (js_id dbSession) INTERACTION_TYPE.AGENT_REPLY
                (Some question) (Some agentResponse) true None
                (after_call env (CallSendMessage (js_id dbSession) agentResponse) w3))
      as [(e' & w' & -> & Hlog)|(r & w' & -> & Hlog & Hsession & _ & Hmessage)].
    + rewrite bind_ret_world. apply log_error_extends. by rewrite Hlog.
    + cbn [fst snd ret]. right. exists r. split; [by rewrite Hlog, <- Hkeep|].
      right. intros q Hq. rewrite Hmessage in Hq. injection Hq as <-.
      by rewrite Hsession.
  - rewrite bind_ret_world. by apply log_error_extends.
Qed.

End Interventions.

Section InteractionsUntouched.
Context (env : Env).

Lemma adopt_all_keeps {X} (f : World → X) externalSessions syncedCount :
  (∀ e, keeps f (MonitorCore.adopt env e)) →
  keeps f (MonitorCore.adopt_all env externalSessions syncedCount).
Proof.
  intros Hadopt. revert syncedCount.
  induction externalSessions as [|e rest IH]; intros syncedCount; simpl.
  - apply keeps_ret.
  - apply keeps_bind; [apply keeps_attempt, Hadopt|].
    intros [adopted|err]; [apply IH|apply keeps_ret].
Qed.

Lemma checkOnJules_keeps sessionId :
  keeps julesInteraction (OverseerAgent.checkOnJules env sessionId).
Proof. unfold OverseerAgent.checkOnJules. keeps_monitor. Qed.

Lemma intervene_keeps stuckSessions interventions :
  keeps julesInteraction (ToolMonitor.intervene env stuckSessions interventions).
Proof.
  revert interventions.
  induction stuckSessions as [|session rest IH]; intros interventions; simpl.
  - apply keeps_ret.
  - apply keeps_bind; [apply checkOnJules_keeps|intros _; apply IH].
Qed.

Lemma client_run_keeps : keeps julesInteraction (ClientMonitor.run env).
Proof.
  unfold ClientMonitor.run. apply keeps_bind.
  - unfold ClientMonitor.syncExternalSessions, MonitorCore.syncExternalSessions.
    apply keeps_bind; [keeps_monitor|].
    intros [response|e]; [|apply keeps_ret].
    apply adopt_all_keeps. intros extSession. keeps_monitor.
  - intros synced. apply keeps_bind; [keeps_monitor|intros _; apply keeps_ret].
Qed.

Lemma tool_run_keeps : keeps julesInteraction (ToolMonitor.run env).
Proof.
  unfold ToolMonitor.run. apply keeps_bind.
  - unfold ToolMonitor.syncExternalSessions, MonitorCore.syncExternalSessions.
    apply keeps_bind; [keeps_monitor|].
    intros [response|e]; [|apply keeps_ret].
    apply adopt_all_keeps. intros extSession. keeps_monitor.
  - intros synced. apply keeps_bind; [keeps_monitor|intros _].
    apply keeps_bind; [|intros n; apply keeps_ret].
    unfold ToolMonitor.checkForStuckSessions.
    apply keeps_bind; [keeps_monitor|intros stuck; apply intervene_keeps].
Qed.

(** Whatever the passes, every question of every session has at most one
    AGENT_REPLY, provided that was so to begin with. *)
Lemma reconciliation_answers_once w w' :
  reconciliation env w w' →
  (∀ s q, replies s q (julesInteraction w) ≤ 1) →
  ∀ s q, replies s q (julesInteraction w') ≤ 1.
Proof.
  intros Hpasses Hstart.
  assert (∀ {A} (m : M A) w0,
            appends_fresh m →
            (∀ s q, replies s q (julesInteraction w0) ≤ 1) →
            ∀ s q, replies s q (julesInteraction (m w0).2) ≤ 1) as Hstep.
  { intros A m w0 Hm Honce. destruct (Hm w0) as [->|(r & -> & Hfresh)]; [done|].
    by apply fresh_reply_once. }
  induction Hpasses as [|w' db _ IH|w' db _ IH|w' sessionId _ IH|w' _ IH|w' _ IH];
    [done|..]; apply Hstep; try done.
  - apply handleUserFeedback_appends.
  - apply handlePlanApproval_appends.
  - apply keeps_appends_fresh, checkOnJules_keeps.
  - apply keeps_appends_fresh, client_run_keeps.
  - apply keeps_appends_fresh, tool_run_keeps.
Qed.

(** The loop prevention itself: when an AGENT_REPLY of the session for the
    extracted question is in the log, [handleUserFeedback] returns [false]
    after the activity fetch and the query, nothing else. *)
Lemma handleUserFeedback_skips dbSession w response question reply :
  listActivities_answer env (issued KListActivities w) (js_id dbSession) (Some 5)
  = Ok response →
  extracted_question response = Some question →
  storage_fails env (storageOps w) = false →
  reply ∈ julesInteraction w →
  ClientMonitor.isReplyTo (js_id dbSession) question reply = true →
  ClientMonitor.handleUserFeedback env dbSession w =
  (Ok false,
   after_storage (after_call env (CallListActivities (js_id dbSession) (Some 5)) w)).
Proof.
  intros Hanswer Hquestion Hstorage Hin Hreply.
  unfold ClientMonitor.handleUserFeedback.
  unfold bind at 1. unfold JulesClient.listActivities. rewrite call_eq.
  cbn [kind_of]. rewrite Hanswer.
  unfold extracted_question in Hquestion.
  destruct (_ ≫= act_agentMessaged) as [q|]; [|done].
  destruct (JS.truthy q); [|done]. injection Hquestion as ->. cbn [negb].
  unfold bind, prisma.julesInteraction_findFirst_latest, storage.
  world_simpl. rewrite Hstorage.
  destruct (last (List.filter _ _)) eqn:Hlast; [done|].
  apply last_None, filter_nil_Forall in Hlast.
  rewrite Forall_forall in Hlast. specialize (Hlast reply Hin). congruence.
Qed.

End InteractionsUntouched.

(** The loop prevention of [handleUserFeedback]: across any number of
    reconciliation passes, starting from an empty store, at most one
    AGENT_REPLY interaction exists for a session and a question text; and
    before it sends, [handleUserFeedback] queries for an AGENT_REPLY of the
    session whose [julesMessage] is exactly the extracted question, and when
    there is one it returns [false] without sending a message and without
    writing an interaction. *)
Lemma reply_is_sent_at_most_once env :
  (∀ w sessionId question,
      reconciliation env emptyWorld w →
      replies sessionId question (julesInteraction w) ≤ 1)
  ∧ (∀ dbSession w response question reply,
       listActivities_answer env (issued KListActivities w) (js_id dbSession) (Some 5)
       = Ok response →
       extracted_question response = Some question →
       storage_fails env (storageOps w) = false →
       reply ∈ julesInteraction w →
       ClientMonitor.isReplyTo (js_id dbSession) question reply = true →
       let r := ClientMonitor.handleUserFeedback env dbSession w in
       r.1 = Ok false
       ∧ julesInteraction r.2 = julesInteraction w
       ∧ issued KSendMessage r.2 = issued KSendMessage w).
Proof.
  split.
  - intros w sessionId question Hpasses.
    apply (reconciliation_answers_once env emptyWorld w Hpasses).
    intros s q. unfold replies. simpl. lia.
  - intros dbSession w response question reply Hanswer Hquestion Hstorage Hin Hreply.
    cbv zeta.
    rewrite (handleUserFeedback_skips env dbSession w response question reply) by done.
    split; [done|]. split; [done|].
    change (issued KSendMessage
              (after_call env (CallListActivities (js_id dbSession) (Some 5)) w)
            = issued KSendMessage w).
    by rewrite issued_other.
Qed.

(** Scenario D: the first pass answers the question of s3, the second one
    finds the reply and sends nothing. *)
Lemma reply_is_sent_at_most_once_witness :
  let first := ClientMonitor.handleUserFeedback Scenario.asking Scenario.s3 emptyWorld in
  let second := ClientMonitor.handleUserFeedback Scenario.asking Scenario.s3 first.2 in
  (first.1 = Ok true ∧ issued KSendMessage first.2 = 1)
  ∧ replies "s3" "Which database?" (julesInteraction second.2) ≤ 1
  ∧ second.1 = Ok false
  ∧ julesInteraction second.2 = julesInteraction first.2
  ∧ issued KSendMessage second.2 = issued KSendMessage first.2.
Proof.
  split; [split; reflexivity|]. split.
  - apply (proj1 (reply_is_sent_at_most_once Scenario.asking)).
    apply reconciliation_feedback, reconciliation_feedback, reconciliation_none.
  - apply (proj2 (reply_is_sent_at_most_once Scenario.asking) Scenario.s3
             (ClientMonitor.handleUserFeedback Scenario.asking Scenario.s3 emptyWorld).2
             {| activities :=
                  Some [Scenario.remoteActivity "sessions/s3/activities/q1"
                          (Some "Which database?")] |}
             "Which database?"
             {| ji_sessionId := "s3";
                ji_type := INTERACTION_TYPE.AGENT_REPLY;
                ji_julesMessage := Some "Which database?";
                ji_agentResponse :=
                  Some (ClientMonitor.generateFallbackResponse "Which database?"
                          ClientMonitor.emptyContext);
                ji_isSuccess := true;
                ji_errorMessage := None;
                ji_timestamp := DateAt 0 |}).
    + reflexivity.
    + reflexivity.
    + reflexivity.
    + left.
    + reflexivity.
Defined.

(** C1: the loop prevention is missing from the dispatcher the tool-based
    monitor calls.  [OverseerAgent.checkOnJules] makes no query and keeps no
    record: called twice on session s3 while the last activity shows the same
    message, it sends the same reply twice, issues no storage operation and
    leaves no interaction.  [handleUserFeedback], given a question twice,
    sends one reply, records it, and skips the second time. *)
Theorem overseer_answers_the_same_message_twice :
  (let first := OverseerAgent.checkOnJules Overseeing.marked "s3" emptyWorld in
   let second := OverseerAgent.checkOnJules Overseeing.marked "s3" first.2 in
   first.1 = Ok (Some "Restart the worker.")
   ∧ second.1 = Ok (Some "Restart the worker.")
   ∧ List.filter (λ c, bool_decide (kind_of c = KSendMessage)) (calls second.2)
     = [CallSendMessage "s3" "Restart the worker.";
        CallSendMessage "s3" "Restart the worker."]
   ∧ length (calls second.2) = 6
   ∧ storageOps second.2 = 0
   ∧ julesInteraction second.2 = [])
  ∧ (let first := ClientMonitor.handleUserFeedback Scenario.asking Scenario.s3 emptyWorld in
     let second := ClientMonitor.handleUserFeedback Scenario.asking Scenario.s3 first.2 in
     first.1 = Ok true
     ∧ second.1 = Ok false
     ∧ issued KSendMessage second.2 = 1
     ∧ replies "s3" "Which database?" (julesInteraction second.2) = 1).
Proof. split; vm_compute; done. Qed.

(** ** What the scheduler does trap *)

Lemma adopt_all_returns env externalSessions syncedCount w :
  ∃ count, (MonitorCore.adopt_all env externalSessions syncedCount w).1 = Ok count.
Proof.
  revert syncedCount w.
  induction externalSessions as [|e rest IH]; intros syncedCount w; simpl; [by eexists|].
  unfold bind, attempt.
  destruct (MonitorCore.adopt env e w) as [[adopted|err] w1]; simpl; [apply IH|by eexists].
Qed.

(** Discovery traps every exception, a remote one or one of the store. *)
Lemma syncExternalSessions_returns env fetchSessions w :
  ∃ count, (MonitorCore.syncExternalSessions env fetchSessions w).1 = Ok count.
Proof.
  unfold MonitorCore.syncExternalSessions, bind, attempt.
  destruct (fetchSessions w) as [[response|err] w1]; simpl;
    [apply adopt_all_returns|by eexists].
Qed.

(** Once the sessions are listed, the active sync runs to its end whatever
    happens to a session: what can still reject is the cache update. *)
Lemma active_sessions_all_synced env fetchState fetchActivities sessions w :
  for_of sessions (MonitorCore.syncSession env fetchState fetchActivities) w
  = (Ok (), foldl (λ w x, (MonitorCore.syncSession env fetchState fetchActivities x w).2)
              w sessions).
Proof. apply for_of_total. intros. apply syncSession_Ok. Qed.

(** * Further properties of the code *)

(** ** Whole runs of the poller *)

Lemma monitor_eq env options fuel sessionId w :
  SmartPoller.monitor env options fuel sessionId w
  = SmartPoller.monitor_loop env options fuel sessionId (now w) w.
Proof. reflexivity. Qed.

Section PollerRuns.
Context (env : Env) (options : SmartPoller.Options) (sessionId : string).

Abbreviation loop := (SmartPoller.monitor_loop env options).
Abbreviation timeout := (SmartPoller.timeoutMs options).
Abbreviation observed w := (after_call env (CallGetSession sessionId) w).

Lemma poll_unreachable fuel startTime w e :
  (now w - startTime < timeout)%N →
  getSession_answer env (issued KGetSession w) sessionId = Throw e →
  loop (S fuel) sessionId startTime w = (Throw e, observed w).
Proof.
  intros Hearly Hanswer. simpl. unfold bind at 1. simpl.
  rewrite (proj2 (N.ltb_lt _ _) Hearly).
  apply bind_Throw. unfold JulesClient.getSession. rewrite call_eq.
  cbn [kind_of]. by rewrite Hanswer.
Qed.

(** One iteration, by the clock and the answer of the remote service. *)
Ltac poll_step startTime w :=
  let Hearly := fresh "Hearly" in
  let Hlate := fresh "Hlate" in
  let Hanswer := fresh "Hanswer" in
  let session := fresh "session" in
  let e := fresh "e" in
  destruct (N.ltb_spec (now w - startTime) timeout) as [Hearly|Hlate];
  [ destruct (getSession_answer env (issued KGetSession w) sessionId)
      as [session|e] eqn:Hanswer;
    [ rewrite (poll_observe env options sessionId startTime _ w session Hearly Hanswer)
    | rewrite (poll_unreachable _ startTime w e Hearly Hanswer) ]
  | rewrite (poll_timeout env options sessionId startTime _ w Hlate) ].

Ltac budget IH :=
  let Hmanual := fresh "Hmanual" in
  let Ha := fresh "Ha" in
  cbv zeta in IH; revert IH; count_calls; world_simpl;
  intros (? & ? & ? & Hmanual & ?);
  repeat split; try (intros Ha; specialize (Hmanual Ha)); try done; lia.

Ltac settle :=
  cbn [snd]; count_calls; world_simpl; repeat split; try intros ?; try done; lia.

Lemma poll_budget fuel startTime w :
  let w' := (loop fuel sessionId startTime w).2 in
  issued KSendMessage w' = issued KSendMessage w
  ∧ issued KListActivities w' ≤ issued KListActivities w + 1
  ∧ issued KApprovePlan w' + issued KGetSession w
    ≤ issued KGetSession w' + issued KApprovePlan w
  ∧ (SmartPoller.autoApprove options = false →
     issued KApprovePlan w' = issued KApprovePlan w)
  ∧ storageOps w' = storageOps w.
Proof.
  revert w. induction fuel as [|fuel IH]; intros w; cbv zeta.
  { simpl. repeat split; lia. }
  poll_step startTime w.
  - destruct (s_state session) eqn:Hstate;
      try (specialize (IH (after_sleep (SmartPoller.intervalMs options) (observed w)));
           budget IH).
    + destruct (SmartPoller.autoApprove options) eqn:Hauto; [|settle].
      destruct (approvePlan_answer env _ _) as [[]|e]; [|settle].
      specialize (IH (after_sleep 1000
                        (after_call env (CallApprovePlan sessionId) (observed w)))).
      budget IH.
    + destruct (listActivities_answer env _ _ _); settle.
    + settle.
    + settle.
    + settle.
  - settle.
  - destruct (getSession_answer env _ _); settle.
Qed.

Lemma poll_terminates fuel startTime w :
  (0 < SmartPoller.intervalMs options)%N →
  (startTime ≤ now w)%N →
  N.to_nat (timeout - (now w - startTime)) < fuel →
  (loop fuel sessionId startTime w).1 ≠ Ok None.
Proof.
  intros Hpos. revert w. induction fuel as [|fuel IH]; intros w Hstart Hfuel; [lia|].
  poll_step startTime w.
  - destruct (s_state session) eqn:Hstate; cbn [fst]; try done;
      try (apply IH; autorewrite with world; lia).
    + destruct (SmartPoller.autoApprove options); [|done].
      destruct (approvePlan_answer env _ _) as [[]|e]; [|done].
      apply IH; autorewrite with world; lia.
    + by destruct (listActivities_answer env _ _ _).
  - done.
  - by destruct (getSession_answer env _ _).
Qed.

Lemma or_else_truthy a b : JS.truthy b = true → JS.truthy (JS.or_else a b) = true.
Proof. intros Hb. destruct a as [s|]; simpl; [|done]. by destruct (JS.truthy s) eqn:Hs. Qed.

Lemma poll_faithful fuel startTime w :
  match (loop fuel sessionId startTime w).1 with
  | Ok (Some r) => faithful options r
  | _ => True
  end.
Proof.
  revert w. induction fuel as [|fuel IH]; intros w; [done|].
  poll_step startTime w.
  - destruct (s_state session) eqn:Hstate; cbn [fst]; try apply IH.
    + destruct (SmartPoller.autoApprove options) eqn:Hauto.
      * destruct (approvePlan_answer env _ _) as [[]|e]; [apply IH|done].
      * left. done.
    + destruct (listActivities_answer env _ _ _) as [response|e]; cbn [fst]; [|done].
      right. left. split; [done|]. eexists. split; [done|].
      by apply or_else_truthy.
    + right. right. done.
    + done.
    + done.
  - done.
  - by destruct (getSession_answer env _ _).
Qed.


End PollerRuns.

(** X1 (smart-poller.ts, [monitor]): for a poller whose interval is a
    positive whole number of milliseconds and whose deadline is a whole
    number of milliseconds, whatever the remote service answers, the loop of
    [monitor] ends within as many iterations as the deadline has
    milliseconds: every iteration that does not return waits at least one
    millisecond. *)
Theorem poller_stops_within_deadline env options sessionId fuel w :
  (0 < SmartPoller.intervalMs options)%N →
  N.to_nat (SmartPoller.timeoutMs options) < fuel →
  (SmartPoller.monitor env options fuel sessionId w).1 ≠ Ok None.
Proof.
  intros Hinterval Hfuel. rewrite monitor_eq. apply poll_terminates; [done|lia|lia].
Qed.

Lemma poller_stops_within_deadline_witness :
  (0 < SmartPoller.intervalMs (SmartPoller.constructor Polling.brief))%N
  ∧ N.to_nat (SmartPoller.timeoutMs (SmartPoller.constructor Polling.brief)) < 26
  ∧ (SmartPoller.monitor Polling.busy (SmartPoller.constructor Polling.brief) 26 "s1"
       emptyWorld).1 ≠ Ok None.
Proof.
  split; [reflexivity|]. split; [vm_compute; lia|].
  apply (poller_stops_within_deadline Polling.busy
           (SmartPoller.constructor Polling.brief) "s1" 26 emptyWorld).
  - reflexivity.
  - vm_compute. lia.
Defined.



(** X3 (smart-poller.ts, [monitor]): the status of a result agrees with the
    state of the session it carries: COMPLETED and FAILED carry a session in
    that state, NEEDS_INPUT carries a session that awaits a plan approval (and
    then [autoApprove] is off), is paused, or awaits feedback, and only in the
    last case is there a message, which is never empty. *)
Theorem poller_outcome_is_faithful env options fuel sessionId w r w' :
  SmartPoller.monitor env options fuel sessionId w = (Ok (Some r), w') →
  faithful options r.
Proof.
  intros Hrun. rewrite monitor_eq in Hrun.
  pose proof (poll_faithful env options sessionId fuel (now w) w) as H.
  by rewrite Hrun in H.
Qed.

Lemma poller_outcome_is_faithful_witness :
  faithful Scenario.defaults
    {| SmartPoller.status := SmartPoller.NEEDS_INPUT;
       SmartPoller.session := Scenario.remoteSession "s1" AWAITING_USER_FEEDBACK;
       SmartPoller.lastMessage := Some "Which database?" |}.
Proof.
  eapply (poller_outcome_is_faithful
            (Scenario.stateSequence [IN_PROGRESS; AWAITING_USER_FEEDBACK])
            Scenario.defaults 5 "s1" emptyWorld).
  vm_compute. reflexivity.
Defined.

(** X4 (smart-poller.ts, [monitor]): a run of the poller, however it ends,
    sends no message to the session, issues no storage operation, lists
    activities at most once, approves a plan at most as often as it fetches
    the session, and approves none when [autoApprove] is off. *)
Theorem poller_call_budget env options fuel sessionId w :
  let w' := (SmartPoller.monitor env options fuel sessionId w).2 in
  issued KSendMessage w' = issued KSendMessage w
  ∧ storageOps w' = storageOps w
  ∧ issued KListActivities w' ≤ issued KListActivities w + 1
  ∧ issued KApprovePlan w' + issued KGetSession w
    ≤ issued KGetSession w' + issued KApprovePlan w
  ∧ (SmartPoller.autoApprove options = false →
     issued KApprovePlan w' = issued KApprovePlan w).
Proof.
  cbv zeta. rewrite monitor_eq.
  pose proof (poll_budget env options sessionId fuel (now w) w) as H.
  cbv zeta in H. destruct H as (Hsend & Hlist & Happrove & Hmanual & Hstorage). done.
Qed.

(** ** Discovery under faults *)

Section DiscoveryEffect.
Context (env : Env).

Abbreviation adopt := (MonitorCore.adopt env).
Abbreviation adopt_all := (MonitorCore.adopt_all env).

(** [adopt] either creates the row of a session that had none, or leaves the
    table as it is. *)
Lemma adopt_effect extSession w :
  (∃ columns w',
      adopt extSession w = (Ok true, w')
      ∧ julesSession w !! s_id extSession = None
      ∧ julesSession w' = <[s_id extSession := columns]> (julesSession w)
      ∧ adopted_from extSession columns)
  ∨ (∃ r w', adopt extSession w = (r, w') ∧ r ≠ Ok true
             ∧ julesSession w' = julesSession w).
Proof.
  unfold MonitorCore.adopt, bind, prisma.julesSession_findUnique,
    prisma.julesSession_create, storage, new_Date, ret.
  destruct (storage_fails env (storageOps w)); [right; by eexists _, _|].
  world_simpl.
  destruct (julesSession w !! s_id extSession) as [r|] eqn:Hrow; simpl;
    [right; by eexists _, _|].
  destruct (storage_fails env (S (storageOps w))); [right; by eexists _, _|].
  world_simpl. rewrite Hrow.
  left. eexists _, _. split; [done|]. split; [done|]. split; [done|].
  by repeat split.
Qed.

Lemma adopt_all_effect externalSessions syncedCount w :
  ∃ count w',
    adopt_all externalSessions syncedCount w = (Ok count, w')
    ∧ syncedCount ≤ count
    ∧ julesSession w ⊆ julesSession w'
    ∧ size (julesSession w') + syncedCount = size (julesSession w) + count
    ∧ (∀ id columns,
         julesSession w' !! id = Some columns → julesSession w !! id = None →
         ∃ extSession, extSession ∈ externalSessions ∧ s_id extSession = id
                       ∧ adopted_from extSession columns).
Proof.
  revert syncedCount w.
  induction externalSessions as [|e rest IH]; intros syncedCount w; simpl.
  { eexists _, _. split; [done|]. split_and!; [lia|done|lia|]. intros ?? H1 H2. congruence. }
  unfold bind at 1, attempt.
  destruct (adopt_effect e w) as [(columns & w1 & -> & Hnew & Hstore & Hrow)
                                 |(r & w1 & -> & Hr & Hstore)]; cbn [fst snd].
  - destruct (IH (S syncedCount) w1) as (count & w' & -> & Hle & Hsub & Hsize & Hrows).
    eexists _, _. split; [done|]. split_and!.
    + lia.
    + etrans; [|exact Hsub]. rewrite Hstore. by apply insert_subseteq.
    + rewrite Hstore, map_size_insert_None in Hsize by done. lia.
    + intros id c Hc Hid. destruct (decide (id = s_id e)) as [->|Hne].
      * exists e. split; [left|]. split; [done|].
        assert (julesSession w1 !! s_id e = Some columns) as H1
          by (rewrite Hstore; apply lookup_insert_eq).
        pose proof (lookup_weaken _ _ _ _ H1 Hsub) as H2. congruence.
      * destruct (Hrows id c Hc) as (x & Hx & Hxid & Hxrow).
        { rewrite Hstore, lookup_insert_ne by done. done. }
        exists x. split; [by right|done].
  - destruct r as [[|]|err]; [done| |].
    + destruct (IH syncedCount w1) as (count & w' & -> & Hle & Hsub & Hsize & Hrows).
      eexists _, _. split; [done|]. rewrite Hstore in *. split_and!; try done.
      intros id c Hc Hid. destruct (Hrows id c Hc Hid) as (x & Hx & Hxid & Hxrow).
      exists x. split; [by right|done].
    + eexists _, _. split; [done|]. rewrite Hstore. split_and!; try done.
      intros ?? H1 H2. congruence.
Qed.

End DiscoveryEffect.

Lemma syncExternalSessions_effect env fetchSessions w :
  keeps julesSession fetchSessions →
  ∃ count w',
    MonitorCore.syncExternalSessions env fetchSessions w = (Ok count, w')
    ∧ julesSession w ⊆ julesSession w'
    ∧ size (julesSession w') = size (julesSession w) + count
    ∧ (∀ id columns,
         julesSession w' !! id = Some columns → julesSession w !! id = None →
         ∃ extSession, s_id extSession = id ∧ adopted_from extSession columns).
Proof.
  intros Hfetch. unfold MonitorCore.syncExternalSessions, bind at 1, attempt.
  specialize (Hfetch w).
  destruct (fetchSessions w) as [[response|err] w1]; cbn [fst snd] in *.
  - destruct (adopt_all_effect env (default [] (sessions response)) 0 w1)
      as (count & w' & -> & _ & Hsub & Hsize & Hrows).
    rewrite Hfetch in *. eexists _, _. split; [done|]. split_and!; [done|lia|].
    intros id columns Hc Hid. destruct (Hrows id columns Hc Hid) as (x & _ & Hx).
    by exists x.
  - eexists _, _. split; [done|]. rewrite Hfetch. split_and!; [done|lia|].
    intros ?? H1 H2. congruence.
Qed.

Lemma client_fetchSessions_keeps env :
  keeps julesSession (ClientMonitor.fetchSessions env).
Proof. keeps_monitor. Qed.

Lemma tool_fetchSessions_keeps env :
  keeps julesSession (ToolMonitor.fetchSessions env).
Proof. keeps_monitor. Qed.

(** Every row a discovery pass adds was adopted from a session of the list
    the remote service answered with. *)
Lemma syncExternalSessions_rows env fetchSessions w id columns :
  keeps julesSession fetchSessions →
  julesSession (MonitorCore.syncExternalSessions env fetchSessions w).2 !! id
  = Some columns →
  julesSession w !! id = None →
  ∃ response w1 extSession,
    fetchSessions w = (Ok response, w1)
    ∧ extSession ∈ default [] (sessions response)
    ∧ s_id extSession = id
    ∧ adopted_from extSession columns.
Proof.
  intros Hfetch. unfold MonitorCore.syncExternalSessions, bind at 1, attempt.
  specialize (Hfetch w).
  destruct (fetchSessions w) as [[response|err] w1]; cbn [fst snd] in *.
  - destruct (adopt_all_effect env (default [] (sessions response)) 0 w1)
      as (count & w' & -> & _ & _ & _ & Hrows).
    cbn [snd]. rewrite <- Hfetch. intros Hrow Hnew.
    destruct (Hrows id columns Hrow Hnew) as (x & Hin & Hid & Hfrom).
    by exists response, w1, x.
  - unfold ret. cbn [snd]. rewrite Hfetch. congruence.
Qed.

Lemma client_fetchSessions_answer env w response w1 :
  ClientMonitor.fetchSessions env w = (Ok response, w1) →
  listSessions_answer env (issued KListSessions w) (Some 20) = Ok response.
Proof.
  unfold ClientMonitor.fetchSessions, JulesClient.listSessions. rewrite call_eq.
  cbn [kind_of]. congruence.
Qed.

Lemma tool_fetchSessions_answer env w response w1 :
  ToolMonitor.fetchSessions env w = (Ok response, w1) →
  listSessions_answer env (issued KListSessions w) (Some 20) = Ok response.
Proof.
  unfold ToolMonitor.fetchSessions, Tools.JulesListSessionsTool_execute, Tools.getClient.
  destruct (JULES_API_KEY_bound env); [|done].
  unfold bind, ret, JulesClient.listSessions. rewrite call_eq.
  cbn [kind_of]. congruence.
Qed.

(** X5 (jules-monitor.ts, [syncExternalSessions], both variants): discovery
    never throws, never changes or removes a row that is already tracked, and
    the count it returns is the number of rows it has added, whatever the
    remote service and the store do; every row it adds is the row of a
    session of the list that the [listSessions] call of the pass answered
    with: it has that session's id, its state as status, its title and its
    update time, the origin EXTERNAL, the prompt "External Session" and no
    completion date. *)
Theorem discovery_counts_the_rows_it_creates env w :
  (∃ count,
      (ClientMonitor.syncExternalSessions env w).1 = Ok count
      ∧ julesSession w ⊆ julesSession (ClientMonitor.syncExternalSessions env w).2
      ∧ size (julesSession (ClientMonitor.syncExternalSessions env w).2)
        = size (julesSession w) + count)
  ∧ (∃ count,
      (ToolMonitor.syncExternalSessions env w).1 = Ok count
      ∧ julesSession w ⊆ julesSession (ToolMonitor.syncExternalSessions env w).2
      ∧ size (julesSession (ToolMonitor.syncExternalSessions env w).2)
        = size (julesSession w) + count)
  ∧ (∀ id columns,
       julesSession (ClientMonitor.syncExternalSessions env w).2 !! id = Some columns →
       julesSession w !! id = None →
       ∃ response extSession,
         listSessions_answer env (issued KListSessions w) (Some 20) = Ok response
         ∧ extSession ∈ default [] (sessions response)
         ∧ s_id extSession = id
         ∧ adopted_from extSession columns)
  ∧ (∀ id columns,
       julesSession (ToolMonitor.syncExternalSessions env w).2 !! id = Some columns →
       julesSession w !! id = None →
       ∃ response extSession,
         listSessions_answer env (issued KListSessions w) (Some 20) = Ok response
         ∧ extSession ∈ default [] (sessions response)
         ∧ s_id extSession = id
         ∧ adopted_from extSession columns).
Proof.
  split_and!.
  - destruct (syncExternalSessions_effect env (ClientMonitor.fetchSessions env) w
                (client_fetchSessions_keeps env)) as (count & w' & Hrun & Hsub & Hsize & _).
    unfold ClientMonitor.syncExternalSessions. rewrite Hrun. by exists count.
  - destruct (syncExternalSessions_effect env (ToolMonitor.fetchSessions env) w
                (tool_fetchSessions_keeps env)) as (count & w' & Hrun & Hsub & Hsize & _).
    unfold ToolMonitor.syncExternalSessions. rewrite Hrun. by exists count.
  - intros id columns Hrow Hnew.
    destruct (syncExternalSessions_rows env (ClientMonitor.fetchSessions env) w id columns
                (client_fetchSessions_keeps env) Hrow Hnew)
      as (response & w1 & x & Hfetch%client_fetchSessions_answer & Hin & Hid & Hfrom).
    by exists response, x.
  - intros id columns Hrow Hnew.
    destruct (syncExternalSessions_rows env (ToolMonitor.fetchSessions env) w id columns
                (tool_fetchSessions_keeps env) Hrow Hnew)
      as (response & w1 & x & Hfetch%tool_fetchSessions_answer & Hin & Hid & Hfrom).
    by exists response, x.
Qed.

Lemma adopt_fails env extSession w :
  storage_fails env (storageOps w) = true →
  MonitorCore.adopt env extSession w
  = (Throw "storage operation failed", after_storage w).
Proof.
  intros Hfails.
  unfold MonitorCore.adopt, bind, prisma.julesSession_findUnique, storage.
  by rewrite Hfails.
Qed.

(** X6 (jules-monitor.ts, [syncExternalSessions]): the [try] encloses the
    whole loop: when the lookup of the first listed session rejects, discovery
    returns 0 after that single storage operation and examines none of the
    remaining sessions. *)
Theorem discovery_stops_at_first_failure env w response extSession rest :
  listSessions_answer env (issued KListSessions w) (Some 20) = Ok response →
  sessions response = Some (extSession :: rest) →
  storage_fails env (storageOps w) = true →
  ClientMonitor.syncExternalSessions env w =
  (Ok 0, after_storage (after_call env (CallListSessions (Some 20)) w)).
Proof.
  intros Hanswer Hsessions Hfails.
  unfold ClientMonitor.syncExternalSessions.
  rewrite (syncExternalSessions_fetched env _ response w
             (after_call env (CallListSessions (Some 20)) w)).
  - rewrite Hsessions. simpl. unfold bind at 1, attempt.
    by rewrite adopt_fails.
  - unfold ClientMonitor.fetchSessions, JulesClient.listSessions.
    rewrite call_eq. cbn [kind_of]. by rewrite Hanswer.
Qed.

Lemma discovery_stops_at_first_failure_witness :
  ClientMonitor.syncExternalSessions Discovering.firstWriteFails emptyWorld =
  (Ok 0, after_storage
           (after_call Discovering.firstWriteFails (CallListSessions (Some 20))
              emptyWorld)).
Proof.
  apply (discovery_stops_at_first_failure Discovering.firstWriteFails emptyWorld
           {| sessions := Some [Scenario.remoteSession "s1" IN_PROGRESS;
                                Scenario.remoteSession "s2" QUEUED] |}
           (Scenario.remoteSession "s1" IN_PROGRESS)
           [Scenario.remoteSession "s2" QUEUED]); reflexivity.
Defined.

(** ** The active-session sync, row by row *)

Lemma rows_lookup w x :
  x ∈ prisma.julesSession_rows w → julesSession w !! js_id x = Some (js_columns x).
Proof.
  unfold prisma.julesSession_rows. intros ([id columns] & -> & Hin)%list_elem_of_fmap.
  by apply elem_of_map_to_list in Hin.
Qed.

Lemma active_rows w x :
  x ∈ List.filter MonitorCore.isActive (prisma.julesSession_rows w) →
  julesSession w !! js_id x = Some (js_columns x) ∧ MonitorCore.isActive x = true.
Proof.
  intros [Hin Hactive]%list_elem_of_In%filter_In. split; [|done].
  by apply rows_lookup, list_elem_of_In.
Qed.

Lemma closed_not_active w id columns :
  julesSession w !! id = Some columns →
  MonitorCore.isActive {| js_id := id; js_columns := columns |} = false →
  id ∉ js_id <$> List.filter MonitorCore.isActive (prisma.julesSession_rows w).
Proof.
  intros Hrow Hclosed (x & -> & Hx)%list_elem_of_fmap.
  apply active_rows in Hx as [Hlookup Hactive].
  rewrite Hrow in Hlookup. injection Hlookup as Hcolumns.
  unfold MonitorCore.isActive in *. cbn [js_columns] in Hclosed.
  rewrite Hcolumns in Hclosed. congruence.
Qed.

Lemma stamp_keeps_sessions env :
  keeps julesSession
    (if KV_bound env
     then (d <- new_Date ;; prisma.KV_put env "DASHBOARD_LAST_SYNC" d)
     else ret ()).
Proof. keeps_monitor. Qed.

Section ActiveSyncFrame.
Context (env : Env).
Context (fetchState : string → M (option SessionState)).
Context (fetchActivities : string → M ListActivitiesResponse).
Hypothesis fetchState_keeps : ∀ id, keeps julesSession (fetchState id).
Hypothesis fetchActivities_keeps : ∀ id, keeps julesSession (fetchActivities id).

Abbreviation syncSession := (MonitorCore.syncSession env fetchState fetchActivities).
Abbreviation runActiveSessionSync :=
  (MonitorCore.runActiveSessionSync env fetchState fetchActivities).

Lemma sync_each_other l id w :
  id ∉ js_id <$> l →
  julesSession (foldl (λ w x, (syncSession x w).2) w l) !! id = julesSession w !! id.
Proof.
  revert w. induction l as [|db l IH]; intros w Hnotin; simpl; [done|].
  apply not_elem_of_cons in Hnotin as [Hne Hnotin].
  rewrite IH by done.
  apply (syncSession_other env _ _ fetchState_keeps fetchActivities_keeps db id);
    congruence.
Qed.

(** The sync as a fold over the active rows, once the query has answered. *)
Lemma runActiveSessionSync_unfold w :
  storage_fails env (storageOps w) = false →
  let active := List.filter MonitorCore.isActive (prisma.julesSession_rows w) in
  runActiveSessionSync w =
  if (length active =? 0)%nat then (Ok (), after_storage w)
  else
    (if KV_bound env
     then (d <- new_Date ;; prisma.KV_put env "DASHBOARD_LAST_SYNC" d)
     else ret ())
      (foldl (λ w x, (syncSession x w).2) (after_storage w) active).
Proof.
  intros Hok active. unfold MonitorCore.runActiveSessionSync.
  rewrite (bind_Ok _ _ w active (after_storage w))
    by (unfold prisma.julesSession_findMany, storage; by rewrite Hok).
  destruct (length active =? 0)%nat; [done|].
  unfold bind at 1.
  by rewrite for_of_total by (intros; apply syncSession_Ok).
Qed.

Lemma runActiveSessionSync_rejected w :
  storage_fails env (storageOps w) = true →
  runActiveSessionSync w = (Throw "storage operation failed", after_storage w).
Proof.
  intros Hfails. unfold MonitorCore.runActiveSessionSync.
  apply bind_Throw. unfold prisma.julesSession_findMany, storage. by rewrite Hfails.
Qed.

Lemma runActiveSessionSync_closed w id columns :
  julesSession w !! id = Some columns →
  MonitorCore.isActive {| js_id := id; js_columns := columns |} = false →
  julesSession (runActiveSessionSync w).2 !! id = Some columns.
Proof.
  intros Hrow Hclosed.
  destruct (storage_fails env (storageOps w)) eqn:Hstore.
  { by rewrite runActiveSessionSync_rejected. }
  rewrite runActiveSessionSync_unfold by done. cbv zeta.
  destruct (length _ =? 0)%nat; [done|].
  rewrite (stamp_keeps_sessions env), sync_each_other; [done|].
  by apply (closed_not_active w id columns).
Qed.

End ActiveSyncFrame.

Lemma tool_fetchState_keeps env sessionId :
  keeps julesSession (ToolMonitor.fetchState env sessionId).
Proof. keeps_monitor. Qed.

Lemma tool_fetchActivities_keeps env sessionId :
  keeps julesSession (ToolMonitor.fetchActivities env sessionId).
Proof. keeps_monitor. Qed.

Lemma closed_is_not_active id columns :
  js_status columns = "COMPLETED" ∨ js_status columns = "FAILED" →
  MonitorCore.isActive {| js_id := id; js_columns := columns |} = false.
Proof. unfold MonitorCore.isActive. cbn [js_columns]. by intros [-> | ->]. Qed.

(** X7 (jules-monitor.ts, [runActiveSessionSync], both variants): a row
    whose status is COMPLETED or FAILED is never changed by the active sync,
    whatever the remote service and the store do. *)
Theorem active_sync_leaves_closed_rows env w id columns :
  julesSession w !! id = Some columns →
  js_status columns = "COMPLETED" ∨ js_status columns = "FAILED" →
  julesSession (ClientMonitor.runActiveSessionSync env w).2 !! id = Some columns
  ∧ julesSession (ToolMonitor.runActiveSessionSync env w).2 !! id = Some columns.
Proof.
  intros Hrow Hclosed%(closed_is_not_active id). split.
  - apply runActiveSessionSync_closed;
      auto using fetchState_keeps_sessions, fetchActivities_keeps_sessions.
  - apply runActiveSessionSync_closed;
      auto using tool_fetchState_keeps, tool_fetchActivities_keeps.
Qed.

Lemma active_sync_leaves_closed_rows_witness :
  julesSession (ClientMonitor.runActiveSessionSync Syncing.paused Syncing.twoRows).2
    !! "s1" = Some (Scenario.row "COMPLETED")
  ∧ julesSession (ToolMonitor.runActiveSessionSync Syncing.paused Syncing.twoRows).2
      !! "s1" = Some (Scenario.row "COMPLETED").
Proof.
  apply (active_sync_leaves_closed_rows Syncing.paused Syncing.twoRows "s1"
           (Scenario.row "COMPLETED")).
  - vm_compute. reflexivity.
  - left. reflexivity.
Defined.

(** *** What an operation appends to a log *)

Lemma grows_keeps {X A} (f : World → list X) (P : X → Prop) (m : M A) :
  keeps f m → grows f P m.
Proof. intros Hkeeps w. exists []. by rewrite Hkeeps, app_nil_r. Qed.

Lemma grows_bind {X A B} (f : World → list X) (P : X → Prop) (m : M A) (k : A → M B) :
  grows f P m → (∀ a, grows f P (k a)) → grows f P (bind m k).
Proof.
  intros Hm Hk w. unfold bind. destruct (Hm w) as (l1 & Hl1 & HP1).
  destruct (m w) as [[a|e] w1]; cbn [snd] in *; [|by exists l1].
  destruct (Hk a w1) as (l2 & Hl2 & HP2).
  exists (l1 ++ l2). rewrite Hl2, Hl1, app_assoc. split; [done|by apply Forall_app].
Qed.

Lemma grows_try_catch {X A} (f : World → list X) (P : X → Prop) (m : M A)
    (h : string → M A) :
  grows f P m → (∀ e, grows f P (h e)) → grows f P (try_catch m h).
Proof.
  intros Hm Hh w. unfold try_catch. destruct (Hm w) as (l1 & Hl1 & HP1).
  destruct (m w) as [[a|e] w1]; cbn [snd] in *; [by exists l1|].
  destruct (Hh e w1) as (l2 & Hl2 & HP2).
  exists (l1 ++ l2). rewrite Hl2, Hl1, app_assoc. split; [done|by apply Forall_app].
Qed.

Lemma grows_for_of {X A} (f : World → list X) (P : X → Prop) (l : list A)
    (body : A → M ()) :
  (∀ x, grows f P (body x)) → grows f P (for_of l body).
Proof.
  intros Hbody. induction l as [|x l IH]; simpl.
  - apply grows_keeps, keeps_ret.
  - apply grows_bind; [apply Hbody|by intros].
Qed.

Lemma grows_call {A} (P : Call → Prop) env c (answer : nat → Result A) :
  P c → grows calls P (call env c answer).
Proof. intros HP w. exists [c]. rewrite call_eq. split; [done|by constructor]. Qed.

Ltac grows_step :=
  lazymatch goal with
  | |- grows _ _ (bind _ _) => apply grows_bind; [|intros ?]
  | |- grows _ _ (try_catch _ _) => apply grows_try_catch; [|intros ?]
  | |- grows _ _ (for_of _ _) => apply grows_for_of; intros ?
  | |- grows _ _ (match ?o with _ => _ end) => destruct o
  | |- grows calls _ (call _ _ _) => apply grows_call
  | |- grows _ _ _ => apply grows_keeps; keeps_auto
  end.

Ltac grows_monitor := unfold issues; autounfold with monitor; cbv zeta; repeat grows_step.

Lemma client_syncSession_issues env dbSession :
  issues (polls (js_id dbSession))
    (MonitorCore.syncSession env (ClientMonitor.fetchState env)
       (ClientMonitor.fetchActivities env) dbSession).
Proof. grows_monitor; by (left + right). Qed.

Lemma client_sync_each_calls env l w :
  ∃ added,
    calls (foldl (λ w x, (MonitorCore.syncSession env (ClientMonitor.fetchState env)
                            (ClientMonitor.fetchActivities env) x w).2) w l)
    = calls w ++ added
    ∧ Forall (λ c, ∃ x, x ∈ l ∧ polls (js_id x) c) added.
Proof.
  revert w. induction l as [|x l IH]; intros w; simpl.
  { exists []. by rewrite app_nil_r. }
  destruct (client_syncSession_issues env x w) as (l1 & Hl1 & HP1).
  destruct (IH (MonitorCore.syncSession env (ClientMonitor.fetchState env)
                  (ClientMonitor.fetchActivities env) x w).2) as (l2 & Hl2 & HP2).
  exists (l1 ++ l2). rewrite Hl2, Hl1, app_assoc. split; [done|].
  apply Forall_app. split.
  - eapply Forall_impl; [exact HP1|]. intros c Hc. exists x. split; [left|done].
  - eapply Forall_impl; [exact HP2|]. intros c (y & Hy & Hc). exists y. split; [by right|done].
Qed.

Lemma stamp_keeps_calls env :
  keeps calls
    (if KV_bound env
     then (d <- new_Date ;; prisma.KV_put env "DASHBOARD_LAST_SYNC" d)
     else ret ()).
Proof. keeps_monitor. Qed.

(** X8 (part_000, [runActiveSessionSync]): the only remote calls the active
    sync makes are [getSession] and [listActivities] (page size 10) for
    sessions whose stored status is neither COMPLETED nor FAILED: a closed
    session costs no remote call. *)
Theorem active_sync_polls_active_sessions_only env w c :
  c ∈ calls (ClientMonitor.runActiveSessionSync env w).2 →
  c ∈ calls w
  ∨ ∃ id columns,
      julesSession w !! id = Some columns
      ∧ MonitorCore.isActive {| js_id := id; js_columns := columns |} = true
      ∧ polls id c.
Proof.
  unfold ClientMonitor.runActiveSessionSync.
  destruct (storage_fails env (storageOps w)) eqn:Hstore.
  { rewrite runActiveSessionSync_rejected by done. by left. }
  rewrite runActiveSessionSync_unfold by done. cbv zeta.
  destruct (length _ =? 0)%nat; [by left|].
  rewrite (stamp_keeps_calls env).
  destruct (client_sync_each_calls env
              (List.filter MonitorCore.isActive (prisma.julesSession_rows w))
              (after_storage w)) as (added & -> & Hadded).
  intros [Hold|Hnew]%elem_of_app; [by left|right].
  rewrite Forall_forall in Hadded. destruct (Hadded c Hnew) as ([id columns] & Hx & Hc).
  apply active_rows in Hx as [Hrow Hactive].
  by exists id, columns.
Qed.

Lemma active_sync_polls_active_sessions_only_witness :
  CallGetSession "s2" ∈ calls Syncing.twoRows
  ∨ ∃ id columns,
      julesSession Syncing.twoRows !! id = Some columns
      ∧ MonitorCore.isActive {| js_id := id; js_columns := columns |} = true
      ∧ polls id (CallGetSession "s2").
Proof.
  apply (active_sync_polls_active_sessions_only Syncing.paused Syncing.twoRows
           (CallGetSession "s2")).
  vm_compute. apply list_elem_of_here.
Defined.

(** *** The row of a session the remote service reports on *)

Section Following.
Context (env : Env) (id : string) (columns : JulesSessionColumns) (state : SessionState).
Hypothesis reliable : ∀ n, storage_fails env n = false.
Hypothesis remote_state :
  ∀ k, ∃ remote, getSession_answer env k id = Ok remote ∧ s_state remote = state.

Abbreviation sync :=
  (MonitorCore.syncSession env (ClientMonitor.fetchState env)
     (ClientMonitor.fetchActivities env)).
Abbreviation target := {| js_id := id; js_columns := columns |}.

(** The row of [id] after a sync that started from [columns]. *)
Abbreviation followed row :=
  (if decide (SessionState_value state = js_status columns)
   then row = Some columns
   else ∃ t, row = Some (with_status state
                           (if MonitorCore.isClosed (Some state)
                            then Some (DateAt t) else None) columns)).

Lemma fetchState_answer w :
  ClientMonitor.fetchState env id w
  = (Ok (Some state), after_call env (CallGetSession id) w).
Proof.
  destruct (remote_state (issued KGetSession w)) as (remote & Hanswer & Hstate).
  unfold ClientMonitor.fetchState, JulesClient.getSession.
  rewrite (bind_Ok _ _ w remote (after_call env (CallGetSession id) w))
    by (by rewrite call_eq, <- Hanswer).
  unfold ret. by rewrite Hstate.
Qed.

Lemma follow_target w :
  julesSession w !! id = Some columns → followed (julesSession (sync target w).2 !! id).
Proof.
  intros Hrow. set (w1 := after_call env (CallGetSession id) w).
  unfold MonitorCore.syncSession, try_catch. cbn [js_id js_columns].
  rewrite (bind_Ok _ _ w (Some state) w1) by apply fetchState_answer.
  cbn [fmap option_fmap option_map].
  pose proof (mirrorAll_keeps_sessions env _ (fetchActivities_keeps_sessions env) id)
    as Hkeep.
  destruct (decide (SessionState_value state = js_status columns)) as [Heq|Hne].
  - rewrite bool_decide_eq_true_2 by congruence.
    rewrite (bind_Ok _ _ w1 () w1) by done.
    specialize (Hkeep w1).
    destruct (MonitorCore.syncActivitiesForSession _ _ _ w1) as [[[]|e] w3];
      unfold ret; cbn [snd] in *; by rewrite Hkeep.
  - rewrite bool_decide_eq_false_2 by congruence.
    exists (now w1).
    set (r' := with_status state
                 (if MonitorCore.isClosed (Some state) then Some (DateAt (now w1)) else None)
                 columns).
    set (w2 := set_julesSession (<[id := r']> (julesSession w1)) (after_storage w1)).
    rewrite (bind_Ok _ _ w1 () w2).
    2:{ unfold prisma.julesSession_update.
        destruct (MonitorCore.isClosed (Some state));
          unfold bind, new_Date, ret, storage; rewrite reliable;
          world_simpl; subst w1; world_simpl; by rewrite Hrow. }
    specialize (Hkeep w2).
    destruct (MonitorCore.syncActivitiesForSession _ _ _ w2) as [[[]|e] w3];
      unfold ret; cbn [snd] in *; rewrite Hkeep; subst w2; world_simpl;
      by rewrite lookup_insert_eq.
Qed.

Lemma follow_each l w :
  NoDup (js_id <$> l) → target ∈ l → julesSession w !! id = Some columns →
  followed (julesSession (foldl (λ w x, (sync x w).2) w l) !! id).
Proof.
  revert w. induction l as [|db l IH]; intros w Hnodup Hin Hrow; simpl.
  { by apply elem_of_nil in Hin. }
  apply NoDup_cons in Hnodup as [Hfresh Hnodup].
  apply elem_of_cons in Hin as [<-|Hin].
  - rewrite (sync_each_other env _ _ (fetchState_keeps_sessions env)
               (fetchActivities_keeps_sessions env)) by done.
    by apply follow_target.
  - apply IH; [done|done|].
    assert (js_id db ≠ id) as Hne.
    { intros Heq. apply Hfresh. rewrite Heq.
      by apply (list_elem_of_fmap_2 js_id l target). }
    pose proof (syncSession_other env _ _ (fetchState_keeps_sessions env)
                  (fetchActivities_keeps_sessions env) db id Hne w) as Hkeep.
    simpl in Hkeep. by rewrite Hkeep.
Qed.

Lemma follow_run w :
  julesSession w !! id = Some columns →
  MonitorCore.isActive target = true →
  followed (julesSession (ClientMonitor.runActiveSessionSync env w).2 !! id).
Proof.
  intros Hrow Hactive. unfold ClientMonitor.runActiveSessionSync.
  rewrite runActiveSessionSync_unfold by done. cbv zeta.
  set (active := List.filter MonitorCore.isActive (prisma.julesSession_rows w)).
  assert (target ∈ active) as Hin.
  { apply list_elem_of_In, filter_In. split; [|done].
    by apply list_elem_of_In, rows_elem. }
  assert (NoDup (js_id <$> active)) as Hnodup.
  { apply (sublist_NoDup _ (js_id <$> prisma.julesSession_rows w)); [apply rows_NoDup|].
    apply fmap_sublist, filter_sublist. }
  destruct active as [|first rest] eqn:Hactives; [by apply elem_of_nil in Hin|].
  cbn [length Nat.eqb]. rewrite (stamp_keeps_sessions env).
  by apply follow_each.
Qed.

End Following.

(** X9 (part_000, [runActiveSessionSync]): for a tracked session that is not
    closed and whose remote state is [state] (the store being reliable): when
    the state is the stored status the row is left as it is; otherwise the
    status becomes the state, the completion date is set when the state is
    COMPLETED or FAILED and cleared for any other state, and the title, the
    origin, the prompt, the source and the context are kept. *)
Theorem active_sync_follows_remote_state env w id columns state :
  (∀ n, storage_fails env n = false) →
  julesSession w !! id = Some columns →
  MonitorCore.isActive {| js_id := id; js_columns := columns |} = true →
  (∀ k, ∃ remote, getSession_answer env k id = Ok remote ∧ s_state remote = state) →
  if decide (SessionState_value state = js_status columns)
  then julesSession (ClientMonitor.runActiveSessionSync env w).2 !! id = Some columns
  else ∃ r, julesSession (ClientMonitor.runActiveSessionSync env w).2 !! id = Some r
            ∧ follows state columns r.
Proof.
  intros Hreliable Hrow Hactive Hremote.
  pose proof (follow_run env id columns state Hreliable Hremote w Hrow Hactive) as H.
  destruct (decide (SessionState_value state = js_status columns)); [done|].
  destruct H as [t ->]. eexists. split; [done|].
  unfold follows, with_status. cbn. by destruct state.
Qed.

Lemma active_sync_follows_remote_state_witness :
  ∃ r, julesSession (ClientMonitor.runActiveSessionSync Syncing.paused Syncing.twoRows).2
         !! "s2" = Some r
       ∧ follows PAUSED (Scenario.row "IN_PROGRESS") r.
Proof.
  refine (active_sync_follows_remote_state Syncing.paused Syncing.twoRows "s2"
            (Scenario.row "IN_PROGRESS") PAUSED _ _ _ _).
  - intros n. reflexivity.
  - vm_compute. reflexivity.
  - reflexivity.
  - intros k. by exists (Scenario.remoteSession "s2" PAUSED).
Defined.

(** *** The cache stamp *)

Lemma no_active_rows w :
  (∀ id columns,
      julesSession w !! id = Some columns →
      MonitorCore.isActive {| js_id := id; js_columns := columns |} = false) →
  List.filter MonitorCore.isActive (prisma.julesSession_rows w) = [].
Proof.
  intros Hclosed.
  destruct (List.filter _ _) as [|[id columns] rest] eqn:Hactive; [done|].
  assert ({| js_id := id; js_columns := columns |}
          ∈ List.filter MonitorCore.isActive (prisma.julesSession_rows w)) as Hin
    by (rewrite Hactive; left).
  apply active_rows in Hin as [Hrow Hyes]. cbn [js_id js_columns] in Hrow.
  by rewrite (Hclosed _ _ Hrow) in Hyes.
Qed.

(** X10 (jules-monitor.ts, [runActiveSessionSync], both variants): when no
    tracked session is active the sync returns after its one query: it makes
    no remote call and does not write DASHBOARD_LAST_SYNC. *)
Theorem idle_sync_returns_early env w :
  (∀ id columns,
      julesSession w !! id = Some columns →
      MonitorCore.isActive {| js_id := id; js_columns := columns |} = false) →
  storage_fails env (storageOps w) = false →
  ClientMonitor.runActiveSessionSync env w = (Ok (), after_storage w)
  ∧ ToolMonitor.runActiveSessionSync env w = (Ok (), after_storage w).
Proof.
  intros Hclosed Hstore.
  unfold ClientMonitor.runActiveSessionSync, ToolMonitor.runActiveSessionSync.
  rewrite !runActiveSessionSync_unfold by done. cbv zeta.
  by rewrite no_active_rows.
Qed.

Lemma idle_sync_returns_early_witness :
  ClientMonitor.runActiveSessionSync Scenario.quiet (Scenario.storeWith "s1" "FAILED")
  = (Ok (), after_storage (Scenario.storeWith "s1" "FAILED"))
  ∧ ToolMonitor.runActiveSessionSync Scenario.quiet (Scenario.storeWith "s1" "FAILED")
    = (Ok (), after_storage (Scenario.storeWith "s1" "FAILED")).
Proof.
  apply (idle_sync_returns_early Scenario.quiet (Scenario.storeWith "s1" "FAILED")).
  - intros id columns Hrow. unfold Scenario.storeWith in Hrow.
    cbn [julesSession set_julesSession] in Hrow.
    apply lookup_singleton_Some in Hrow as [_ <-]. reflexivity.
  - reflexivity.
Defined.

(** X11 (part_000, [runActiveSessionSync]): as soon as one tracked session
    is active, the store is reliable and the KV binding is present, the sync
    returns normally and DASHBOARD_LAST_SYNC holds the instant at which it
    ended, whatever the remote service answered (every per-session failure
    is trapped). *)
Theorem active_sync_stamps_last_sync env w id columns :
  (∀ n, storage_fails env n = false) →
  KV_bound env = true →
  julesSession w !! id = Some columns →
  MonitorCore.isActive {| js_id := id; js_columns := columns |} = true →
  (ClientMonitor.runActiveSessionSync env w).1 = Ok ()
  ∧ KV (ClientMonitor.runActiveSessionSync env w).2 !! "DASHBOARD_LAST_SYNC"
    = Some (DateAt (now (ClientMonitor.runActiveSessionSync env w).2)).
Proof.
  intros Hreliable Hkv Hrow Hactive. unfold ClientMonitor.runActiveSessionSync.
  rewrite runActiveSessionSync_unfold by done. cbv zeta.
  set (active := List.filter MonitorCore.isActive (prisma.julesSession_rows w)).
  assert ({| js_id := id; js_columns := columns |} ∈ active) as Hin.
  { apply list_elem_of_In, filter_In. split; [|done].
    by apply list_elem_of_In, rows_elem. }
  destruct active as [|first rest] eqn:Hactives; [by apply elem_of_nil in Hin|].
  cbn [length Nat.eqb]. rewrite Hkv.
  unfold bind, new_Date, prisma.KV_put, storage. rewrite Hreliable.
  world_simpl. by rewrite lookup_insert_eq.
Qed.

Lemma active_sync_stamps_last_sync_witness :
  (ClientMonitor.runActiveSessionSync Scenario.activitiesDown
     (Scenario.storeWith "s1" "IN_PROGRESS")).1 = Ok ()
  ∧ KV (ClientMonitor.runActiveSessionSync Scenario.activitiesDown
          (Scenario.storeWith "s1" "IN_PROGRESS")).2 !! "DASHBOARD_LAST_SYNC"
    = Some (DateAt (now (ClientMonitor.runActiveSessionSync Scenario.activitiesDown
                           (Scenario.storeWith "s1" "IN_PROGRESS")).2)).
Proof.
  apply (active_sync_stamps_last_sync Scenario.activitiesDown
           (Scenario.storeWith "s1" "IN_PROGRESS") "s1" (Scenario.row "IN_PROGRESS")).
  - intros n. reflexivity.
  - reflexivity.
  - vm_compute. reflexivity.
  - reflexivity.
Defined.

(** *** The tool-based variant *)

Lemma keeps_bind_const {X A B C} (f : World → X) (m : M A) (b : B) (k : B → M C) :
  keeps f m → keeps f (k b) → keeps f (bind (bind m (λ _, ret b)) k).
Proof.
  intros Hm Hk w. unfold bind, ret. specialize (Hm w).
  destruct (m w) as [[a|e] w1]; cbn [snd] in *; [|done].
  by rewrite Hk.
Qed.

Lemma tool_syncSession_keeps_status env dbSession id :
  keeps (λ w, js_status <$> julesSession w !! id)
    (MonitorCore.syncSession env (ToolMonitor.fetchState env)
       (ToolMonitor.fetchActivities env) dbSession).
Proof.
  unfold MonitorCore.syncSession, ToolMonitor.fetchState.
  apply keeps_try_catch; [|by intros].
  apply keeps_bind_const; [keeps_monitor|].
  apply keeps_bind.
  - cbn [fmap option_fmap option_map MonitorCore.isClosed].
    rewrite bool_decide_eq_false_2 by done.
    apply keeps_bind; [apply keeps_ret|intros completedAt].
    unfold prisma.julesSession_update. apply keeps_storage; [done|].
    intros w. destruct (julesSession w !! js_id dbSession) as [r|] eqn:Hrow; [|done].
    world_simpl. destruct (decide (js_id dbSession = id)) as [<-|Hne].
    + by rewrite lookup_insert_eq, Hrow.
    + by rewrite lookup_insert_ne.
  - intros _ w.
    by rewrite (mirrorAll_keeps_sessions env _ (tool_fetchActivities_keeps env)).
Qed.

(** X12 (services/jules-monitor.ts, [runActiveSessionSync]): the tool-based
    variant reads [state] from the answer of [JulesGetActivityTool], an
    activity list that has none: no pass of its active sync changes the
    status of any row, whatever the remote service reports. *)
Theorem tool_sync_never_changes_a_status env w id :
  js_status <$> julesSession (ToolMonitor.runActiveSessionSync env w).2 !! id
  = js_status <$> julesSession w !! id.
Proof.
  revert w. change (keeps (λ w, js_status <$> julesSession w !! id)
                      (ToolMonitor.runActiveSessionSync env)).
  unfold ToolMonitor.runActiveSessionSync, MonitorCore.runActiveSessionSync.
  apply keeps_bind; [keeps_monitor|intros active].
  apply keeps_if; [apply keeps_ret|].
  apply keeps_bind.
  - apply keeps_for_of. intros dbSession. apply tool_syncSession_keeps_status.
  - intros _. keeps_monitor.
Qed.

(** ** The remote identifier of an activity *)

Lemma append_assoc_string (a b c : string) : (a +:+ b) +:+ c = a +:+ (b +:+ c).
Proof.
  induction a as [|x a IH]; [done|].
  change (String x ((a +:+ b) +:+ c) = String x (a +:+ (b +:+ c))). by f_equal.
Qed.

Lemma append_empty_r (a : string) : a +:+ EmptyString = a.
Proof.
  induction a as [|x a IH]; [done|].
  change (String x (a +:+ EmptyString) = String x a). by f_equal.
Qed.

Lemma includes_char (c sep : ascii) (s : string) :
  JS.includes (String c s) (String sep EmptyString)
  = Ascii.eqb c sep || JS.includes s (String sep EmptyString).
Proof.
  rewrite includes_unfold. cbn [JS.startsWith].
  destruct (Ascii.eqb c sep); [|done]. by destruct s.
Qed.

Lemma includes_char_append (sep : ascii) (a b : string) :
  JS.includes (a +:+ b) (String sep EmptyString)
  = JS.includes a (String sep EmptyString) || JS.includes b (String sep EmptyString).
Proof.
  induction a as [|c a IH]; [done|].
  change (String c a +:+ b) with (String c (a +:+ b)).
  rewrite !includes_char, IH. by rewrite orb_assoc.
Qed.

Lemma split_from_cons (sep : ascii) (cur s : string) :
  ∃ x l, JS.split_from sep cur s = x :: l.
Proof.
  revert cur. induction s as [|c s IH]; intros cur; simpl; [by eexists _, _|].
  destruct (Ascii.eqb c sep); [by eexists _, _|apply IH].
Qed.

(** Without a separator in it the text is one segment. *)
Lemma split_from_plain (sep : ascii) (cur s : string) :
  JS.includes s (String sep EmptyString) = false →
  JS.split_from sep cur s = [cur +:+ s].
Proof.
  revert cur. induction s as [|c s IH]; intros cur Hplain; simpl.
  { by rewrite append_empty_r. }
  rewrite includes_char in Hplain. apply orb_false_elim in Hplain as [-> Hplain].
  rewrite IH by done. by rewrite append_assoc_string.
Qed.

(** The last segment starts after the last separator. *)
Lemma split_from_after (sep : ascii) (cur a b : string) :
  last (JS.split_from sep cur (a +:+ String sep b))
  = last (JS.split_from sep EmptyString b).
Proof.
  revert cur. induction a as [|c a IH]; intros cur; simpl.
  - rewrite Ascii.eqb_refl.
    by destruct (split_from_cons sep EmptyString b) as (x & l & ->).
  - destruct (Ascii.eqb c sep); [|apply IH].
    destruct (split_from_cons sep EmptyString (a +:+ String sep b)) as (x & l & Hsplit).
    rewrite <- (IH EmptyString), Hsplit. done.
Qed.

(** No segment but the first has the separator in it. *)
Lemma split_from_segments (sep : ascii) (cur s : string) :
  JS.includes cur (String sep EmptyString) = false →
  Forall (λ segment, JS.includes segment (String sep EmptyString) = false)
    (JS.split_from sep cur s).
Proof.
  revert cur. induction s as [|c s IH]; intros cur Hcur; simpl; [by constructor|].
  destruct (Ascii.eqb c sep) eqn:Hc.
  - constructor; [done|]. by apply IH.
  - apply IH. rewrite includes_char_append, Hcur, includes_char, Hc. done.
Qed.

Lemma remoteIdOf_segment prefix id :
  JS.includes id "/" = false → MonitorCore.remoteIdOf (prefix +:+ "/" +:+ id) = id.
Proof.
  intros Hid. unfold MonitorCore.remoteIdOf, JS.pop, JS.split.
  change ("/" +:+ id) with (String "/" id).
  rewrite split_from_after, split_from_plain by done. done.
Qed.

(** X13 (jules-monitor.ts, [syncActivitiesForSession], the expression
    [act.name.split('/').pop()]): the remote identifier of an activity is what
    follows the last slash of its resource name: it has no slash in it, and it
    is [id] for a name [prefix/id] where [id] has no slash. *)
Theorem remote_id_is_the_last_segment prefix id name :
  JS.includes id "/" = false →
  MonitorCore.remoteIdOf (prefix +:+ "/" +:+ id) = id
  ∧ JS.includes (MonitorCore.remoteIdOf name) "/" = false.
Proof.
  intros Hid. split; [by apply remoteIdOf_segment|].
  pose proof (split_from_segments "/" EmptyString name eq_refl) as Hsegments.
    pose proof (pop_split name) as Hpop. unfold JS.pop, JS.split in Hpop.
    apply last_Some in Hpop as (l & Hl). fold (JS.split "/" name) in Hsegments.
    unfold JS.split in Hsegments. rewrite Hl in Hsegments.
    by apply Forall_app in Hsegments as [_ [H _]%Forall_cons].
Qed.

Lemma remote_id_is_the_last_segment_witness :
  MonitorCore.remoteIdOf ("sessions/s1/activities" +:+ "/" +:+ "a1") = "a1"
  ∧ JS.includes (MonitorCore.remoteIdOf "sessions/s1/activities/") "/" = false.
Proof.
  apply (remote_id_is_the_last_segment "sessions/s1/activities" "a1"
           "sessions/s1/activities/").
  reflexivity.
Defined.

(** ** A mirror pass on any log *)

Lemma try_catch_returns (m : M ()) w : (try_catch m (λ _, ret ()) w).1 = Ok ().
Proof. unfold try_catch. by destruct (m w) as [[[]|e] w']. Qed.

Lemma mirror_grows env sessionId act :
  grows activityLog (mirror_of sessionId) (MonitorCore.mirror env sessionId act).
Proof.
  intros w. destruct (mirror_cases env sessionId act w) as [->|[-> _]].
  - exists []. by rewrite app_nil_r.
  - eexists. split; [done|]. constructor; [by eexists|constructor].
Qed.

Lemma syncActivitiesForSession_grows env fetchActivities sessionId :
  (∀ id, keeps activityLog (fetchActivities id)) →
  grows activityLog (mirror_of sessionId)
    (MonitorCore.syncActivitiesForSession env fetchActivities sessionId).
Proof.
  intros Hfetch. unfold MonitorCore.syncActivitiesForSession.
  apply grows_try_catch; [|intros; apply grows_keeps, keeps_ret].
  apply grows_bind; [by apply grows_keeps|intros response].
  apply grows_for_of. intros act. apply mirror_grows.
Qed.

(** X14 (jules-monitor.ts, [syncActivitiesForSession], both variants): a
    mirror pass never throws, whatever the remote service and the store do,
    and it only appends to the activity log: the records that were there stay
    as they are, in their order, and every record it adds is the mirror record
    of an activity, for the session of the pass. *)
Theorem mirror_pass_only_appends env sessionId w :
  ((ClientMonitor.syncActivitiesForSession env sessionId w).1 = Ok ()
   ∧ ∃ added,
       activityLog (ClientMonitor.syncActivitiesForSession env sessionId w).2
       = activityLog w ++ added
       ∧ Forall (mirror_of sessionId) added)
  ∧ ((ToolMonitor.syncActivitiesForSession env sessionId w).1 = Ok ()
     ∧ ∃ added,
         activityLog (ToolMonitor.syncActivitiesForSession env sessionId w).2
         = activityLog w ++ added
         ∧ Forall (mirror_of sessionId) added).
Proof.
  split; (split; [apply try_catch_returns|]).
  - apply (syncActivitiesForSession_grows env (ClientMonitor.fetchActivities env)).
    intros id. keeps_monitor.
  - apply (syncActivitiesForSession_grows env (ToolMonitor.fetchActivities env)).
    intros id. keeps_monitor.
Qed.

(** X15 (jules-monitor.ts, [syncActivitiesForSession]): for a resource name
    that ends in a slash the remote identifier is the empty string, which
    every metadata text contains: once the session has any record with
    metadata, such an activity is never mirrored. *)
Theorem mirror_skips_a_name_that_ends_in_a_slash env sessionId act prefix w r :
  act_name act = prefix +:+ "/" →
  r ∈ activityLog w →
  al_sessionId r = Some sessionId →
  is_Some (al_metadata r) →
  MonitorCore.remoteIdOf (act_name act) = EmptyString
  ∧ activityLog (MonitorCore.mirror env sessionId act w).2 = activityLog w.
Proof.
  intros Hname Hin Hsession [metadata Hmetadata].
  assert (MonitorCore.remoteIdOf (act_name act) = EmptyString) as Hid.
  { rewrite Hname. by apply (remoteIdOf_segment prefix EmptyString). }
  split; [done|].
  apply (mirror_found env sessionId act w r Hin).
  unfold MonitorCore.mirrored, metadata_text. rewrite Hid, Hmetadata.
  cbn [fmap option_fmap option_map].
  by rewrite bool_decide_eq_true_2, includes_empty.
Qed.

Lemma mirror_skips_a_name_that_ends_in_a_slash_witness :
  MonitorCore.remoteIdOf (act_name Mirroring.nameless) = EmptyString
  ∧ activityLog (MonitorCore.mirror Scenario.quiet "s1" Mirroring.nameless
                   Mirroring.seen).2
    = activityLog Mirroring.seen.
Proof.
  apply (mirror_skips_a_name_that_ends_in_a_slash Scenario.quiet "s1" Mirroring.nameless
           "sessions/s1/activities" Mirroring.seen (mirror_record "s1" Scenario.a1)).
  - reflexivity.
  - apply list_elem_of_here.
  - reflexivity.
  - eexists. reflexivity.
Defined.

(** X16 (jules-monitor.ts, [syncActivitiesForSession]): the duplicate check
    is per session: when the log has no record of the session, the activity is
    mirrored, whatever the records of other sessions (or of none) carry, the
    store being reliable. *)
Theorem mirror_check_is_per_session env sessionId act w :
  (∀ n, storage_fails env n = false) →
  Forall (λ r, al_sessionId r ≠ Some sessionId) (activityLog w) →
  (MonitorCore.mirror env sessionId act w).1 = Ok ()
  ∧ activityLog (MonitorCore.mirror env sessionId act w).2
    = activityLog w ++ [mirror_record sessionId act].
Proof.
  intros Hreliable Hother.
  destruct (mirror_reliable env Hreliable sessionId act w)
    as (w' & -> & _ & [[_ (x & Hx & Hfound)]|Hnew]); [|done].
  rewrite Forall_forall in Hother. specialize (Hother x Hx).
  unfold MonitorCore.mirrored in Hfound.
  apply andb_true_iff in Hfound as [Hsession%bool_decide_eq_true _]. done.
Qed.

Lemma mirror_check_is_per_session_witness :
  (MonitorCore.mirror Scenario.quiet "s2" Scenario.a1 Mirroring.seen).1 = Ok ()
  ∧ activityLog (MonitorCore.mirror Scenario.quiet "s2" Scenario.a1 Mirroring.seen).2
    = activityLog Mirroring.seen ++ [mirror_record "s2" Scenario.a1].
Proof.
  apply (mirror_check_is_per_session Scenario.quiet "s2" Scenario.a1 Mirroring.seen).
  - intros n. reflexivity.
  - repeat constructor. discriminate.
Defined.

(** ** The replies of the monitor *)

Lemma truthy_append a b : JS.truthy a = true → JS.truthy (a +:+ b) = true.
Proof. by destruct a. Qed.


Lemma join_cons sep x y l : JS.join sep (x :: y :: l) = x +:+ sep +:+ JS.join sep (y :: l).
Proof. done. Qed.


Lemma fallback_preamble question context :
  JS.startsWith (ClientMonitor.generateFallbackResponse question context)
    "Based on your question, here's what I recommend:" = true.
Proof.
  unfold ClientMonitor.generateFallbackResponse. cbv zeta.
  cbn [app]. rewrite join_cons. apply startsWith_app.
Qed.

Lemma startsWith_truthy s t : JS.truthy t = true → JS.startsWith s t = true → JS.truthy s = true.
Proof. by destruct t, s. Qed.

Section Replies.
Context (env : Env).

(** [generateIntervention] always answers, with the Overseer's reply or the
    fallback, and touches neither the store nor the session. *)
Lemma generateIntervention_run question context w :
  ∃ w',
    ClientMonitor.generateIntervention env question context w
    = (Ok (default (ClientMonitor.generateFallbackResponse question context)
             (overseer_says env question context w)), w')
    ∧ storageOps w' = storageOps w
    ∧ julesInteraction w' = julesInteraction w
    ∧ issued KSendMessage w' = issued KSendMessage w
    ∧ calls w' = calls w
                 ++ (if OVERSEER_AGENT_bound env then [CallOverseer question] else []).
Proof.
  unfold ClientMonitor.generateIntervention, overseer_says.
  destruct (OVERSEER_AGENT_bound env); [|eexists; by rewrite app_nil_r].
  unfold bind at 1, try_catch, bind at 1. rewrite call_eq. cbn [kind_of].
  destruct (overseer_answer env _ _ _) as [response|e]; cbn [overseer_reply].
  - destruct (or_ok response); [destruct (or_json response) as [body|e]|];
      (eexists; split; [done|]; count_calls; by world_simpl).
  - eexists. split; [done|]. count_calls. by world_simpl.
Qed.

Lemma intervention_text_truthy question context w :
  JS.truthy (default (ClientMonitor.generateFallbackResponse question context)
               (overseer_says env question context w)) = true.
Proof.
  unfold overseer_says, overseer_reply.
  assert (JS.truthy (ClientMonitor.generateFallbackResponse question context) = true)
    as Hfallback.
  { apply (startsWith_truthy _ "Based on your question, here's what I recommend:");
      [done|apply fallback_preamble]. }
  destruct (OVERSEER_AGENT_bound env); [|done].
  destruct (overseer_answer env _ _ _) as [response|e]; [|done].
  destruct (or_ok response); [|done].
  destruct (or_json response) as [body|e]; [|done].
  cbn [default from_option id]. by apply or_else_truthy, or_else_truthy.
Qed.

End Replies.

(** X17 (part_000, [generateIntervention] and [generateFallbackResponse]):
    [generateIntervention] never throws and never returns an empty reply: the
    reply is the Overseer's when the binding is there, the call succeeds with
    an ok status and the body parses, and the rule-based fallback in every
    other case. *)
Theorem intervention_always_has_a_reply env question context w :
  ∃ text,
    (ClientMonitor.generateIntervention env question context w).1 = Ok text
    ∧ JS.truthy text = true
    ∧ text = default (ClientMonitor.generateFallbackResponse question context)
               (overseer_says env question context w).
Proof.
  destruct (generateIntervention_run env question context w) as (w' & -> & _).
  eexists. split; [done|]. split; [|done]. apply intervention_text_truthy.
Qed.



(** ** [handleUserFeedback] on a question that has no reply yet *)

Lemma filter_Forall_nil {A} (p : A → bool) (l : list A) :
  Forall (λ x, p x = false) l → List.filter p l = [].
Proof. induction 1 as [|x l Hx _ IH]; simpl; [done|]. by rewrite Hx. Qed.

Lemma issued_after_storage k w : issued k (after_storage w) = issued k w.
Proof. done. Qed.

Section Feedback.
Context (env : Env) (dbSession : JulesSession) (w : World).
Context (response : ListActivitiesResponse) (question : string).
Hypothesis listed :
  listActivities_answer env (issued KListActivities w) (js_id dbSession) (Some 5)
  = Ok response.
Hypothesis asked : extracted_question response = Some question.
Hypothesis query_ok : storage_fails env (storageOps w) = false.
Hypothesis unanswered :
  Forall (λ x, ClientMonitor.isReplyTo (js_id dbSession) question x = false)
    (julesInteraction w).

Abbreviation listedWorld :=
  (after_call env (CallListActivities (js_id dbSession) (Some 5)) w).

(** Up to the point where the stored context is read. *)
Ltac feedback_start :=
  unfold ClientMonitor.handleUserFeedback;
  unfold bind at 1; unfold JulesClient.listActivities; rewrite call_eq;
  cbn [kind_of]; rewrite listed;
  let Hq := fresh "Hq" in
  pose proof asked as Hq; unfold extracted_question in Hq;
  destruct (_ ≫= act_agentMessaged) as [q|]; [|done];
  destruct (JS.truthy q); [|done]; injection Hq as ->; cbn [negb];
  unfold bind at 1, prisma.julesInteraction_findFirst_latest, storage;
  world_simpl; rewrite query_ok; rewrite filter_Forall_nil by done;
  cbn [last].

Lemma handleUserFeedback_malformed text e :
  js_enhancedContext dbSession = Some text →
  JS.truthy text = true →
  JSON_parse_context env text = Throw e →
  ClientMonitor.handleUserFeedback env dbSession w
  = (Throw e, after_storage listedWorld).
Proof.
  intros Hcontext Htruthy Hparse. feedback_start.
  unfold bind at 1. by rewrite Hcontext, Htruthy, Hparse.
Qed.

Lemma handleUserFeedback_send_fails e :
  js_enhancedContext dbSession = None →
  storage_fails env (S (storageOps w)) = false →
  (∀ text, sendMessage_answer env (issued KSendMessage w) (js_id dbSession) text
           = Throw e) →
  ∃ t w',
    ClientMonitor.handleUserFeedback env dbSession w = (Ok false, w')
    ∧ julesInteraction w'
      = julesInteraction w ++ [send_failure (js_id dbSession) question e t]
    ∧ issued KSendMessage w' = S (issued KSendMessage w).
Proof.
  intros Hcontext Hwrite Hsend. feedback_start.
  rewrite Hcontext. unfold bind at 1. unfold ret at 1. unfold bind at 1.
  match goal with
  | |- context [ClientMonitor.generateIntervention env question ?c ?w2] =>
      destruct (generateIntervention_run env question c w2)
        as (w3 & -> & Hops & Hlog & Hsent & _)
  end.
  assert (issued KSendMessage w3 = issued KSendMessage w) as Hsent'.
  { rewrite Hsent. change (issued KSendMessage listedWorld = issued KSendMessage w).
    count_calls. lia. }
  assert (storageOps w3 = S (storageOps w)) as Hops' by (by rewrite Hops).
  assert (julesInteraction w3 = julesInteraction w) as Hlog' by (by rewrite Hlog).
  clear Hsent Hops Hlog. set (text := default _ _).
  unfold try_catch, bind at 1. unfold JulesClient.sendMessage. rewrite call_eq.
  cbn [kind_of]. rewrite Hsent', Hsend.
  unfold bind, ClientMonitor.logInteraction, MonitorCore.logInteraction, bind, new_Date,
    prisma.julesInteraction_create, storage.
  world_simpl. rewrite Hops', Hwrite.
  eexists _, _. split; [done|]. world_simpl. rewrite Hlog'.
  split; [done|]. rewrite <- Hsent'.
  change (issued KSendMessage
            (after_call env (CallSendMessage (js_id dbSession) text) w3)
          = S (issued KSendMessage w3)).
  count_calls. lia.
Qed.

Lemma handleUserFeedback_write_fails :
  js_enhancedContext dbSession = None →
  storage_fails env (S (storageOps w)) = true →
  storage_fails env (S (S (storageOps w))) = false →
  (∀ text, sendMessage_answer env (issued KSendMessage w) (js_id dbSession) text
           = Ok ()) →
  ∃ t w',
    ClientMonitor.handleUserFeedback env dbSession w = (Ok false, w')
    ∧ julesInteraction w'
      = julesInteraction w
        ++ [send_failure (js_id dbSession) question "storage operation failed" t]
    ∧ issued KSendMessage w' = S (issued KSendMessage w).
Proof.
  intros Hcontext Hwrite Hretry Hsend. feedback_start.
  rewrite Hcontext. unfold bind at 1. unfold ret at 1. unfold bind at 1.
  match goal with
  | |- context [ClientMonitor.generateIntervention env question ?c ?w2] =>
      destruct (generateIntervention_run env question c w2)
        as (w3 & -> & Hops & Hlog & Hsent & _)
  end.
  assert (issued KSendMessage w3 = issued KSendMessage w) as Hsent'.
  { rewrite Hsent. change (issued KSendMessage listedWorld = issued KSendMessage w).
    count_calls. lia. }
  assert (storageOps w3 = S (storageOps w)) as Hops' by (by rewrite Hops).
  assert (julesInteraction w3 = julesInteraction w) as Hlog' by (by rewrite Hlog).
  clear Hsent Hops Hlog. set (text := default _ _).
  unfold try_catch, bind at 1. unfold JulesClient.sendMessage. rewrite call_eq.
  cbn [kind_of]. rewrite Hsent', Hsend.
  unfold bind, ClientMonitor.logInteraction, MonitorCore.logInteraction, bind, new_Date,
    prisma.julesInteraction_create, storage.
  world_simpl. rewrite Hops', Hwrite. world_simpl. rewrite Hretry.
  eexists _, _. split; [done|]. world_simpl. rewrite Hlog'.
  split; [done|]. rewrite <- Hsent'.
  change (issued KSendMessage
            (after_call env (CallSendMessage (js_id dbSession) text) w3)
          = S (issued KSendMessage w3)).
  count_calls. lia.
Qed.

Lemma handleUserFeedback_succeeds :
  js_enhancedContext dbSession = None →
  storage_fails env (S (storageOps w)) = false →
  (∀ text, sendMessage_answer env (issued KSendMessage w) (js_id dbSession) text
           = Ok ()) →
  ∃ text t w',
    ClientMonitor.handleUserFeedback env dbSession w = (Ok true, w')
    ∧ JS.truthy text = true
    ∧ calls w' = calls (after_storage listedWorld)
                 ++ (if OVERSEER_AGENT_bound env then [CallOverseer question] else [])
                 ++ [CallSendMessage (js_id dbSession) text]
    ∧ julesInteraction w'
      = julesInteraction w ++ [reply_record (js_id dbSession) question text t].
Proof.
  intros Hcontext Hwrite Hsend. feedback_start.
  rewrite Hcontext. unfold bind at 1. unfold ret at 1. unfold bind at 1.
  match goal with
  | |- context [ClientMonitor.generateIntervention env question ?c ?w2] =>
      destruct (generateIntervention_run env question c w2)
        as (w3 & -> & Hops & Hlog & Hsent & Hcalls);
      pose proof (intervention_text_truthy env question c w2) as Htruthy
  end.
  assert (issued KSendMessage w3 = issued KSendMessage w) as Hsent'.
  { rewrite Hsent. change (issued KSendMessage listedWorld = issued KSendMessage w).
    count_calls. lia. }
  assert (storageOps w3 = S (storageOps w)) as Hops' by (by rewrite Hops).
  assert (julesInteraction w3 = julesInteraction w) as Hlog' by (by rewrite Hlog).
  clear Hsent Hops Hlog. revert Htruthy Hcalls. set (text := default _ _).
  intros Htruthy Hcalls.
  unfold try_catch, bind at 1. unfold JulesClient.sendMessage. rewrite call_eq.
  cbn [kind_of]. rewrite Hsent', Hsend.
  unfold bind, ClientMonitor.logInteraction, MonitorCore.logInteraction, bind, new_Date,
    prisma.julesInteraction_create, storage, ret.
  world_simpl. rewrite Hops', Hwrite.
  eexists text, _, _. split; [done|]. split; [done|]. world_simpl.
  rewrite Hlog', Hcalls. split; [|done]. by rewrite <- app_assoc.
Qed.

End Feedback.

Lemma send_failure_is_no_reply sessionId question error t log :
  Forall (λ x, ClientMonitor.isReplyTo sessionId question x = false) log →
  replies sessionId question (log ++ [send_failure sessionId question error t]) = 0.
Proof.
  intros Hnone. rewrite replies_app, replies_absent by done.
  unfold replies, ClientMonitor.isReplyTo. simpl. by rewrite andb_false_r.
Qed.

Lemma reply_record_is_a_reply sessionId question text t log :
  Forall (λ x, ClientMonitor.isReplyTo sessionId question x = false) log →
  replies sessionId question (log ++ [reply_record sessionId question text t]) = 1.
Proof.
  intros Hnone. rewrite replies_app, replies_absent by done.
  unfold replies, ClientMonitor.isReplyTo. simpl.
  by rewrite String.eqb_refl, bool_decide_eq_true_2.
Qed.

(** X19 (part_000, [handleUserFeedback]): for a question that has no reply
    yet (no stored context, the store and the remote service answering):
    the function returns true, the last remote call is the [sendMessage] of a
    non-empty reply, and the one interaction it records is the AGENT_REPLY
    that carries the question and that reply, so that the question now has
    exactly one reply. *)
Theorem reply_is_sent_and_recorded env dbSession w response question :
  listActivities_answer env (issued KListActivities w) (js_id dbSession) (Some 5)
  = Ok response →
  extracted_question response = Some question →
  Forall (λ x, ClientMonitor.isReplyTo (js_id dbSession) question x = false)
    (julesInteraction w) →
  js_enhancedContext dbSession = None →
  storage_fails env (storageOps w) = false →
  storage_fails env (S (storageOps w)) = false →
  (∀ text, sendMessage_answer env (issued KSendMessage w) (js_id dbSession) text
           = Ok ()) →
  ∃ text t w',
    ClientMonitor.handleUserFeedback env dbSession w = (Ok true, w')
    ∧ JS.truthy text = true
    ∧ last (calls w') = Some (CallSendMessage (js_id dbSession) text)
    ∧ julesInteraction w'
      = julesInteraction w ++ [reply_record (js_id dbSession) question text t]
    ∧ replies (js_id dbSession) question (julesInteraction w') = 1.
Proof.
  intros Hlisted Hasked Hnone Hcontext Hquery Hwrite Hsend.
  destruct (handleUserFeedback_succeeds env dbSession w response question Hlisted
              Hasked Hquery Hnone Hcontext Hwrite Hsend)
    as (text & t & w' & Hrun & Htruthy & Hcalls & Hlog).
  exists text, t, w'. split_and!; try done.
  - by rewrite Hcalls, app_assoc, last_snoc.
  - rewrite Hlog. by apply reply_record_is_a_reply.
Qed.

Lemma reply_is_sent_and_recorded_witness :
  ∃ text t w',
    ClientMonitor.handleUserFeedback Scenario.asking Scenario.s3 emptyWorld
    = (Ok true, w')
    ∧ JS.truthy text = true
    ∧ last (calls w') = Some (CallSendMessage (js_id Scenario.s3) text)
    ∧ julesInteraction w'
      = julesInteraction emptyWorld
        ++ [reply_record (js_id Scenario.s3) "Which database?" text t]
    ∧ replies (js_id Scenario.s3) "Which database?" (julesInteraction w') = 1.
Proof.
  apply (reply_is_sent_and_recorded Scenario.asking Scenario.s3 emptyWorld
           {| activities :=
                Some [Scenario.remoteActivity "sessions/s3/activities/q1"
                        (Some "Which database?")] |}); try reflexivity.
  constructor.
Defined.

(** X20 (part_000, [handleUserFeedback]): when the reply cannot be sent, the
    function returns false and records one ERROR interaction that carries the
    question and the error; this is no AGENT_REPLY, so the question still
    counts as unanswered and a later pass will try again. *)
Theorem failed_send_is_logged_and_retried env dbSession w response question e :
  listActivities_answer env (issued KListActivities w) (js_id dbSession) (Some 5)
  = Ok response →
  extracted_question response = Some question →
  Forall (λ x, ClientMonitor.isReplyTo (js_id dbSession) question x = false)
    (julesInteraction w) →
  js_enhancedContext dbSession = None →
  storage_fails env (storageOps w) = false →
  storage_fails env (S (storageOps w)) = false →
  (∀ text, sendMessage_answer env (issued KSendMessage w) (js_id dbSession) text
           = Throw e) →
  ∃ t w',
    ClientMonitor.handleUserFeedback env dbSession w = (Ok false, w')
    ∧ julesInteraction w'
      = julesInteraction w ++ [send_failure (js_id dbSession) question e t]
    ∧ replies (js_id dbSession) question (julesInteraction w') = 0.
Proof.
  intros Hlisted Hasked Hnone Hcontext Hquery Hwrite Hsend.
  destruct (handleUserFeedback_send_fails env dbSession w response question Hlisted
              Hasked Hquery Hnone e Hcontext Hwrite Hsend) as (t & w' & Hrun & Hlog & _).
  exists t, w'. split; [done|]. split; [done|].
  rewrite Hlog. by apply send_failure_is_no_reply.
Qed.

Lemma failed_send_is_logged_and_retried_witness :
  ∃ t w',
    ClientMonitor.handleUserFeedback Intervening.sendDown Scenario.s3 emptyWorld
    = (Ok false, w')
    ∧ julesInteraction w'
      = julesInteraction emptyWorld
        ++ [send_failure (js_id Scenario.s3) "Which database?"
              "Jules API Error: 503 Service Unavailable" t]
    ∧ replies (js_id Scenario.s3) "Which database?" (julesInteraction w') = 0.
Proof.
  apply (failed_send_is_logged_and_retried Intervening.sendDown Scenario.s3 emptyWorld
           {| activities :=
                Some [Scenario.remoteActivity "sessions/s3/activities/q1"
                        (Some "Which database?")] |}); try reflexivity.
  constructor.
Defined.

(** X21 (part_000, [handleUserFeedback]): the [try] encloses the send and the
    write of the AGENT_REPLY: when the message is delivered but that write
    rejects, the function returns false and records an ERROR that reads
    "Failed to send intervention"; no AGENT_REPLY exists for the question, so
    the next pass sends a reply again. *)
Theorem delivered_reply_can_go_unrecorded env dbSession w response question :
  listActivities_answer env (issued KListActivities w) (js_id dbSession) (Some 5)
  = Ok response →
  extracted_question response = Some question →
  Forall (λ x, ClientMonitor.isReplyTo (js_id dbSession) question x = false)
    (julesInteraction w) →
  js_enhancedContext dbSession = None →
  storage_fails env (storageOps w) = false →
  storage_fails env (S (storageOps w)) = true →
  storage_fails env (S (S (storageOps w))) = false →
  (∀ text, sendMessage_answer env (issued KSendMessage w) (js_id dbSession) text
           = Ok ()) →
  ∃ r w',
    ClientMonitor.handleUserFeedback env dbSession w = (Ok false, w')
    ∧ issued KSendMessage w' = S (issued KSendMessage w)
    ∧ julesInteraction w' = julesInteraction w ++ [r]
    ∧ ji_type r = INTERACTION_TYPE.ERROR
    ∧ ji_julesMessage r = Some question
    ∧ (∃ detail,
         ji_errorMessage r = Some ("Failed to send intervention: " +:+ detail))
    ∧ replies (js_id dbSession) question (julesInteraction w') = 0.
Proof.
  intros Hlisted Hasked Hnone Hcontext Hquery Hwrite Hretry Hsend.
  destruct (handleUserFeedback_write_fails env dbSession w response question Hlisted
              Hasked Hquery Hnone Hcontext Hwrite Hretry Hsend)
    as (t & w' & Hrun & Hlog & Hsent).
  eexists _, w'. split; [done|]. split; [done|]. split; [done|].
  split; [done|]. split; [done|]. split; [by eexists|].
  rewrite Hlog. by apply send_failure_is_no_reply.
Qed.

Lemma delivered_reply_can_go_unrecorded_witness :
  ∃ r w',
    ClientMonitor.handleUserFeedback Intervening.secondWriteFails Scenario.s3 emptyWorld
    = (Ok false, w')
    ∧ issued KSendMessage w' = S (issued KSendMessage emptyWorld)
    ∧ julesInteraction w' = julesInteraction emptyWorld ++ [r]
    ∧ ji_type r = INTERACTION_TYPE.ERROR
    ∧ ji_julesMessage r = Some "Which database?"
    ∧ (∃ detail,
         ji_errorMessage r = Some ("Failed to send intervention: " +:+ detail))
    ∧ replies (js_id Scenario.s3) "Which database?" (julesInteraction w') = 0.
Proof.
  apply (delivered_reply_can_go_unrecorded Intervening.secondWriteFails Scenario.s3
           emptyWorld
           {| activities :=
                Some [Scenario.remoteActivity "sessions/s3/activities/q1"
                        (Some "Which database?")] |}); try reflexivity.
  constructor.
Defined.

(** X22 (part_000, [handleUserFeedback]): the stored context is parsed
    outside any [try]: when it is not valid JSON, the function rejects with
    the parse error after the duplicate check, before any reply is generated
    or sent, and records nothing. *)
Theorem malformed_context_aborts_the_reply env dbSession w response question text e :
  listActivities_answer env (issued KListActivities w) (js_id dbSession) (Some 5)
  = Ok response →
  extracted_question response = Some question →
  Forall (λ x, ClientMonitor.isReplyTo (js_id dbSession) question x = false)
    (julesInteraction w) →
  storage_fails env (storageOps w) = false →
  js_enhancedContext dbSession = Some text →
  JS.truthy text = true →
  JSON_parse_context env text = Throw e →
  ClientMonitor.handleUserFeedback env dbSession w
  = (Throw e,
     after_storage (after_call env (CallListActivities (js_id dbSession) (Some 5)) w)).
Proof.
  intros Hlisted Hasked Hnone Hquery Hcontext Htruthy Hparse.
  by apply (handleUserFeedback_malformed env dbSession w response question Hlisted
              Hasked Hquery Hnone text e).
Qed.

Lemma malformed_context_aborts_the_reply_witness :
  ClientMonitor.handleUserFeedback Scenario.asking Intervening.garbled emptyWorld
  = (Throw "SyntaxError: Unexpected token",
     after_storage
       (after_call Scenario.asking (CallListActivities (js_id Intervening.garbled) (Some 5))
          emptyWorld)).
Proof.
  apply (malformed_context_aborts_the_reply Scenario.asking Intervening.garbled emptyWorld
           {| activities :=
                Some [Scenario.remoteActivity "sessions/s3/activities/q1"
                        (Some "Which database?")] |}
           "Which database?" "{bindings:"); try reflexivity.
  constructor.
Defined.

(** X23 (part_000, [handlePlanApproval]): with a store that accepts the
    write, [handlePlanApproval] calls [approvePlan] once, never throws, and
    records exactly one interaction: AUTO_APPROVAL when the call succeeded, an
    ERROR with the message "Plan approval failed" and the error when it did
    not. *)
Theorem plan_approval_records_its_outcome env dbSession w :
  storage_fails env (storageOps w) = false →
  ∃ w',
    ClientMonitor.handlePlanApproval env dbSession w = (Ok (), w')
    ∧ calls w' = calls w ++ [CallApprovePlan (js_id dbSession)]
    ∧ julesInteraction w'
      = julesInteraction w
        ++ [approval_record (js_id dbSession)
              (approvePlan_answer env (issued KApprovePlan w) (js_id dbSession))
              (DateAt (now w'))].
Proof.
  intros Hwrite. unfold ClientMonitor.handlePlanApproval, try_catch.
  unfold bind at 1. unfold JulesClient.approvePlan. rewrite call_eq. cbn [kind_of].
  destruct (approvePlan_answer env _ _) as [[]|e];
    unfold ClientMonitor.logInteraction, MonitorCore.logInteraction, bind, new_Date,
      prisma.julesInteraction_create, storage;
    world_simpl; rewrite Hwrite; by eexists.
Qed.

Lemma plan_approval_records_its_outcome_witness :
  ∃ w',
    ClientMonitor.handlePlanApproval Intervening.sendDown Scenario.s3 emptyWorld
    = (Ok (), w')
    ∧ calls w' = calls emptyWorld ++ [CallApprovePlan (js_id Scenario.s3)]
    ∧ julesInteraction w'
      = julesInteraction emptyWorld
        ++ [approval_record (js_id Scenario.s3)
              (approvePlan_answer Intervening.sendDown (issued KApprovePlan emptyWorld)
                 (js_id Scenario.s3))
              (DateAt (now w'))].
Proof.
  apply (plan_approval_records_its_outcome Intervening.sendDown Scenario.s3 emptyWorld).
  reflexivity.
Defined.

(** ** The Overseer's pattern *)

Lemma lower_char_239 x : Ascii.eqb (JS.lower_char x) "239" = Ascii.eqb x "239".
Proof. by destruct x as [[] [] [] [] [] [] [] []]. Qed.

Lemma lower_char_191 x : Ascii.eqb (JS.lower_char x) "191" = Ascii.eqb x "191".
Proof. by destruct x as [[] [] [] [] [] [] [] []]. Qed.

Lemma lower_char_189 x : Ascii.eqb (JS.lower_char x) "189" = Ascii.eqb x "189".
Proof. by destruct x as [[] [] [] [] [] [] [] []]. Qed.

Lemma startsWith_lower_replacement s :
  JS.startsWith (JS.toLowerCase s) OverseerAgent.replacement_character
  = JS.startsWith s OverseerAgent.replacement_character.
Proof.
  unfold OverseerAgent.replacement_character.
  destruct s as [|x1 [|x2 [|x3 s]]]; cbn [JS.toLowerCase JS.startsWith];
    rewrite ?lower_char_239, ?lower_char_191, ?lower_char_189; try done.
  repeat case_match; try done. by destruct s.
Qed.

Lemma includes_lower_replacement s :
  JS.includes (JS.toLowerCase s) OverseerAgent.replacement_character
  = JS.includes s OverseerAgent.replacement_character.
Proof.
  induction s as [|c s IH]; [done|].
  rewrite (includes_unfold (String c s)), <- IH, <- startsWith_lower_replacement.
  by rewrite includes_unfold.
Qed.

Lemma startsWith_prefix s a b :
  JS.startsWith s (a +:+ b) = true → JS.startsWith s a = true.
Proof.
  revert s. induction a as [|c a IH]; intros s H; [by destruct s|].
  destruct s as [|d s]; [done|].
  change (String c a +:+ b) with (String c (a +:+ b)) in H. simpl in *.
  destruct (Ascii.eqb d c); [by apply IH|done].
Qed.

Lemma includes_prefix s a b :
  JS.includes s (a +:+ b) = true → JS.includes s a = true.
Proof.
  induction s as [|c s IH]; intros H; rewrite includes_unfold in H;
    apply orb_prop in H as [H|H]; rewrite includes_unfold.
  - by rewrite (startsWith_prefix _ _ _ H).
  - done.
  - by rewrite (startsWith_prefix _ _ _ H).
  - rewrite (IH H). apply orb_true_r.
Qed.

Lemma stuck_pattern_needs_replacement message :
  JS.includes message OverseerAgent.replacement_character = false →
  OverseerAgent.stuck_pattern_test message = false.
Proof.
  intros Hplain. unfold OverseerAgent.stuck_pattern_test. cbv zeta.
  apply orb_false_intro; apply not_true_is_false; intros H%includes_prefix;
    rewrite includes_lower_replacement in H; congruence.
Qed.

(** X24 (part_001, [OverseerAgent.checkOnJules]): the pattern of the source
    has the replacement character U+FFFD on both sides of "error|stuck": for a
    last agent message without that character, whatever it says,
    [checkOnJules] returns null after fetching the activities, and neither
    searches the documentation nor sends a message. *)
Theorem plain_text_never_triggers_the_overseer env sessionId w response acts :
  JULES_API_KEY_bound env = true →
  listActivities_answer env (issued KListActivities w) sessionId None = Ok response →
  activities response = Some acts →
  (∀ message,
      last acts ≫= act_agentMessaged = Some message →
      JS.includes message OverseerAgent.replacement_character = false) →
  OverseerAgent.checkOnJules env sessionId w
  = (Ok None, after_call env (CallListActivities sessionId None) w).
Proof.
  intros Hkey Hlisted Hacts Hplain.
  unfold OverseerAgent.checkOnJules, Tools.JulesGetActivityTool_execute, Tools.getClient.
  rewrite Hkey.
  rewrite (bind_Ok _ _ w response (after_call env (CallListActivities sessionId None) w)).
  2:{ unfold bind, ret, JulesClient.listActivities. rewrite call_eq. cbn [kind_of].
      by rewrite Hlisted. }
  rewrite Hacts. destruct (last acts ≫= act_agentMessaged) as [message|]; [|done].
  rewrite (stuck_pattern_needs_replacement message) by (by apply Hplain).
  by rewrite andb_false_r.
Qed.

Lemma plain_text_never_triggers_the_overseer_witness :
  OverseerAgent.checkOnJules Overseeing.complaining "s3" emptyWorld
  = (Ok None, after_call Overseeing.complaining (CallListActivities "s3" None) emptyWorld).
Proof.
  apply (plain_text_never_triggers_the_overseer Overseeing.complaining "s3" emptyWorld
           {| activities :=
                Some [Scenario.remoteActivity "sessions/s3/activities/e1"
                        (Some "Error: I am stuck")] |}
           [Scenario.remoteActivity "sessions/s3/activities/e1"
              (Some "Error: I am stuck")]); try reflexivity.
  intros message [= <-]. vm_compute. reflexivity.
Defined.

Section Repeating.
Context (env : Env) (sessionId : string).
Context (response : ListActivitiesResponse) (acts : list Activity) (message : string).
Context (hits : list DocHit) (solution : string).
Hypothesis key : JULES_API_KEY_bound env = true.
Hypothesis listed : ∀ k, listActivities_answer env k sessionId None = Ok response.
Hypothesis some : activities response = Some acts.
Hypothesis complaint : last acts ≫= act_agentMessaged = Some message.
Hypothesis matches : OverseerAgent.stuck_pattern_test message = true.
Hypothesis found : ∀ k query, cloudflareDocs_answer env k query = Ok hits.
Hypothesis first_hit : head hits ≫= content = Some solution.
Hypothesis usable : JS.truthy solution = true.
Hypothesis delivered : ∀ k, sendMessage_answer env k sessionId solution = Ok ().

Lemma stuck_message_truthy : JS.truthy message = true.
Proof.
  destruct message; [|done]. by vm_compute in matches.
Qed.

Lemma checkOnJules_sends w :
  OverseerAgent.checkOnJules env sessionId w =
  (Ok (Some solution),
   after_call env (CallSendMessage sessionId solution)
     (after_call env
        (CallCloudflareDocs ("How to fix error in Jules session: " +:+ message))
        (after_call env (CallListActivities sessionId None) w))).
Proof.
  unfold OverseerAgent.checkOnJules, Tools.JulesGetActivityTool_execute,
    Tools.JulesSendMessageTool_execute, Tools.CloudflareDocsTool_execute,
    Tools.getClient.
  rewrite key.
  rewrite (bind_Ok _ _ w response (after_call env (CallListActivities sessionId None) w)).
  2:{ unfold bind, ret, JulesClient.listActivities. rewrite call_eq. by rewrite listed. }
  rewrite some, complaint, matches, stuck_message_truthy. cbn [andb].
  unfold bind at 1. rewrite call_eq, found, first_hit, usable.
  unfold bind, ret, JulesClient.sendMessage. rewrite call_eq. by rewrite delivered.
Qed.

End Repeating.

(** X25 (part_001, [OverseerAgent.checkOnJules]): [checkOnJules] keeps no
    record of what it has sent and looks for none: as long as the last
    activity shows the same matching message and the documentation search
    finds a solution, every call sends that solution to the session again,
    and issues no storage operation. *)
Theorem overseer_repeats_its_answer env sessionId w response acts message hits solution :
  JULES_API_KEY_bound env = true →
  (∀ k, listActivities_answer env k sessionId None = Ok response) →
  activities response = Some acts →
  last acts ≫= act_agentMessaged = Some message →
  OverseerAgent.stuck_pattern_test message = true →
  (∀ k query, cloudflareDocs_answer env k query = Ok hits) →
  head hits ≫= content = Some solution →
  JS.truthy solution = true →
  (∀ k, sendMessage_answer env k sessionId solution = Ok ()) →
  let first := OverseerAgent.checkOnJules env sessionId w in
  let second := OverseerAgent.checkOnJules env sessionId first.2 in
  first.1 = Ok (Some solution)
  ∧ second.1 = Ok (Some solution)
  ∧ issued KSendMessage second.2 = issued KSendMessage w + 2
  ∧ storageOps second.2 = storageOps w.
Proof.
  intros Hkey Hlisted Hsome Hcomplaint Hmatches Hfound Hhit Husable Hdelivered.
  cbv zeta.
  rewrite !(checkOnJules_sends env sessionId response acts message hits solution)
    by done.
  cbn [fst snd]. split; [done|]. split; [done|]. split; [count_calls; lia|done].
Qed.

Lemma overseer_repeats_its_answer_witness :
  let first := OverseerAgent.checkOnJules Overseeing.marked "s3" emptyWorld in
  let second := OverseerAgent.checkOnJules Overseeing.marked "s3" first.2 in
  first.1 = Ok (Some "Restart the worker.")
  ∧ second.1 = Ok (Some "Restart the worker.")
  ∧ issued KSendMessage second.2 = issued KSendMessage emptyWorld + 2
  ∧ storageOps second.2 = storageOps emptyWorld.
Proof.
  apply (overseer_repeats_its_answer Overseeing.marked "s3" emptyWorld
           {| activities :=
                Some [Scenario.remoteActivity "sessions/s3/activities/e1"
                        (Some (OverseerAgent.replacement_character +:+ "ERROR"
                               +:+ OverseerAgent.replacement_character))] |}
           [Scenario.remoteActivity "sessions/s3/activities/e1"
              (Some (OverseerAgent.replacement_character +:+ "ERROR"
                     +:+ OverseerAgent.replacement_character))]
           (OverseerAgent.replacement_character +:+ "ERROR"
            +:+ OverseerAgent.replacement_character)
           [{| content := Some "Restart the worker." |}] "Restart the worker.");
    try reflexivity.
Defined.

(** ** The stuck-session check and the missing API key *)

Lemma intervene_counts env stuckSessions interventions w count :
  (ToolMonitor.intervene env stuckSessions interventions w).1 = Ok count →
  count = interventions + length stuckSessions.
Proof.
  revert interventions w. induction stuckSessions as [|x l IH]; intros k w; simpl.
  - intros [= <-]. lia.
  - unfold bind at 1.
    destruct (OverseerAgent.checkOnJules env (js_id x) w) as [[solution|e] w1]; [|done].
    intros H%IH. lia.
Qed.

(** X26 (services/jules-monitor.ts, [checkForStuckSessions]): the number the
    check returns, when it returns, is the number of rows it selected (those
    whose status is WAITING_FOR_USER_FEEDBACK), whether [checkOnJules] sent
    anything to them or not. *)
Theorem stuck_check_counts_the_sessions env w count :
  storage_fails env (storageOps w) = false →
  (ToolMonitor.checkForStuckSessions env w).1 = Ok count →
  count = length (List.filter ToolMonitor.isStuck (prisma.julesSession_rows w)).
Proof.
  intros Hquery. unfold ToolMonitor.checkForStuckSessions.
  rewrite (bind_Ok _ _ w (List.filter ToolMonitor.isStuck (prisma.julesSession_rows w))
             (after_storage w))
    by (unfold prisma.julesSession_findMany, storage; by rewrite Hquery).
  intros H%intervene_counts. lia.
Qed.

Lemma stuck_check_counts_the_sessions_witness :
  1 = length (List.filter ToolMonitor.isStuck
                (prisma.julesSession_rows
                   (Scenario.storeWith "s3" "WAITING_FOR_USER_FEEDBACK"))).
Proof.
  apply (stuck_check_counts_the_sessions Overseeing.complaining
           (Scenario.storeWith "s3" "WAITING_FOR_USER_FEEDBACK") 1).
  - reflexivity.
  - vm_compute. reflexivity.
Defined.

Section Keyless.
Context (env : Env).
Hypothesis keyless : JULES_API_KEY_bound env = false.

Lemma listSessionsTool_keyless pageSize w :
  Tools.JulesListSessionsTool_execute env pageSize w
  = (Throw "JULES_API_KEY is missing", w).
Proof. unfold Tools.JulesListSessionsTool_execute, Tools.getClient. by rewrite keyless. Qed.

Lemma getActivityTool_keyless sessionId w :
  Tools.JulesGetActivityTool_execute env sessionId w
  = (Throw "JULES_API_KEY is missing", w).
Proof. unfold Tools.JulesGetActivityTool_execute, Tools.getClient. by rewrite keyless. Qed.

Lemma tool_fetchState_keyless sessionId : keeps calls (ToolMonitor.fetchState env sessionId).
Proof.
  intros w. unfold ToolMonitor.fetchState.
  by rewrite (bind_Throw _ _ w _ w (getActivityTool_keyless sessionId w)).
Qed.

Lemma tool_fetchActivities_keyless sessionId :
  keeps calls (ToolMonitor.fetchActivities env sessionId).
Proof. intros w. unfold ToolMonitor.fetchActivities. by rewrite getActivityTool_keyless. Qed.

Lemma tool_sync_keyless : keeps calls (ToolMonitor.runActiveSessionSync env).
Proof.
  unfold ToolMonitor.runActiveSessionSync, MonitorCore.runActiveSessionSync,
    MonitorCore.syncSession, MonitorCore.syncActivitiesForSession, MonitorCore.mirror,
    prisma.julesSession_findMany, prisma.julesSession_update,
    prisma.activityLog_findFirst, prisma.activityLog_create, prisma.KV_put.
  cbv zeta.
  repeat first [apply tool_fetchState_keyless | apply tool_fetchActivities_keyless
               | keeps_step].
Qed.

End Keyless.

(** X27 (index_base_tool.ts, [getClient], and its callers in
    services/jules-monitor.ts and [OverseerAgent.checkOnJules]): without
    JULES_API_KEY every tool throws before it reaches the remote service:
    discovery returns 0 and leaves the world as it is, the active sync makes
    no remote call, and [checkOnJules] rejects with "JULES_API_KEY is
    missing". *)
Theorem tools_need_the_api_key env w sessionId :
  JULES_API_KEY_bound env = false →
  ToolMonitor.syncExternalSessions env w = (Ok 0, w)
  ∧ calls (ToolMonitor.runActiveSessionSync env w).2 = calls w
  ∧ OverseerAgent.checkOnJules env sessionId w = (Throw "JULES_API_KEY is missing", w).
Proof.
  intros Hkeyless. split; [|split].
  - unfold ToolMonitor.syncExternalSessions, MonitorCore.syncExternalSessions,
      ToolMonitor.fetchSessions, bind, attempt.
    by rewrite listSessionsTool_keyless.
  - by apply tool_sync_keyless.
  - unfold OverseerAgent.checkOnJules.
    by rewrite (bind_Throw _ _ w _ w (getActivityTool_keyless env Hkeyless sessionId w)).
Qed.

Lemma tools_need_the_api_key_witness :
  ToolMonitor.syncExternalSessions Overseeing.keyless
    (Scenario.storeWith "s2" "IN_PROGRESS")
  = (Ok 0, Scenario.storeWith "s2" "IN_PROGRESS")
  ∧ calls (ToolMonitor.runActiveSessionSync Overseeing.keyless
             (Scenario.storeWith "s2" "IN_PROGRESS")).2
    = calls (Scenario.storeWith "s2" "IN_PROGRESS")
  ∧ OverseerAgent.checkOnJules Overseeing.keyless "s2"
      (Scenario.storeWith "s2" "IN_PROGRESS")
    = (Throw "JULES_API_KEY is missing", Scenario.storeWith "s2" "IN_PROGRESS").
Proof.
  apply (tools_need_the_api_key Overseeing.keyless
           (Scenario.storeWith "s2" "IN_PROGRESS") "s2").
  reflexivity.
Defined.

(** ** Sessions created through the monitor *)

(** X28 (part_000, [createTrackedSession] and [syncExternalSessions]): when
    the remote service creates the session and the store accepts the row, the
    session is tracked with origin INTERNAL, the prompt of the caller and the
    remote state as its status; a discovery pass that finds the session in
    the remote list afterwards leaves that row as it is. *)
Theorem tracked_session_stays_internal env createSession params session w w1 :
  createSession (Tracking.request_of params) w = (Ok session, w1) →
  julesSession w1 !! s_id session = None →
  storage_fails env (storageOps w1) = false →
  ∃ columns w2,
    Tracking.createTrackedSession env createSession params w = (Ok session, w2)
    ∧ julesSession w2 !! s_id session = Some columns
    ∧ js_origin columns = ORIGIN.INTERNAL
    ∧ js_originalPrompt columns = p_prompt params
    ∧ js_status columns = SessionState_value (s_state session)
    ∧ js_completedAt columns = None
    ∧ julesSession (ClientMonitor.syncExternalSessions env w2).2 !! s_id session
      = Some columns.
Proof.
  intros Hcreate Hnew Hwrite. unfold Tracking.createTrackedSession.
  rewrite (bind_Ok _ _ w session w1 Hcreate).
  unfold bind, new_Date, prisma.julesSession_create, storage, ret.
  rewrite Hwrite. world_simpl. rewrite Hnew.
  eexists _, _. split; [done|]. world_simpl. rewrite lookup_insert_eq.
  split_and!; try done.
  match goal with
  | |- julesSession (ClientMonitor.syncExternalSessions env ?w2).2 !! _ = _ =>
      destruct (syncExternalSessions_effect env (ClientMonitor.fetchSessions env) w2
                  (client_fetchSessions_keeps env)) as (count & w3 & Hrun & Hsub & _)
  end.
  unfold ClientMonitor.syncExternalSessions. rewrite Hrun. cbn [snd].
  eapply lookup_weaken; [|exact Hsub]. world_simpl. apply lookup_insert_eq.
Qed.

Lemma tracked_session_stays_internal_witness :
  ∃ columns w2,
    Tracking.createTrackedSession Creating.listed Creating.createSession Creating.params
      emptyWorld
    = (Ok {| s_name := "sessions/s9"; s_id := "s9"; s_prompt := "Add a health endpoint";
             s_title := Some "Health endpoint"; s_state := QUEUED;
             s_createTime := "2025-01-03T00:00:00Z";
             s_updateTime := "2025-01-03T00:00:00Z" |}, w2)
    ∧ julesSession w2 !! "s9" = Some columns
    ∧ js_origin columns = ORIGIN.INTERNAL
    ∧ js_originalPrompt columns = "Add a health endpoint"
    ∧ js_status columns = SessionState_value QUEUED
    ∧ js_completedAt columns = None
    ∧ julesSession (ClientMonitor.syncExternalSessions Creating.listed w2).2 !! "s9"
      = Some columns.
Proof.
  apply (tracked_session_stays_internal Creating.listed Creating.createSession
           Creating.params
           {| s_name := "sessions/s9"; s_id := "s9"; s_prompt := "Add a health endpoint";
              s_title := Some "Health endpoint"; s_state := QUEUED;
              s_createTime := "2025-01-03T00:00:00Z";
              s_updateTime := "2025-01-03T00:00:00Z" |}
           emptyWorld emptyWorld); reflexivity.
Defined.

(** ** The path of a source *)

Lemma skip_prefix (p s : string) : Sources.skip (String.length p) (p +:+ s) = s.
Proof. induction p as [|c p IH]; [by destruct s|]. exact IH. Qed.

Lemma remove_first_prefix (p s : string) : Sources.remove_first (p +:+ s) p = s.
Proof.
  destruct (p +:+ s) as [|c rest] eqn:Hps; cbn [Sources.remove_first];
    rewrite <- Hps, startsWith_app; apply skip_prefix.
Qed.

(** X29 (client.ts, [getSource]): the full resource name [sources/id] and
    the bare [id] reach the same endpoint, [/sources/id]: the prefix is added
    when it is missing and removed once for the path. *)
Theorem getSource_accepts_name_or_id {Source} (request : string → M Source) id :
  JS.startsWith id "sources/" = false →
  Sources.getSource request id = request ("/sources/" +:+ id)
  ∧ Sources.getSource request ("sources/" +:+ id) = request ("/sources/" +:+ id).
Proof.
  intros Hbare. unfold Sources.getSource. cbv zeta.
  rewrite Hbare, startsWith_app. by rewrite remove_first_prefix.
Qed.

Lemma getSource_accepts_name_or_id_witness :
  Sources.getSource (λ endpoint, ret endpoint) "github-myorg-repo"
  = ret ("/sources/" +:+ "github-myorg-repo")
  ∧ Sources.getSource (λ endpoint, ret endpoint) ("sources/" +:+ "github-myorg-repo")
    = ret ("/sources/" +:+ "github-myorg-repo").
Proof.
  apply (getSource_accepts_name_or_id (λ endpoint, ret endpoint) "github-myorg-repo").
  reflexivity.
Defined.

(** ** The health check *)

Lemma classify_cases errorMessage :
  ((Health.classify errorMessage).1 = Health.FAILURE)
  ∨ ((Health.classify errorMessage).1 = Health.DEGRADED
     ∧ JS.includes errorMessage "401" = false
     ∧ JS.includes errorMessage "403" = false).
Proof.
  unfold Health.classify.
  destruct (JS.includes errorMessage "401"); [by left|].
  destruct (JS.includes errorMessage "403"); [by left|].
  cbn [orb]. repeat case_match; by (left + right).
Qed.

(** X30 (health.ts, [checkHealth]): the health check never throws and reports
    the time it took; it is OK exactly when the three bindings are present and
    the one-session listing succeeds; with a binding missing it is a FAILURE
    reached without any remote call; and DEGRADED is only reported for a
    remote error whose message mentions neither 401 nor 403. *)
Theorem health_check_always_reports env DB JULES_MCP_VECTORIZE w :
  ∃ result w',
    Health.checkHealth env DB JULES_MCP_VECTORIZE w = (Ok result, w')
    ∧ Health.latencyMs result = (now w' - now w)%N
    ∧ (Health.status result = Health.OK ↔
       JULES_API_KEY_bound env = true ∧ DB = true ∧ JULES_MCP_VECTORIZE = true
       ∧ ∃ response,
           listSessions_answer env (issued KListSessions w) (Some 1) = Ok response)
    ∧ (JULES_API_KEY_bound env && DB && JULES_MCP_VECTORIZE = false →
       calls w' = calls w ∧ Health.status result = Health.FAILURE)
    ∧ (Health.status result = Health.DEGRADED →
       ∃ errorMessage,
         listSessions_answer env (issued KListSessions w) (Some 1) = Throw errorMessage
         ∧ JS.includes errorMessage "401" = false
         ∧ JS.includes errorMessage "403" = false).
Proof.
  unfold Health.checkHealth, Health.missing, bind at 1, Date_now.
  destruct (JULES_API_KEY_bound env), DB, JULES_MCP_VECTORIZE;
    cbn [app length Nat.ltb Nat.leb andb];
    try (eexists _, _; split; [reflexivity|];
         cbn [Health.status Health.latencyMs]; split_and!;
         [done|split; [done|by intros (? & ? & ? & ?)]|done|done]).
  unfold try_catch, bind at 1. unfold JulesClient.listSessions. rewrite call_eq.
  cbn [kind_of].
  destruct (listSessions_answer env _ _) as [response|errorMessage].
  - eexists _, _. split; [reflexivity|].
    cbn [Health.status Health.latencyMs]. split_and!; try done.
    split; [intros _; split_and!; try done; by eexists|done].
  - eexists _, _. split; [reflexivity|].
    cbn [Health.status Health.latencyMs]. split_and!; try done.
    + split; [|by intros (_ & _ & _ & response & ?)].
      intros Hok. by destruct (classify_cases errorMessage) as [H|[H _]]; rewrite H in Hok.
    + intros Hdegraded. exists errorMessage. split; [done|].
      destruct (classify_cases errorMessage) as [H|[_ H]]; [congruence|done].
Qed.
